(** * MyCCSA, application [fractionnement]: the leave-fractionation engine

    Shallow embedding of [fractionnement/utils.py],
    [fractionnement/constants.py], [fractionnement/models.py],
    [fractionnement/services/calcul_service.py], of the validation and
    the computations of [fractionnement/forms.py] and of the list of public
    holidays of [fractionnement/services/calendrier_service.py], followed by
    the properties established about them.

    Conventions.
    - Python [int] is [Z]; [//] and [%] are [Z.div] and [Z.modulo] (both
      floor, the sign of the result follows the divisor).
    - A Python call either returns or raises: [result A].
    - [datetime.date] is a record of its three fields, with the bounds
      [MINYEAR]..[MAXYEAR] of the standard library.
    - [decimal.Decimal] is a coefficient and an exponent, with the default
      context (28 significant digits, ROUND_HALF_EVEN); the properties
      about the arithmetic on decimal arguments bound those arguments, so
      that the exponent limits of the context are not reached.
    - The Django cache is a finite map from keys to values, threaded through
      every function that reaches [get_jours_feries]; the properties are
      stated from any cache whose entries are lists that [get_jours_feries]
      computes, whichever entries it holds. *)

From Stdlib Require Import ZArith Lia ZifyBool List Bool Permutation Sorted.
From Stdlib Require Import Ascii.
From Stdlib Require Import QArith Qabs Qfield Qpower.
From stdpp Require Import gmap strings pretty.

Import ListNotations.
Local Open Scope Z_scope.

(** ** Python results *)

Module Py.

(** The exceptions that the modelled code can raise or catch.
    [FuelExhausted] is not a Python exception: it marks the exhaustion of
    the iteration bound handed to a [while] loop, and is shown never to be
    produced (see [boucle_jours_total]). *)
Inductive exn : Type :=
| ValueError
| OverflowError
| DoesNotExist
| MultipleObjectsReturned
| DivisionByZero
| FuelExhausted.

Inductive result (A : Type) : Type :=
| Ok (a : A)
| Raise (e : exn).

Arguments Ok {A} a.
Arguments Raise {A} e.

Definition rbind {A B : Type} (r : result A) (k : A -> result B) : result B :=
  match r with
  | Ok a => k a
  | Raise e => Raise e
  end.

End Py.

Import Py.

Declare Scope py_scope.
Delimit Scope py_scope with py.
Notation "'let?' x ':=' r 'in' k" := (rbind r (fun x => k))
  (at level 10, x name, r at level 100, k at level 200) : py_scope.
Local Open Scope py_scope.

(** ** [datetime.date] *)

Module Datetime.

Record date : Type := mk_date { year : Z; month : Z; day : Z }.

Definition MINYEAR : Z := 1.
Definition MAXYEAR : Z := 9999.

Definition is_leap (y : Z) : bool :=
  (y mod 4 =? 0) && (negb (y mod 100 =? 0) || (y mod 400 =? 0)).

Definition days_in_month (y m : Z) : Z :=
  if m =? 2 then (if is_leap y then 29 else 28)
  else if (m =? 4) || (m =? 6) || (m =? 9) || (m =? 11) then 30
  else 31.

(** The C [int] to which [date] converts each of its arguments. *)
Definition INT_MIN : Z := -2147483648.
Definition INT_MAX : Z := 2147483647.

Definition c_int (n : Z) : bool := (INT_MIN <=? n) && (n <=? INT_MAX).

(** [date(y, m, d)]: the constructor converts its three arguments to C
    integers, which raises [OverflowError] for an argument that does not
    fit, and then checks the year, the month and the day. *)
Definition new_date (y m d : Z) : result date :=
  if negb (c_int y && c_int m && c_int d) then Raise OverflowError
  else if negb ((MINYEAR <=? y) && (y <=? MAXYEAR)) then Raise ValueError
  else if negb ((1 <=? m) && (m <=? 12)) then Raise ValueError
  else if negb ((1 <=? d) && (d <=? days_in_month y m)) then Raise ValueError
  else Ok (mk_date y m d).

(** The dates that exist as Python objects. *)
Definition valid_dateb (d : date) : bool :=
  (MINYEAR <=? year d) && (year d <=? MAXYEAR)
  && (1 <=? month d) && (month d <=? 12)
  && (1 <=? day d) && (day d <=? days_in_month (year d) (month d)).

Definition valid_date (d : date) : Prop := valid_dateb d = true.

Definition date_max : date := mk_date 9999 12 31.

(** Number of days before January 1st of year [y]. *)
Definition days_before_year (y : Z) : Z :=
  let y' := y - 1 in y' * 365 + y' / 4 - y' / 100 + y' / 400.

(** Number of days in year [y] before the first day of month [m]. *)
Definition days_before_month (y m : Z) : Z :=
  (match m with
   | 1 => 0 | 2 => 31 | 3 => 59 | 4 => 90 | 5 => 120 | 6 => 151
   | 7 => 181 | 8 => 212 | 9 => 243 | 10 => 273 | 11 => 304 | _ => 334
   end) + (if (2 <? m) && is_leap y then 1 else 0).

(** [d.toordinal()]: January 1st of year 1 is day 1. *)
Definition toordinal (d : date) : Z :=
  days_before_year (year d) + days_before_month (year d) (month d) + day d.

(** [d.weekday()]: Monday is 0, Sunday is 6. *)
Definition weekday (d : date) : Z := (toordinal d + 6) mod 7.

(** Comparisons are those of the triples (year, month, day). *)
Definition date_eqb (a b : date) : bool :=
  (year a =? year b) && (month a =? month b) && (day a =? day b).

Definition date_ltb (a b : date) : bool :=
  (year a <? year b)
  || ((year a =? year b)
      && ((month a <? month b)
          || ((month a =? month b) && (day a <? day b)))).

Definition date_leb (a b : date) : bool := date_ltb a b || date_eqb a b.

(** [min(a, b)] and [max(a, b)] keep the first argument on a tie. *)
Definition date_min (a b : date) : date := if date_ltb b a then b else a.
Definition date_max_of (a b : date) : date := if date_ltb a b then b else a.

(** [d in l] for a list or a set of dates. *)
Definition date_in (d : date) (l : list date) : bool :=
  existsb (date_eqb d) l.

(** [d + timedelta(days=1)]; past [date.max] the addition raises
    [OverflowError]. *)
Definition tomorrow (d : date) : result date :=
  if day d <? days_in_month (year d) (month d)
  then Ok (mk_date (year d) (month d) (day d + 1))
  else if month d <? 12 then Ok (mk_date (year d) (month d + 1) 1)
  else if year d <? MAXYEAR then Ok (mk_date (year d + 1) 1 1)
  else Raise OverflowError.

Fixpoint add_days (n : nat) (d : date) : result date :=
  match n with
  | O => Ok d
  | S k => let? d' := tomorrow d in add_days k d'
  end.

(** [d + timedelta(days=n)] for [n >= 0], the only use the code makes of
    it: the [n]-th day after [d]. *)
Definition date_add (d : date) (n : Z) : result date :=
  add_days (Z.to_nat n) d.

(** [sorted(l)] on dates: the order is total and equal dates are
    indistinguishable, so every sorting algorithm returns the same list. *)
Fixpoint insert_sorted (d : date) (l : list date) : list date :=
  match l with
  | [] => [d]
  | x :: r => if date_leb d x then d :: l else x :: insert_sorted d r
  end.

Definition sorted (l : list date) : list date :=
  fold_right insert_sorted [] l.

(** [d - timedelta(days=1)]; before [date.min] the subtraction raises
    [OverflowError]. *)
Definition yesterday (d : date) : result date :=
  if 1 <? day d
  then Ok (mk_date (year d) (month d) (day d - 1))
  else if 1 <? month d
  then Ok (mk_date (year d) (month d - 1)
                   (days_in_month (year d) (month d - 1)))
  else if MINYEAR <? year d then Ok (mk_date (year d - 1) 12 31)
  else Raise OverflowError.

Fixpoint sub_days (n : nat) (d : date) : result date :=
  match n with
  | O => Ok d
  | S k => let? d' := yesterday d in sub_days k d'
  end.

(** [d - timedelta(days=n)] for [n >= 0]: the [n]-th day before [d]. *)
Definition date_sub (d : date) (n : Z) : result date :=
  sub_days (Z.to_nat n) d.

(** The decimal digit of the units of [n]. *)
Definition chiffre (n : Z) : ascii := ascii_of_nat (48 + Z.to_nat (n mod 10)).

(** ["%02d" % n] for [0 <= n < 100], ["%04d" % n] for [0 <= n < 10000]. *)
Definition deux_chiffres (n : Z) : string :=
  String (chiffre (n / 10)) (String (chiffre n) EmptyString).

Definition quatre_chiffres (n : Z) : string :=
  String (chiffre (n / 1000)) (String (chiffre (n / 100)) (deux_chiffres n)).

(** [d.isoformat()]: [YYYY-MM-DD]; the year of a date has at most four
    digits. *)
Definition isoformat (d : date) : string :=
  quatre_chiffres (year d) +:+ "-" +:+ deux_chiffres (month d)
  +:+ "-" +:+ deux_chiffres (day d).

End Datetime.

Import Datetime.

(** ** [decimal.Decimal], default context *)

Module Decimal.

(** A finite decimal is [coef * 10 ^ expo]; the sign is carried by the
    coefficient.  Special values (NaN, infinities, the negative zero) and
    the exponent limits of the context are outside the model: an operation
    whose result passes [Emax] raises [Overflow] in Python and returns here.
    The properties stated of [calculer_rtt_annuels] and of
    [calculer_conges_annuels] bound the digits and the exponents of their
    arguments, which keeps every intermediate result far from the limits;
    the days that the other functions add up are small integers and
    halves. *)
Record decimal : Type := mk_dec { coef : Z; expo : Z }.

Definition prec : Z := 28.

Fixpoint ndigits_aux (fuel : nat) (n : Z) : Z :=
  match fuel with
  | O => 1
  | S k => if n <? 10 then 1 else 1 + ndigits_aux k (n / 10)
  end.

(** [len(str(n))] for [n >= 0]. *)
Definition ndigits (n : Z) : Z := ndigits_aux (S (Z.to_nat (Z.log2 n))) n.

(** Quotient of [n >= 0] by [p > 0], rounded half to even. *)
Definition div_half_even (n p : Z) : Z :=
  let q := n / p in
  let r := n mod p in
  if 2 * r <? p then q
  else if p <? 2 * r then q + 1
  else if Z.even q then q else q + 1.

(** [Decimal._fix]: round to [prec] significant digits. *)
Definition fix_ (x : decimal) : decimal :=
  let n := ndigits (Z.abs (coef x)) in
  if prec <? n then
    let d := n - prec in
    let c := div_half_even (Z.abs (coef x)) (10 ^ d) in
    if prec <? ndigits c
    then mk_dec (Z.sgn (coef x) * (c / 10)) (expo x + d + 1)
    else mk_dec (Z.sgn (coef x) * c) (expo x + d)
  else x.

(** [Decimal(n)] for an [int]. *)
Definition of_int (n : Z) : decimal := mk_dec n 0.

Definition add (a b : decimal) : decimal :=
  let e := Z.min (expo a) (expo b) in
  fix_ (mk_dec (coef a * 10 ^ (expo a - e) + coef b * 10 ^ (expo b - e)) e).

Definition sub (a b : decimal) : decimal :=
  let e := Z.min (expo a) (expo b) in
  fix_ (mk_dec (coef a * 10 ^ (expo a - e) - coef b * 10 ^ (expo b - e)) e).

Definition mul (a b : decimal) : decimal :=
  fix_ (mk_dec (coef a * coef b) (expo a + expo b)).

(** Strips the trailing zeros of an exact quotient, up to the ideal
    exponent. *)
Fixpoint strip_zeros (fuel : nat) (c e ideal : Z) : decimal :=
  match fuel with
  | O => mk_dec c e
  | S k => if (e <? ideal) && (c mod 10 =? 0)
           then strip_zeros k (c / 10) (e + 1) ideal
           else mk_dec c e
  end.

(** [a / b], as [Decimal.__truediv__] computes it. *)
Definition div (a b : decimal) : result decimal :=
  if coef b =? 0 then Raise DivisionByZero
  else if coef a =? 0 then Ok (fix_ (mk_dec 0 (expo a - expo b)))
  else
    let sign := Z.sgn (coef a) * Z.sgn (coef b) in
    let n1 := Z.abs (coef a) in
    let n2 := Z.abs (coef b) in
    let shift := ndigits n2 - ndigits n1 + prec + 1 in
    let e := expo a - expo b - shift in
    let num := if 0 <=? shift then n1 * 10 ^ shift else n1 in
    let den := if 0 <=? shift then n2 else n2 * 10 ^ (- shift) in
    let q := num / den in
    let r := num mod den in
    if negb (r =? 0)
    then Ok (fix_ (mk_dec (sign * (if q mod 5 =? 0 then q + 1 else q)) e))
    else
      let s := strip_zeros (Z.to_nat (expo a - expo b - e)) q e
                           (expo a - expo b) in
      Ok (fix_ (mk_dec (sign * coef s) (expo s))).

(** Numeric comparison. *)
Definition cmp (a b : decimal) : comparison :=
  let e := Z.min (expo a) (expo b) in
  (coef a * 10 ^ (expo a - e)) ?= (coef b * 10 ^ (expo b - e)).

Definition eqb (a b : decimal) : bool :=
  match cmp a b with Eq => true | _ => false end.
Definition ltb (a b : decimal) : bool :=
  match cmp a b with Lt => true | _ => false end.
Definition leb (a b : decimal) : bool :=
  match cmp a b with Gt => false | _ => true end.

(** [max(a, b)] keeps [a] unless [b] is strictly greater. *)
Definition max (a b : decimal) : decimal := if ltb a b then b else a.

(** [int(x)]: truncation towards zero. *)
Definition to_int (x : decimal) : Z :=
  if 0 <=? expo x then coef x * 10 ^ expo x
  else Z.quot (coef x) (10 ^ (- expo x)).

(** [round(x)]: the nearest integer, ties to the even one. *)
Definition round (x : decimal) : Z :=
  if 0 <=? expo x then coef x * 10 ^ expo x
  else Z.sgn (coef x) * div_half_even (Z.abs (coef x)) (10 ^ (- expo x)).

(** The signal that [quantize] raises, trapped by the default context. *)
Inductive signal : Type := InvalidOperation.

(** [x.adjusted()]: the exponent of the most significant digit. *)
Definition adjusted (x : decimal) : Z :=
  expo x + ndigits (Z.abs (coef x)) - 1.

(** [Decimal._rescale]: the same value at exponent [e], rounded half to
    even when digits are lost. *)
Definition rescale (x : decimal) (e : Z) : decimal :=
  if coef x =? 0 then mk_dec 0 e
  else if e <=? expo x then mk_dec (coef x * 10 ^ (expo x - e)) e
  else mk_dec (Z.sgn (coef x)
               * div_half_even (Z.abs (coef x)) (10 ^ (e - expo x))) e.

(** [x.quantize(exp)]: [x] at the exponent of [exp]; the result must fit
    the precision of the context. *)
Definition quantize (x exp : decimal) : decimal + signal :=
  if coef x =? 0 then inl (fix_ (mk_dec 0 (expo exp)))
  else if prec <? adjusted x - expo exp + 1 then inr InvalidOperation
  else
    let ans := rescale x (expo exp) in
    if prec <? ndigits (Z.abs (coef ans)) then inr InvalidOperation
    else inl (fix_ ans).

End Decimal.

Import Decimal.

(** ** [fractionnement/constants.py] *)

Module Constants.
Definition ANNEE_MIN : Z := 2020.
Definition ANNEE_MAX : Z := 2100.
(** [Decimal('35')] *)
Definition HEURES_SEMAINE_MIN : decimal := mk_dec 35 0.
Definition DUREE_LEGALE_ANNUELLE : Z := 1607.
Definition SEMAINES_ANNUELLES : Z := 52.
(** [Decimal('39')] *)
Definition HEURES_SEMAINE_MAX : decimal := mk_dec 39 0.
(** [Decimal('0.5')] and [Decimal('1.0')] *)
Definition QUOTITE_TRAVAIL_MIN : decimal := mk_dec 5 (-1).
Definition QUOTITE_TRAVAIL_MAX : decimal := mk_dec 10 (-1).
(** [Decimal('25.00')] *)
Definition CONGES_ANNUELS_BASE : decimal := mk_dec 2500 (-2).

End Constants.

Import Constants.

(** ** The Django cache and the monad of cached computations *)

(** The cache, restricted to the entries under the keys
    [jours_feries_<annee>], whose values are lists of dates.  The backend of
    the settings is a database table shared with other keys and may drop
    entries; a dropped entry is computed again, to the same list, so that
    the cache met by a call is always one whose entries are lists that
    [get_jours_feries] computed ([cache_coherent] below). *)
Abbreviation cache := (gmap string (list date)).

Definition M (A : Type) : Type := cache -> result A * cache.

Definition m_ret {A : Type} (a : A) : M A := fun c => (Ok a, c).

Definition m_raise {A : Type} (e : exn) : M A := fun c => (Raise e, c).

Definition m_lift {A : Type} (r : result A) : M A := fun c => (r, c).

Definition m_bind {A B : Type} (m : M A) (k : A -> M B) : M B :=
  fun c => match m c with
           | (Ok a, c') => k a c'
           | (Raise e, c') => (Raise e, c')
           end.

Notation "'let!' x ':=' m 'in' k" := (m_bind m (fun x => k))
  (at level 10, x name, m at level 100, k at level 200) : py_scope.

(** ** [fractionnement/utils.py] *)

Module Utils.

Definition get_jours_feries_fixes (annee : Z) : result (list date) :=
  let? d1 := new_date annee 1 1 in
  let? d2 := new_date annee 5 1 in
  let? d3 := new_date annee 5 8 in
  let? d4 := new_date annee 7 14 in
  let? d5 := new_date annee 8 15 in
  let? d6 := new_date annee 11 1 in
  let? d7 := new_date annee 11 11 in
  let? d8 := new_date annee 12 25 in
  Ok [d1; d2; d3; d4; d5; d6; d7; d8].

Definition calculer_paques (annee : Z) : result date :=
  let a := annee mod 19 in
  let b := annee / 100 in
  let c := annee mod 100 in
  let d := b / 4 in
  let e := b mod 4 in
  let f := (b + 8) / 25 in
  let g := (b - f + 1) / 3 in
  let h := (19 * a + b - d - g + 15) mod 30 in
  let i := c / 4 in
  let k := c mod 4 in
  let l := (32 + 2 * e + 2 * i - h - k) mod 7 in
  let m := (a + 11 * h + 22 * l) / 451 in
  let mois := (h + l - 7 * m + 114) / 31 in
  let jour := ((h + l - 7 * m + 114) mod 31) + 1 in
  new_date annee mois jour.

(** The branch of [get_jours_feries] taken on a cache miss. *)
Definition calcul_jours_feries (annee : Z) : result (list date) :=
  let? jours_feries := get_jours_feries_fixes annee in
  let? paques := calculer_paques annee in
  let? lundi_paques := date_add paques 1 in
  let? ascension := date_add paques 39 in
  let? lundi_pentecote := date_add paques 50 in
  Ok (sorted (jours_feries
              ++ [paques; lundi_paques; ascension; lundi_pentecote])).

Definition cache_key (annee : Z) : string :=
  "jours_feries_" +:+ pretty annee.

Definition get_jours_feries (annee : Z) : M (list date) :=
  fun c =>
    match c !! cache_key annee with
    | Some jours_feries => (Ok jours_feries, c)
    | None =>
        match calcul_jours_feries annee with
        | Ok jours_feries =>
            (Ok jours_feries, <[cache_key annee := jours_feries]> c)
        | Raise e => (Raise e, c)
        end
    end.

Definition est_jour_ouvre (d : date) : bool := weekday d <? 5.

Definition est_jour_ouvrable (d : date) : bool := weekday d <? 6.

(** The [while current <= date_fin] loop shared by the two counters;
    [est_compte] is the weekday test of the counter. *)
Fixpoint boucle_jours (fuel : nat) (est_compte : date -> bool)
         (jours_feries : list date) (current date_fin : date)
         (compteur : Z) : result Z :=
  match fuel with
  | O => Raise FuelExhausted
  | S fuel' =>
      if date_leb current date_fin then
        let compteur' :=
          if est_compte current && negb (date_in current jours_feries)
          then compteur + 1 else compteur in
        let? current' := tomorrow current in
        boucle_jours fuel' est_compte jours_feries current' date_fin
                     compteur'
      else Ok compteur
  end.

(** One test of the loop condition per day of the range, and a last one. *)
Definition fuel_of (date_debut date_fin : date) : nat :=
  S (Z.to_nat (toordinal date_fin - toordinal date_debut + 1)).

Definition compter_jours_ouvres (date_debut date_fin : date)
           (exclure_feries : bool) (annee : option Z) : M Z :=
  let annee := match annee with
               | None => year date_debut
               | Some a => a
               end in
  let! jours_feries := (if exclure_feries then get_jours_feries annee
                        else m_ret []) in
  m_lift (boucle_jours (fuel_of date_debut date_fin) est_jour_ouvre
                      jours_feries date_debut date_fin 0).

Definition compter_jours_ouvrables (date_debut date_fin : date)
           (exclure_feries : bool) (annee : option Z) : M Z :=
  let annee := match annee with
               | None => year date_debut
               | Some a => a
               end in
  let! jours_feries := (if exclure_feries then get_jours_feries annee
                        else m_ret []) in
  m_lift (boucle_jours (fuel_of date_debut date_fin) est_jour_ouvrable
                      jours_feries date_debut date_fin 0).

Definition get_jours_feries_variables (annee : Z) : result (list date) :=
  let? paques := calculer_paques annee in
  let? vendredi_saint := date_sub paques 2 in
  let? lundi_paques := date_add paques 1 in
  let? ascension := date_add paques 39 in
  let? lundi_pentecote := date_add paques 50 in
  Ok [vendredi_saint; paques; lundi_paques; ascension; lundi_pentecote].

Definition est_dans_periode_principale (d : date) : bool :=
  let mois := month d in
  let jour := day d in
  if (mois =? 5) && (1 <=? jour) then true
  else if (6 <=? mois) && (mois <=? 9) then true
  else if (mois =? 10) && (jour <=? 31) then true
  else false.

Definition est_hors_periode_principale (d : date) : bool :=
  negb (est_dans_periode_principale d).

End Utils.

Import Utils.

(** ** [fractionnement/models.py]: the rows and the queries used *)

Module Models.

(** A user is identified by its primary key. *)
Definition User : Type := Z.

Record CycleHebdomadaire : Type := mk_cycle {
  ch_user : User;
  ch_annee : Z;
  heures_semaine : decimal;
  quotite_travail : decimal;
  ch_jours_ouvres_ou_ouvrables : string
}.

Record ParametresAnnee : Type := mk_parametres {
  pa_user : User;
  pa_annee : Z;
  pa_jours_ouvres_ou_ouvrables : string
}.

Record PeriodeConge : Type := mk_periode {
  pc_user : User;
  date_debut : date;
  debut_type : string;
  date_fin : date;
  fin_type : string;
  type_conge : string;
  annee_civile : Z
}.

(** The three tables, each in the order in which the database returns its
    rows. *)
Record database : Type := mk_db {
  cycles : list CycleHebdomadaire;
  parametres : list ParametresAnnee;
  periodes : list PeriodeConge
}.

(** [Model.objects.get(...)] on the rows that match the lookup. *)
Definition objects_get {A : Type} (rows : list A) : result A :=
  match rows with
  | [] => Raise DoesNotExist
  | [x] => Ok x
  | _ => Raise MultipleObjectsReturned
  end.

Definition ParametresAnnee_get (db : database) (user : User) (annee : Z)
  : result ParametresAnnee :=
  objects_get
    (List.filter (fun p => (pa_user p =? user) && (pa_annee p =? annee))
            (parametres db)).

Definition CycleHebdomadaire_get (db : database) (user : User) (annee : Z)
  : result CycleHebdomadaire :=
  objects_get
    (List.filter (fun c => (ch_user c =? user) && (ch_annee c =? annee))
            (cycles db)).

(** [PeriodeConge.objects.filter(user=, annee_civile=, type_conge=)]. *)
Definition PeriodeConge_filter (db : database) (user : User) (annee : Z)
           (type : string) : list PeriodeConge :=
  List.filter (fun p => (pc_user p =? user) && (annee_civile p =? annee)
                   && String.eqb (type_conge p) type)
         (periodes db).

(** [CycleHebdomadaire.clean]: [None] when the row is accepted, otherwise
    the field that the [ValidationError] names. *)
Definition CycleHebdomadaire_clean (self : CycleHebdomadaire)
  : option string :=
  if Decimal.ltb (heures_semaine self) HEURES_SEMAINE_MIN
     || Decimal.ltb HEURES_SEMAINE_MAX (heures_semaine self)
  then Some "heures_semaine"
  else if Decimal.ltb (quotite_travail self) (mk_dec 5 (-1))
          || Decimal.ltb (mk_dec 10 (-1)) (quotite_travail self)
  then Some "quotite_travail"
  else None.

(** [PeriodeConge.clean]; both dates are set on a row. *)
Definition PeriodeConge_clean (self : PeriodeConge) : option string :=
  if date_ltb (date_fin self) (date_debut self) then Some "date_fin"
  else None.

End Models.

Import Models.

(** ** [fractionnement/services/calcul_service.py] *)

Module CalculService.

Import Constants.

Definition calculer_rtt_annuels (heures_semaine quotite_travail : decimal)
  : result Z :=
  if Decimal.leb heures_semaine HEURES_SEMAINE_MIN then Ok 0
  else
    let heures_annuelles :=
      Decimal.mul heures_semaine (of_int SEMAINES_ANNUELLES) in
    let heures_supplementaires :=
      Decimal.sub heures_annuelles (of_int DUREE_LEGALE_ANNUELLE) in
    if Decimal.leb heures_supplementaires (of_int 0) then Ok 0
    else
      let? quotient := Decimal.div heures_supplementaires heures_semaine in
      let rtt_decimal := Decimal.mul quotient quotite_travail in
      Ok (Decimal.round rtt_decimal).

Definition calculer_jours_fractionnement (jours_hors_periode : Z) : Z :=
  if jours_hors_periode <? 5 then 0
  else if (5 <=? jours_hors_periode) && (jours_hors_periode <=? 7) then 1
  else 2.

Definition compter_jours_periode (date_debut date_fin : date)
           (jours_ouvres_ou_ouvrables : string) (exclure_feries : bool)
           (annee : option Z) (debut_type fin_type : string) : M decimal :=
  let annee := match annee with
               | None => year date_debut
               | Some a => a
               end in
  let! jours_pleins :=
    (if String.eqb jours_ouvres_ou_ouvrables "ouvrables"
     then compter_jours_ouvrables date_debut date_fin exclure_feries
                                  (Some annee)
     else compter_jours_ouvres date_debut date_fin exclure_feries
                               (Some annee)) in
  let total_jours := of_int jours_pleins in
  let debut_compte :=
    if String.eqb jours_ouvres_ou_ouvrables "ouvrables"
    then est_jour_ouvrable date_debut else est_jour_ouvre date_debut in
  let! debut_compte :=
    (if exclure_feries && debut_compte then
       let! jours_feries := get_jours_feries annee in
       m_ret (if date_in date_debut jours_feries then false
              else debut_compte)
     else m_ret debut_compte) in
  let total_jours :=
    if debut_compte && String.eqb debut_type "apres_midi"
    then Decimal.sub total_jours (mk_dec 5 (-1)) else total_jours in
  let fin_compte :=
    if String.eqb jours_ouvres_ou_ouvrables "ouvrables"
    then est_jour_ouvrable date_fin else est_jour_ouvre date_fin in
  let! fin_compte :=
    (if exclure_feries && fin_compte then
       let! jours_feries := get_jours_feries annee in
       m_ret (if date_in date_fin jours_feries then false else fin_compte)
     else m_ret fin_compte) in
  let total_jours :=
    if fin_compte && String.eqb fin_type "matin"
    then Decimal.sub total_jours (mk_dec 5 (-1)) else total_jours in
  m_ret (Decimal.max (mk_dec 0 (-1)) total_jours).

(** The body of the [try] inside the loop over the periods: the days of
    one period that fall outside the main period. *)
Definition jours_hors_de_periode (periode : PeriodeConge)
           (jours_type : string) (annee : Z) : M decimal :=
  let date_debut := date_debut periode in
  let date_fin := date_fin periode in
  let debut_type := debut_type periode in
  let fin_type := fin_type periode in
  let periode_entiere_hors :=
    (((11 <=? month date_debut) && (11 <=? month date_fin))
     || ((month date_debut <=? 4) && (month date_fin <=? 4))
     || ((11 <=? month date_debut) && (month date_fin <=? 4)))
    && negb ((5 <=? month date_debut) && (month date_debut <=? 10)) in
  if periode_entiere_hors then
    compter_jours_periode date_debut date_fin jours_type true (Some annee)
                          debut_type fin_type
  else if (5 <=? month date_debut) && (month date_fin <=? 10) then
    m_ret (mk_dec 0 (-1))
  else
    let jours_hors := mk_dec 0 (-1) in
    let! jours_hors :=
      (if month date_debut <=? 4 then
         let! fin_avril := m_lift (new_date annee 4 30) in
         let date_fin_sous_periode := date_min date_fin fin_avril in
         let fin_type_sous :=
           if date_eqb date_fin_sous_periode date_fin
           then fin_type else "apres_midi" in
         let! n := compter_jours_periode date_debut date_fin_sous_periode
                     jours_type true (Some annee) debut_type
                     fin_type_sous in
         m_ret (Decimal.add jours_hors n)
       else m_ret jours_hors) in
    let! jours_hors :=
      (if 11 <=? month date_fin then
         let! debut_novembre := m_lift (new_date annee 11 1) in
         let date_debut_sous_periode :=
           date_max_of date_debut debut_novembre in
         let debut_type_sous :=
           if date_eqb date_debut_sous_periode date_debut
           then debut_type else "matin" in
         let! n := compter_jours_periode date_debut_sous_periode date_fin
                     jours_type true (Some annee) debut_type_sous
                     fin_type in
         m_ret (Decimal.add jours_hors n)
       else m_ret jours_hors) in
    m_ret jours_hors.

(** The loop over the periods: an exception raised for one period is
    logged and the period contributes nothing. *)
Fixpoint somme_periodes (periodes : list PeriodeConge) (jours_type : string)
         (annee : Z) (total_jours_hors_periode : decimal) : M decimal :=
  match periodes with
  | [] => m_ret total_jours_hors_periode
  | periode :: reste =>
      fun c =>
        match jours_hors_de_periode periode jours_type annee c with
        | (Ok jours_hors, c') =>
            somme_periodes reste jours_type annee
              (Decimal.add total_jours_hors_periode jours_hors) c'
        | (Raise _, c') =>
            somme_periodes reste jours_type annee
              total_jours_hors_periode c'
        end
  end.

(** [annee] is an [int] by its type, which settles the [isinstance] test;
    building the queryset does not reach the database, so the [try] around
    it has nothing to catch.  A second row of [ParametresAnnee] for the
    same user and year makes [get] raise [MultipleObjectsReturned], which
    only [except ParametresAnnee.DoesNotExist] would not catch. *)
Definition get_jours_hors_periode_principale (db : database) (user : User)
           (annee : Z) : M Z :=
  if (annee <? ANNEE_MIN) || (ANNEE_MAX <? annee) then m_raise ValueError
  else
    let! jours_type :=
      m_lift (match ParametresAnnee_get db user annee with
             | Ok parametres => Ok (pa_jours_ouvres_ou_ouvrables parametres)
             | Raise DoesNotExist => Ok "ouvres"
             | Raise e => Raise e
             end) in
    let periodes := PeriodeConge_filter db user annee "annuel" in
    let! total_jours_hors_periode :=
      somme_periodes periodes jours_type annee (mk_dec 0 (-1)) in
    m_ret (Decimal.to_int total_jours_hors_periode).

(** The dictionary returned by [calculer_fractionnement_complet]. *)
Record resultat : Type := mk_resultat {
  jours_hors_periode : Z;
  jours_fractionnement : Z;
  annee_resultat : Z
}.

(** Both [except] clauses log the exception and raise it again. *)
Definition calculer_fractionnement_complet (db : database) (user : User)
           (annee : Z) : M resultat :=
  fun c =>
    match get_jours_hors_periode_principale db user annee c with
    | (Ok jours_hors_periode, c') =>
        (Ok (mk_resultat jours_hors_periode
               (calculer_jours_fractionnement jours_hors_periode) annee), c')
    | (Raise ValueError, c') => (Raise ValueError, c')
    | (Raise e, c') => (Raise e, c')
    end.

(** [jours_ouvres_ou_ouvrables] is not read. *)
Definition calculer_conges_annuels (quotite_travail : decimal)
           (jours_ouvres_ou_ouvrables : string) : decimal + signal :=
  let conges_base := CONGES_ANNUELS_BASE in
  let conges_proratises := Decimal.mul conges_base quotite_travail in
  quantize conges_proratises (mk_dec 1 (-2)).

End CalculService.

Import CalculService.

(** ** [fractionnement/forms.py]: how [PeriodeCongeForm.clean] resolves the
    day-counting convention *)

Module Forms.

Definition PeriodeCongeForm_jours_type (db : database) (user : User)
           (annee_civile : Z) : result string :=
  match ParametresAnnee_get db user annee_civile with
  | Ok parametres => Ok (pa_jours_ouvres_ou_ouvrables parametres)
  | Raise DoesNotExist =>
      match CycleHebdomadaire_get db user annee_civile with
      | Ok cycle => Ok (ch_jours_ouvres_ou_ouvrables cycle)
      | Raise DoesNotExist => Ok "ouvres"
      | Raise e => Raise e
      end
  | Raise e => Raise e
  end.

(** [PeriodeCongeForm.clean_date_fin]: [None] stands for the
    [ValidationError]; both dates are present. *)
Definition PeriodeCongeForm_clean_date_fin (date_debut date_fin : date)
  : option date :=
  if date_ltb date_fin date_debut then None else Some date_fin.

(** [PeriodeCongeForm.clean] for a form with a user and its two dates: the
    values kept as [annee_civile_calculee] and [nb_jours_calcule]. *)
Definition PeriodeCongeForm_clean (db : database) (user : User)
           (date_debut : date) (debut_type : string)
           (date_fin : date) (fin_type : string) : M (Z * decimal) :=
  let annee_civile := year date_debut in
  let! jours_type :=
    m_lift (PeriodeCongeForm_jours_type db user annee_civile) in
  let! nb_jours :=
    compter_jours_periode date_debut date_fin jours_type true
                          (Some annee_civile) debut_type fin_type in
  m_ret (annee_civile, nb_jours).

(** [ParametresAnneeForm.clean_annee] of a form that creates a row
    ([instance.pk] is unset): [None] stands for the [ValidationError]. *)
Definition ParametresAnneeForm_clean_annee (db : database)
           (user : option User) (annee : Z) : option Z :=
  if (annee <? ANNEE_MIN) || (ANNEE_MAX <? annee) then None
  else
    match user with
    | Some u =>
        let existing :=
          List.filter (fun p => (pa_user p =? u) && (pa_annee p =? annee))
                      (parametres db) in
        match existing with
        | [] => Some annee
        | _ :: _ => None
        end
    | None => Some annee
    end.

(** [ParametresAnneeForm.save] of a valid creating form with a user: the
    row is added to the table. *)
Definition ParametresAnneeForm_save (db : database) (user : User)
           (annee : Z) (jours_ouvres_ou_ouvrables : string) : database :=
  mk_db (cycles db)
        (parametres db ++ [mk_parametres user annee jours_ouvres_ou_ouvrables])
        (periodes db).

(** [PeriodeCongeForm.save] of a valid form with a user: the row is added
    to the table, with the year that [clean] computed. *)
Definition PeriodeCongeForm_save (db : database) (user : User)
           (date_debut : date) (debut_type : string)
           (date_fin : date) (fin_type : string) (type_conge : string)
  : database :=
  mk_db (cycles db) (parametres db)
        (periodes db
         ++ [mk_periode user date_debut debut_type date_fin fin_type
                        type_conge (year date_debut)]).

End Forms.

Import Forms.

(** ** [fractionnement/services/calendrier_service.py]: the list of
    public holidays of the calendar *)

Module CalendrierService.

(** One dictionary of the list that [get_jours_feries_list] returns. *)
Record JourFerie : Type := mk_jour_ferie {
  jf_date : string;
  jf_nom : string;
  jf_type : string
}.

Definition noms_feries : gmap Z string :=
  list_to_map [(1, "Jour de l'an"); (5, "Fête du Travail");
               (8, "Victoire en Europe"); (14, "Fête nationale");
               (15, "Assomption"); (11, "Toussaint"); (25, "Noël")].

Definition get_jours_feries_list (annee : Z) : M (list JourFerie) :=
  let! jours_feries := get_jours_feries annee in
  m_ret
    (List.map
       (fun jour_ferie =>
          let nom := default "Jour férié" (noms_feries !! day jour_ferie) in
          let nom :=
            if (month jour_ferie =? 3) || (month jour_ferie =? 4) then
              if weekday jour_ferie =? 0 then "Lundi de Pâques"
              else "Pâques"
            else if (month jour_ferie =? 5) && (15 <? day jour_ferie)
            then "Ascension"
            else if (month jour_ferie =? 5) && (20 <? day jour_ferie)
            then "Lundi de Pentecôte"
            else nom in
          mk_jour_ferie (isoformat jour_ferie) nom "ferie")
       jours_feries).

End CalendrierService.

Import CalendrierService.

(** ** Definitions in which the properties are stated *)

Module Spec.

(** Easter as the specification words it: [h + l - 7m + 114] of the Gauss
    congruences, from which the month and the day are read. *)
Definition gauss_n (year : Z) : Z :=
  let a := year mod 19 in
  let b := year / 100 in
  let c := year mod 100 in
  let d := b / 4 in
  let e := b mod 4 in
  let f := (b + 8) / 25 in
  let g := (b - f + 1) / 3 in
  let h := (19 * a + b - d - g + 15) mod 30 in
  let i := c / 4 in
  let k := c mod 4 in
  let l := (32 + 2 * e + 2 * i - h - k) mod 7 in
  let m := (a + 11 * h + 22 * l) / 451 in
  h + l - 7 * m + 114.

Definition gauss_month (year : Z) : Z := gauss_n year / 31.

Definition gauss_day (year : Z) : Z := gauss_n year mod 31 + 1.

(** The [n] consecutive days that start at [d] (fewer when the calendar
    ends before). *)
Fixpoint jours_a_partir (d : date) (n : nat) : list date :=
  match n with
  | O => []
  | S k => d :: match tomorrow d with
                | Ok d' => jours_a_partir d' k
                | Raise _ => []
                end
  end.

(** The days from [a] to [b], both included. *)
Definition jours_de_la_plage (a b : date) : list date :=
  jours_a_partir a (Z.to_nat (toordinal b - toordinal a + 1)).

(** How many days of [l] pass the weekday test [est_compte] and are not in
    [jours_feries]. *)
Definition nombre_jours (est_compte : date -> bool)
           (jours_feries : list date) (l : list date) : Z :=
  Z.of_nat (length (List.filter (fun d => est_compte d
                                     && negb (date_in d jours_feries)) l)).

(** A cache is coherent when each entry under a key [jours_feries_<annee>]
    is the list that [get_jours_feries] computes for that year: the state
    of a cache that only [get_jours_feries] has written to. *)
Definition cache_coherent (c : cache) : Prop :=
  forall annee l,
    c !! cache_key annee = Some l -> calcul_jours_feries annee = Ok l.

(** [retourne m r]: started from any coherent cache, [m] gives the result
    [r] and leaves a coherent cache. *)
Definition retourne {A : Type} (m : M A) (r : result A) : Prop :=
  forall c, cache_coherent c ->
            exists c', m c = (r, c') /\ cache_coherent c'.

(** The year whose public holidays a counter excludes. *)
Definition annee_feries (annee : option Z) (date_debut : date) : Z :=
  match annee with
  | None => year date_debut
  | Some a => a
  end.

(** What the two counters return, from a coherent cache. *)
Definition valeur_compteur (est_compte : date -> bool) (a b : date)
           (exclure_feries : bool) (annee : option Z) : result Z :=
  let? jf := (if exclure_feries
              then calcul_jours_feries (annee_feries annee a) else Ok []) in
  if date_leb a b
  then if date_eqb b date_max then Raise OverflowError
       else Ok (nombre_jours est_compte jf (jours_de_la_plage a b))
  else Ok 0.

(** The eight fixed public holidays of a year. *)
Definition jours_feries_fixes (annee : Z) : list date :=
  [mk_date annee 1 1; mk_date annee 5 1; mk_date annee 5 8;
   mk_date annee 7 14; mk_date annee 8 15; mk_date annee 11 1;
   mk_date annee 11 11; mk_date annee 12 25].

(** [a <= b] on dates. *)
Definition date_le (a b : date) : Prop := date_leb a b = true.

(** The weekday test of a counting mode. *)
Definition est_compte_mode (mode : string) (d : date) : bool :=
  if String.eqb mode "ouvrables" then est_jour_ouvrable d
  else est_jour_ouvre d.

(** [d] is not a public holiday that the count excludes. *)
Definition non_exclu (exclure_feries : bool) (annee : Z) (d : date) : Prop :=
  exclure_feries = true ->
  exists jf, calcul_jours_feries annee = Ok jf /\ date_in d jf = false.

(** [m] gives, from any coherent cache, what it gives from the empty one. *)
Definition independant {A : Type} (m : M A) : Prop :=
  retourne m (fst (m ∅)).

(** The convention that [get_jours_hors_periode_principale] resolves. *)
Definition jours_type_service (db : database) (user : User) (annee : Z)
  : result string :=
  match ParametresAnnee_get db user annee with
  | Ok parametres => Ok (pa_jours_ouvres_ou_ouvrables parametres)
  | Raise DoesNotExist => Ok "ouvres"
  | Raise e => Raise e
  end.

(** The period of the scenario: Monday 4 November 2024, morning, to Friday
    8 November 2024, morning. *)
Definition periode_du_4_au_8 (p : PeriodeConge) : Prop :=
  date_debut p = mk_date 2024 11 4 /\ debut_type p = "matin"
  /\ date_fin p = mk_date 2024 11 8 /\ fin_type p = "matin".

(** The added period: Friday 8 November 2024, afternoon only. *)
Definition periode_du_8 (p : PeriodeConge) : Prop :=
  date_debut p = mk_date 2024 11 8 /\ debut_type p = "apres_midi"
  /\ date_fin p = mk_date 2024 11 8 /\ fin_type p = "apres_midi".

(** The value of [fix_ (mk_dec c e)], [c >= 0], in units of [10 ^ e]. *)
Definition arrondi_28 (c : Z) : Z :=
  if prec <? ndigits c
  then div_half_even c (10 ^ (ndigits c - prec)) * 10 ^ (ndigits c - prec)
  else c.

(** [round] of the decimal worth [v] units of [10 ^ e], [v >= 0]. *)
Definition arrondi_entier (v e : Z) : Z :=
  if 0 <=? e then v * 10 ^ e else div_half_even v (10 ^ (- e)).

(** The hours above the legal yearly duration, and the quotient that
    [calculer_rtt_annuels] scales by the work quota. *)
Definition heures_supplementaires (heures_semaine : decimal) : decimal :=
  Decimal.sub (Decimal.mul heures_semaine (of_int SEMAINES_ANNUELLES))
              (of_int DUREE_LEGALE_ANNUELLE).

(** Whether a boundary day was itself counted, as [compter_jours_periode]
    works it out for the start and again for the end of the period. *)
Definition jour_compte (d : date) (jours_ouvres_ou_ouvrables : string)
           (exclure_feries : bool) (annee : Z) : M bool :=
  let compte := if String.eqb jours_ouvres_ou_ouvrables "ouvrables"
                then est_jour_ouvrable d else est_jour_ouvre d in
  if exclure_feries && compte then
    let! jours_feries := get_jours_feries annee in
    m_ret (if date_in d jours_feries then false else compte)
  else m_ret compte.

(** The dates of a list, each kept once. *)
Fixpoint dates_distinctes (l : list date) : list date :=
  match l with
  | [] => []
  | d :: r => if date_in d r then dates_distinctes r
              else d :: dates_distinctes r
  end.

(** [f] holds of the [n] integers from [lo] on. *)
Fixpoint pour_tout (f : Z -> bool) (lo : Z) (n : nat) : bool :=
  match n with
  | O => true
  | S k => f lo && pour_tout f (lo + 1) k
  end.

(** Easter Sunday of a year, as the Gauss congruences give it. *)
Definition dimanche_de_paques (annee : Z) : date :=
  mk_date annee (gauss_month annee) (gauss_day annee).

(** The value of a decimal in tenths, for an exponent of at least [-1]. *)
Definition dixiemes (x : decimal) : Z := coef x * 10 ^ (expo x + 1).

(** Whether the full-day scan counts [d]: it passes the weekday test of the
    mode and is not among the holidays [jf] left out. *)
Definition borne_comptee (mode : string) (jf : list date) (d : date) : bool :=
  est_compte_mode mode d && negb (date_in d jf).

(** The half day, in tenths, taken off at a boundary whose day is counted
    and whose half is [demi]. *)
Definition demi_journee (comptee : bool) (type demi : string) : Z :=
  if comptee && String.eqb type demi then 5 else 0.

(** Every value that [m] returns, from any cache, satisfies [Q]. *)
Definition produit {A : Type} (m : M A) (Q : A -> Prop) : Prop :=
  forall (c : cache) a c', m c = (Ok a, c') -> Q a.

(** A period that starts in May or later and ends in a month up to
    October, other than one that runs from November or December to a month
    up to April. *)
Definition mai_a_octobre (p : PeriodeConge) : Prop :=
  5 <= month (date_debut p) /\ month (date_fin p) <= 10
  /\ (month (date_debut p) <= 10 \/ 5 <= month (date_fin p)).

(** [calculer_rtt_annuels] returns a number of days from [lo] to [hi]. *)
Definition rtt_entre (lo hi : Z) (h q : decimal) : bool :=
  match calculer_rtt_annuels h q with
  | Ok r => (lo <=? r) && (r <=? hi)
  | Raise _ => false
  end.

(** The name that the loop of [get_jours_feries_list] gives to a date. *)
Definition nom_ferie (jour_ferie : date) : string :=
  let nom := default "Jour férié" (noms_feries !! day jour_ferie) in
  if (month jour_ferie =? 3) || (month jour_ferie =? 4) then
    if weekday jour_ferie =? 0 then "Lundi de Pâques" else "Pâques"
  else if (month jour_ferie =? 5) && (15 <? day jour_ferie) then "Ascension"
  else if (month jour_ferie =? 5) && (20 <? day jour_ferie)
  then "Lundi de Pentecôte"
  else nom.

(** The entry of the calendar for a date. *)
Definition entree_ferie (d : date) : JourFerie :=
  mk_jour_ferie (isoformat d) (nom_ferie d) "ferie".

(** The days of one period that lie outside the main period, in tenths:
    the counted days of the range outside May to October, less half a day
    for a counted first day outside the main period taken from the
    afternoon, and for a counted last day outside it taken up to the
    morning. *)
Definition dixiemes_hors (jt : string) (jf : list date) (p : PeriodeConge)
  : Z :=
  10 * nombre_jours (est_compte_mode jt) jf
         (List.filter est_hors_periode_principale
                      (jours_de_la_plage (date_debut p) (date_fin p)))
  - demi_journee (est_hors_periode_principale (date_debut p)
                  && borne_comptee jt jf (date_debut p))
                 (debut_type p) "apres_midi"
  - demi_journee (est_hors_periode_principale (date_fin p)
                  && borne_comptee jt jf (date_fin p))
                 (fin_type p) "matin".

Fixpoint somme_dixiemes (jt : string) (jf : list date)
         (l : list PeriodeConge) : Z :=
  match l with
  | [] => 0
  | p :: r => dixiemes_hors jt jf p + somme_dixiemes jt jf r
  end.

(** A period as the form stores it for the year [annee]: it does not end
    before it starts, and both its days are days of that year. *)
Definition periode_de_l_annee (annee : Z) (p : PeriodeConge) : Prop :=
  valid_date (date_debut p) /\ valid_date (date_fin p)
  /\ date_leb (date_debut p) (date_fin p) = true
  /\ year (date_debut p) = annee /\ year (date_fin p) = annee.

(** The constraint [unique_together = [['user', 'annee']]] of
    [ParametresAnnee]. *)
Definition parametres_uniques (db : database) : Prop :=
  forall user annee,
    ParametresAnnee_get db user annee <> Raise MultipleObjectsReturned.

(** A row of annual leave of [user] for the civil year [annee]. *)
Definition conge_annuel_de (user : User) (annee : Z) (p : PeriodeConge)
  : Prop :=
  pc_user p = user /\ annee_civile p = annee /\ type_conge p = "annuel".

(** The table of parameters holds at most one row for [user] and [annee],
    as its constraint [unique_together] requires: two rows of the table for
    them are the same row. *)
Definition au_plus_un_parametre (db : database) (user : User) (annee : Z)
  : Prop :=
  forall (i j : nat) x y,
    parametres db !! i = Some x -> parametres db !! j = Some y ->
    pa_user x = user -> pa_annee x = annee ->
    pa_user y = user -> pa_annee y = annee ->
    i = j.

(** The rational number that a decimal denotes. *)
Definition valeur (x : decimal) : Q := (inject_Z (coef x) * 10 ^ expo x)%Q.

(** The yearly RTT before any rounding: the hours above 1607 over the
    weekly hours, times the quota, in exact arithmetic. *)
Definition rtt_exact (h q : decimal) : Q :=
  ((valeur h * 52 - 1607) / valeur h * valeur q)%Q.

(** [n] is an integer nearest to [v]. *)
Definition entier_le_plus_proche (n : Z) (v : Q) : Prop :=
  (Qabs (inject_Z n - v) <= 1 # 2)%Q.

(** A decimal with at most two decimals and a coefficient of at most six
    digits: every value that a [DecimalField] of the models can hold. *)
Definition deux_decimales (x : decimal) : Prop :=
  -2 <= expo x <= 0 /\ Z.abs (coef x) < 1000000.

End Spec.

Import Spec.

(** * Properties *)

(** ** Calendar facts *)

Section Calendrier.

Lemma valid_date_iff d :
  valid_date d <->
  1 <= year d <= 9999 /\ 1 <= month d <= 12
  /\ 1 <= day d <= days_in_month (year d) (month d).
Proof. unfold valid_date, valid_dateb, MINYEAR, MAXYEAR. lia. Qed.

Lemma days_in_month_bounds y m : 28 <= days_in_month y m <= 31.
Proof.
  unfold days_in_month.
  repeat match goal with
         | |- context [if ?b then _ else _] => destruct b
         end; lia.
Qed.

Lemma days_before_year_succ y :
  days_before_year (y + 1)
  = days_before_year y + (if is_leap y then 366 else 365).
Proof.
  unfold days_before_year, is_leap. cbv zeta.
  replace (y + 1 - 1) with y by lia.
  destruct (y mod 4 =? 0) eqn:E4, (y mod 100 =? 0) eqn:E100,
           (y mod 400 =? 0) eqn:E400; cbn [andb orb negb];
    Z.to_euclidean_division_equations; lia.
Qed.

Lemma days_before_year_mono y y' :
  y <= y' -> days_before_year y <= days_before_year y'.
Proof.
  unfold days_before_year. cbv zeta. intros H.
  Z.to_euclidean_division_equations; lia.
Qed.

Lemma month_cases m :
  1 <= m <= 12 ->
  m = 1 \/ m = 2 \/ m = 3 \/ m = 4 \/ m = 5 \/ m = 6 \/ m = 7 \/ m = 8
  \/ m = 9 \/ m = 10 \/ m = 11 \/ m = 12.
Proof. lia. Qed.

Ltac split_month H :=
  apply month_cases in H;
  repeat (destruct H as [H | H]); subst.

Ltac month_table y :=
  unfold days_before_month, days_in_month;
  generalize (is_leap y); intros [|]; now vm_compute.

Lemma days_before_month_succ y m :
  1 <= m < 12 ->
  days_before_month y (m + 1) = days_before_month y m + days_in_month y m.
Proof.
  intros H. assert (H' : 1 <= m <= 12) by lia. split_month H'; try lia;
    month_table y.
Qed.

Lemma days_before_month_mono y m m' :
  1 <= m -> m <= m' -> m' <= 12 ->
  days_before_month y m + days_in_month y m * (if m <? m' then 1 else 0)
  <= days_before_month y m'.
Proof.
  intros H1 H2 H3.
  assert (Hm : 1 <= m <= 12) by lia. assert (Hm' : 1 <= m' <= 12) by lia.
  split_month Hm; split_month Hm'; try lia; month_table y.
Qed.

Lemma days_before_month_last y m :
  1 <= m <= 12 ->
  days_before_month y m + days_in_month y m
  <= (if is_leap y then 366 else 365).
Proof.
  intros Hm. split_month Hm; month_table y.
Qed.

Lemma days_before_month_nonneg y m : 0 <= days_before_month y m.
Proof.
  unfold days_before_month.
  destruct ((2 <? m) && is_leap y); destruct m as [|p|p]; try lia;
    repeat (destruct p as [p|p|]; try lia).
Qed.

Lemma date_eqb_eq a b : date_eqb a b = true <-> a = b.
Proof.
  unfold date_eqb. destruct a, b; cbn. split.
  - intros H. f_equal; lia.
  - intros [= -> -> ->]. lia.
Qed.

Lemma date_eqb_refl a : date_eqb a a = true.
Proof. apply date_eqb_eq; reflexivity. Qed.

Lemma date_leb_refl a : date_leb a a = true.
Proof. unfold date_leb. rewrite date_eqb_refl. apply orb_true_r. Qed.

Lemma date_leb_total a b : date_leb a b = false -> date_ltb b a = true.
Proof. unfold date_leb, date_ltb, date_eqb. lia. Qed.

Lemma date_ltb_leb a b : date_ltb a b = true -> date_leb b a = false.
Proof. unfold date_leb, date_ltb, date_eqb. lia. Qed.

Lemma toordinal_lt a b :
  valid_date a -> valid_date b ->
  date_ltb a b = true -> toordinal a < toordinal b.
Proof.
  intros Ha Hb Hlt. apply valid_date_iff in Ha, Hb.
  destruct a as [ya ma da], b as [yb mb db]; unfold date_ltb in Hlt;
    unfold toordinal; cbn in *.
  destruct (Z.lt_trichotomy ya yb) as [Hy | [Hy | Hy]]; [| subst yb | lia].
  - pose proof (days_before_year_mono (ya + 1) yb ltac:(lia)).
    pose proof (days_before_year_succ ya).
    pose proof (days_before_month_last ya ma ltac:(lia)).
    pose proof (days_before_month_nonneg yb mb).
    lia.
  - destruct (Z.lt_trichotomy ma mb) as [Hm | [Hm | Hm]]; [| subst mb | lia].
    + pose proof (days_before_month_mono ya ma mb ltac:(lia) ltac:(lia)
                                         ltac:(lia)) as H.
      replace (ma <? mb) with true in H by lia. lia.
    + lia.
Qed.

Lemma toordinal_le a b :
  valid_date a -> valid_date b ->
  date_leb a b = true -> toordinal a <= toordinal b.
Proof.
  intros Ha Hb Hle. unfold date_leb in Hle.
  apply orb_true_iff in Hle as [Hlt | Heq].
  - pose proof (toordinal_lt a b Ha Hb Hlt). lia.
  - apply date_eqb_eq in Heq. subst. lia.
Qed.

Lemma tomorrow_valid d d' :
  valid_date d -> tomorrow d = Ok d' -> valid_date d'.
Proof.
  intros Hd. apply valid_date_iff in Hd. unfold tomorrow, MAXYEAR.
  pose proof (days_in_month_bounds (year d) (month d)).
  destruct (day d <? _) eqn:E1; [intros [= <-] |].
  { apply valid_date_iff; cbn. lia. }
  destruct (month d <? 12) eqn:E2; [intros [= <-] |].
  { apply valid_date_iff; cbn.
    pose proof (days_in_month_bounds (year d) (month d + 1)). lia. }
  destruct (year d <? 9999) eqn:E3; [intros [= <-] | discriminate].
  apply valid_date_iff; cbn. lia.
Qed.

Lemma tomorrow_ltb d d' :
  valid_date d -> tomorrow d = Ok d' -> date_ltb d d' = true.
Proof.
  intros Hd. apply valid_date_iff in Hd. unfold tomorrow, date_ltb, MAXYEAR.
  destruct (day d <? _) eqn:E1; [intros [= <-]; cbn; lia |].
  destruct (month d <? 12) eqn:E2; [intros [= <-]; cbn; lia |].
  destruct (year d <? 9999) eqn:E3; [intros [= <-]; cbn; lia | discriminate].
Qed.

Lemma tomorrow_overflow d :
  valid_date d -> tomorrow d = Raise OverflowError <-> d = date_max.
Proof.
  intros Hd. apply valid_date_iff in Hd. unfold tomorrow, MAXYEAR, date_max.
  split.
  - destruct (day d <? _) eqn:E1; [discriminate |].
    destruct (month d <? 12) eqn:E2; [discriminate |].
    destruct (year d <? 9999) eqn:E3; [discriminate |]. intros _.
    destruct d as [y m dd]; cbn in *.
    assert (m = 12) by lia. subst m. assert (y = 9999) by lia. subst y.
    cbn in *. f_equal. lia.
  - intros ->. reflexivity.
Qed.

Lemma tomorrow_cases d :
  valid_date d ->
  (d = date_max /\ tomorrow d = Raise OverflowError)
  \/ (d <> date_max /\ exists d', tomorrow d = Ok d').
Proof.
  intros Hd. destruct (tomorrow d) as [d' | e] eqn:E.
  - right. split; [| eauto]. intros ->. discriminate.
  - left. assert (e = OverflowError) as ->.
    { revert E. unfold tomorrow. repeat case_match; congruence. }
    split; [| reflexivity]. apply tomorrow_overflow; assumption.
Qed.

Lemma toordinal_tomorrow d d' :
  valid_date d -> tomorrow d = Ok d' -> toordinal d' = toordinal d + 1.
Proof.
  intros Hd. apply valid_date_iff in Hd. unfold tomorrow, MAXYEAR, toordinal.
  destruct d as [y m dd]; cbn [year month day] in *.
  destruct (dd <? _) eqn:E1; [intros [= <-]; cbn; lia |].
  destruct (m <? 12) eqn:E2; [intros [= <-]; cbn [year month day] |].
  { rewrite days_before_month_succ by lia. lia. }
  destruct (y <? 9999) eqn:E3; [intros [= <-]; cbn [year month day]
                               | discriminate].
  rewrite days_before_year_succ.
  assert (m = 12) by lia. subst m.
  assert (dd = 31) by (change (days_in_month y 12) with 31 in *; lia).
  subst dd. unfold days_before_month.
  generalize (is_leap y); intros [|]; cbn; lia.
Qed.

Lemma weekday_tomorrow d d' :
  valid_date d -> tomorrow d = Ok d' -> weekday d' = (weekday d + 1) mod 7.
Proof.
  intros Hd Ht. unfold weekday. rewrite (toordinal_tomorrow d d' Hd Ht).
  Z.to_euclidean_division_equations; lia.
Qed.

Lemma toordinal_inj a b :
  valid_date a -> valid_date b -> toordinal a = toordinal b -> a = b.
Proof.
  intros Ha Hb Heq.
  destruct (date_leb a b) eqn:E.
  - unfold date_leb in E. apply orb_true_iff in E as [E | E].
    + pose proof (toordinal_lt a b Ha Hb E). lia.
    + apply date_eqb_eq; assumption.
  - apply date_leb_total in E. pose proof (toordinal_lt b a Hb Ha E). lia.
Qed.

Lemma toordinal_leb a b :
  valid_date a -> valid_date b ->
  toordinal a <= toordinal b -> date_leb a b = true.
Proof.
  intros Ha Hb Hle. destruct (date_leb a b) eqn:E; [reflexivity |].
  apply date_leb_total in E. pose proof (toordinal_lt b a Hb Ha E). lia.
Qed.

Lemma valid_date_max : valid_date date_max.
Proof. reflexivity. Qed.

Lemma date_leb_max d : valid_date d -> date_leb d date_max = true.
Proof.
  intros Hd. apply valid_date_iff in Hd. destruct d as [y m dd].
  unfold date_leb, date_ltb, date_eqb, date_max; cbn [year month day] in *.
  pose proof (days_in_month_bounds y m). lia.
Qed.

End Calendrier.

(** ** The day-by-day scan *)

Section Boucle.

Lemma nombre_jours_cons P jf d l :
  nombre_jours P jf (d :: l)
  = (if P d && negb (date_in d jf) then 1 else 0) + nombre_jours P jf l.
Proof.
  unfold nombre_jours. cbn [List.filter].
  destruct (P d && negb (date_in d jf)); cbn [length]; lia.
Qed.

Lemma nombre_jours_nil P jf : nombre_jours P jf [] = 0.
Proof. reflexivity. Qed.

Lemma nombre_jours_app P jf l1 l2 :
  nombre_jours P jf (l1 ++ l2) = nombre_jours P jf l1 + nombre_jours P jf l2.
Proof.
  unfold nombre_jours. rewrite List.filter_app, length_app. lia.
Qed.

Lemma jours_a_partir_cons d d' n :
  tomorrow d = Ok d' -> jours_a_partir d (S n) = d :: jours_a_partir d' n.
Proof. intros H. cbn [jours_a_partir]. rewrite H. reflexivity. Qed.

Lemma jours_a_partir_one d : jours_a_partir d 1 = [d].
Proof. cbn [jours_a_partir]. destruct (tomorrow d); reflexivity. Qed.

Lemma boucle_jours_after fuel P jf cur fin acc :
  date_leb cur fin = false ->
  boucle_jours (S fuel) P jf cur fin acc = Ok acc.
Proof. intros H. cbn [boucle_jours]. rewrite H. reflexivity. Qed.

Lemma boucle_jours_spec P jf fin (Hfin : valid_date fin) :
  forall (n : nat) cur acc (fuel : nat),
    valid_date cur ->
    toordinal fin - toordinal cur = Z.of_nat n ->
    (S n < fuel)%nat ->
    boucle_jours fuel P jf cur fin acc
    = if date_eqb fin date_max then Raise OverflowError
      else Ok (acc + nombre_jours P jf (jours_a_partir cur (S n))).
Proof.
  induction n as [| n IH]; intros cur acc fuel Hcur Hord Hfuel.
  - assert (cur = fin) as -> by (apply toordinal_inj; auto; lia).
    destruct fuel as [| [| fuel]]; try lia.
    cbn [boucle_jours]. rewrite date_leb_refl, jours_a_partir_one.
    destruct (tomorrow_cases fin Hfin) as [[-> ->] | [Hne [d' Hd']]].
    + reflexivity.
    + rewrite Hd'. cbn [rbind].
      rewrite (date_ltb_leb _ _ (tomorrow_ltb _ _ Hfin Hd')).
      destruct (date_eqb fin date_max) eqn:E.
      { apply date_eqb_eq in E. contradiction. }
      rewrite nombre_jours_cons, nombre_jours_nil.
      f_equal. destruct (P fin && negb (date_in fin jf)); lia.
  - destruct fuel as [| fuel]; try lia.
    cbn [boucle_jours].
    rewrite (toordinal_leb cur fin Hcur Hfin) by lia.
    destruct (tomorrow_cases cur Hcur) as [[-> _] | [Hne [d' Hd']]].
    + pose proof (toordinal_le fin date_max Hfin valid_date_max
                               (date_leb_max fin Hfin)). lia.
    + rewrite Hd'. cbn [rbind].
      pose proof (tomorrow_valid _ _ Hcur Hd') as Hv.
      pose proof (toordinal_tomorrow _ _ Hcur Hd') as Ho.
      rewrite (IH d') by (auto; lia).
      destruct (date_eqb fin date_max); [reflexivity |].
      rewrite (jours_a_partir_cons cur d') by assumption.
      rewrite (nombre_jours_cons P jf cur). f_equal.
      destruct (P cur && negb (date_in cur jf)); lia.
Qed.

(** The loop, from [date_debut] and a counter at zero, with the bound
    [fuel_of]: it never runs out of fuel. *)
Lemma boucle_jours_total P jf a b :
  valid_date a -> valid_date b ->
  boucle_jours (fuel_of a b) P jf a b 0
  = if date_leb a b
    then if date_eqb b date_max then Raise OverflowError
         else Ok (nombre_jours P jf (jours_de_la_plage a b))
    else Ok 0.
Proof.
  intros Ha Hb. unfold fuel_of, jours_de_la_plage.
  destruct (date_leb a b) eqn:E.
  - pose proof (toordinal_le a b Ha Hb E) as Hle.
    rewrite (boucle_jours_spec P jf b Hb
               (Z.to_nat (toordinal b - toordinal a)) a 0) by (auto; lia).
    replace (Z.to_nat (toordinal b - toordinal a + 1))
      with (S (Z.to_nat (toordinal b - toordinal a))) by lia.
    reflexivity.
  - apply boucle_jours_after; assumption.
Qed.

End Boucle.

(** ** The cache of public holidays *)

Section Cache.

Lemma cache_key_inj a b : cache_key a = cache_key b -> a = b.
Proof.
  unfold cache_key. intros H. cbn in H.
  injection H as H. exact (inj pretty _ _ H).
Qed.

Lemma cache_coherent_empty : cache_coherent ∅.
Proof. intros annee l H. rewrite lookup_empty in H. discriminate. Qed.

Lemma get_jours_feries_coherent annee (c : cache) :
  cache_coherent c ->
  exists c', get_jours_feries annee c = (calcul_jours_feries annee, c')
             /\ cache_coherent c'.
Proof.
  intros Hc. unfold get_jours_feries.
  destruct (c !! cache_key annee) as [l |] eqn:E.
  - exists c. rewrite (Hc _ _ E). auto.
  - destruct (calcul_jours_feries annee) as [l | e] eqn:El.
    + eexists. split; [reflexivity |].
      intros annee' l' H.
      destruct (decide (cache_key annee = cache_key annee')) as [Hk | Hk].
      * rewrite <- Hk, lookup_insert_eq in H.
        apply cache_key_inj in Hk. subst annee'. congruence.
      * rewrite lookup_insert_ne in H by assumption. eauto.
    + exists c. auto.
Qed.

Section Monade.

Context {A B : Type}.

Lemma retourne_ret (a : A) : retourne (m_ret a) (Ok a).
Proof. intros c Hc. exists c. auto. Qed.

Lemma retourne_lift (r : result A) : retourne (m_lift r) r.
Proof. intros c Hc. exists c. auto. Qed.

Lemma retourne_raise (e : exn) : retourne (@m_raise A e) (Raise e).
Proof. intros c Hc. exists c. auto. Qed.

Lemma retourne_bind (m : M A) (k : A -> M B) r (rk : A -> result B) :
  retourne m r ->
  (forall a, r = Ok a -> retourne (k a) (rk a)) ->
  retourne (m_bind m k) (rbind r rk).
Proof.
  intros Hm Hk c Hc. destruct (Hm c Hc) as (c1 & E1 & Hc1).
  unfold m_bind. rewrite E1. destruct r as [a | e]; cbn [rbind].
  - exact (Hk a eq_refl c1 Hc1).
  - exists c1. auto.
Qed.

Lemma retourne_fun (m : M A) r r' :
  retourne m r -> retourne m r' -> r = r'.
Proof.
  intros H H'.
  destruct (H ∅ cache_coherent_empty) as (c1 & E1 & _).
  destruct (H' ∅ cache_coherent_empty) as (c2 & E2 & _).
  congruence.
Qed.

Lemma retourne_vide (m : M A) r : retourne m r -> fst (m ∅) = r.
Proof.
  intros H. destruct (H ∅ cache_coherent_empty) as (c1 & -> & _).
  reflexivity.
Qed.
End Monade.

Lemma retourne_get_jours_feries annee :
  retourne (get_jours_feries annee) (calcul_jours_feries annee).
Proof. intros c Hc. apply get_jours_feries_coherent; assumption. Qed.

Lemma retourne_feries_ou_rien (ex : bool) y :
  retourne (if ex then get_jours_feries y else m_ret [])
           (if ex then calcul_jours_feries y else Ok []).
Proof.
  destruct ex; [apply retourne_get_jours_feries | apply retourne_ret].
Qed.

Lemma compter_jours_ouvres_retourne a b ex annee :
  valid_date a -> valid_date b ->
  retourne (compter_jours_ouvres a b ex annee)
           (valeur_compteur est_jour_ouvre a b ex annee).
Proof.
  intros Ha Hb. unfold compter_jours_ouvres, valeur_compteur.
  apply retourne_bind; [apply retourne_feries_ou_rien |].
  intros jf _. rewrite <- boucle_jours_total by assumption.
  apply retourne_lift.
Qed.

Lemma compter_jours_ouvrables_retourne a b ex annee :
  valid_date a -> valid_date b ->
  retourne (compter_jours_ouvrables a b ex annee)
           (valeur_compteur est_jour_ouvrable a b ex annee).
Proof.
  intros Ha Hb. unfold compter_jours_ouvrables, valeur_compteur.
  apply retourne_bind; [apply retourne_feries_ou_rien |].
  intros jf _. rewrite <- boucle_jours_total by assumption.
  apply retourne_lift.
Qed.

End Cache.

(** ** Easter *)

Section Paques.

(** The arithmetic core: whatever the year, the three residues [a], [h],
    [l] leave [h + l - 7m + 114] between March 22nd and April 25th. *)
Lemma gauss_core (a h l : Z) :
  0 <= a < 19 -> 0 <= h < 30 -> 0 <= l < 7 ->
  let n := h + l - 7 * ((a + 11 * h + 22 * l) / 451) + 114 in
  (n / 31 = 3 /\ 22 <= n mod 31 + 1 <= 31)
  \/ (n / 31 = 4 /\ 1 <= n mod 31 + 1 <= 25).
Proof.
  intros Ha Hh Hl n. subst n.
  assert (Hm : (a + 11 * h + 22 * l) / 451 = 0
               \/ (a + 11 * h + 22 * l) / 451 = 1).
  { assert (0 <= (a + 11 * h + 22 * l) / 451 < 2); [|lia].
    split; [apply Z.div_pos; lia | apply Z.div_lt_upper_bound; lia]. }
  destruct Hm as [Hm | Hm]; rewrite Hm.
  - assert (a + 11 * h + 22 * l < 451).
    { apply Z.div_small_iff in Hm; lia. }
    Z.to_euclidean_division_equations; lia.
  - assert (451 <= a + 11 * h + 22 * l).
    { destruct (Z_lt_le_dec (a + 11 * h + 22 * l) 451) as [Hlt|]; [|lia].
      rewrite Z.div_small in Hm; lia. }
    Z.to_euclidean_division_equations; lia.
Qed.

Lemma gauss_month_day (annee : Z) :
  (gauss_month annee = 3 /\ 22 <= gauss_day annee <= 31)
  \/ (gauss_month annee = 4 /\ 1 <= gauss_day annee <= 25).
Proof.
  unfold gauss_month, gauss_day, gauss_n; cbv zeta.
  apply gauss_core; apply Z.mod_pos_bound; lia.
Qed.

Lemma calculer_paques_gauss (annee : Z) :
  calculer_paques annee
  = new_date annee (gauss_month annee) (gauss_day annee).
Proof. reflexivity. Qed.

End Paques.

(** ** Public holidays *)

Section JoursFeries.

Lemma new_date_valid y m d :
  valid_date (mk_date y m d) -> new_date y m d = Ok (mk_date y m d).
Proof.
  intros H. apply valid_date_iff in H. cbn [year month day] in H.
  pose proof (days_in_month_bounds y m) as Hdm.
  unfold new_date, c_int, INT_MIN, INT_MAX, MINYEAR, MAXYEAR.
  replace ((-2147483648 <=? y) && (y <=? 2147483647)
           && ((-2147483648 <=? m) && (m <=? 2147483647))
           && ((-2147483648 <=? d) && (d <=? 2147483647)))
    with true by lia.
  replace ((1 <=? y) && (y <=? 9999)) with true by lia.
  replace ((1 <=? m) && (m <=? 12)) with true by lia.
  replace ((1 <=? d) && (d <=? days_in_month y m)) with true by lia.
  reflexivity.
Qed.

(** Outside the years of the calendar the constructor raises:
    [OverflowError] when the year does not fit a C [int], [ValueError]
    otherwise. *)
Lemma new_date_year_out y m d :
  ~ (1 <= y <= 9999) -> c_int m = true -> c_int d = true ->
  new_date y m d = Raise (if c_int y then ValueError else OverflowError).
Proof.
  intros H Hm Hd. unfold new_date, MINYEAR, MAXYEAR. rewrite Hm, Hd.
  destruct (c_int y); [| reflexivity]. cbn [andb negb].
  replace ((1 <=? y) && (y <=? 9999)) with false by lia. reflexivity.
Qed.

Lemma add_days_ok n : forall d,
  valid_date d -> toordinal d + Z.of_nat n <= toordinal date_max ->
  exists d', add_days n d = Ok d' /\ valid_date d'
             /\ toordinal d' = toordinal d + Z.of_nat n.
Proof.
  induction n as [| n IH]; intros d Hd Hn.
  - exists d. cbn [add_days]. repeat split; auto; lia.
  - cbn [add_days].
    destruct (tomorrow_cases d Hd) as [[-> _] | [_ [d1 H1]]]; [lia |].
    rewrite H1. cbn [rbind].
    pose proof (tomorrow_valid _ _ Hd H1) as Hv.
    pose proof (toordinal_tomorrow _ _ Hd H1) as Ho.
    destruct (IH d1 Hv ltac:(lia)) as (d' & E & Hv' & Ho').
    exists d'. repeat split; auto; lia.
Qed.

(** The ordinals of one year. *)
Lemma year_of_ordinal d y :
  valid_date d -> 
  days_before_year y < toordinal d <= days_before_year y + 365 ->
  year d = y.
Proof.
  intros Hd Ho. pose proof Hd as Hd'. apply valid_date_iff in Hd'.
  unfold toordinal in Ho.
  pose proof (days_before_month_last (year d) (month d) ltac:(lia)).
  pose proof (days_before_month_nonneg (year d) (month d)).
  pose proof (days_before_year_succ (year d)).
  pose proof (days_before_year_succ y).
  destruct (Z.lt_trichotomy (year d) y) as [Hy | [Hy | Hy]]; [| lia |].
  - pose proof (days_before_year_mono (year d + 1) y ltac:(lia)).
    destruct (is_leap (year d)); lia.
  - pose proof (days_before_year_mono (y + 1) (year d) ltac:(lia)).
    destruct (is_leap y); lia.
Qed.

Lemma toordinal_date_max : toordinal date_max = days_before_year 9999 + 365.
Proof. reflexivity. Qed.

Lemma toordinal_in_year y m d :
  toordinal (mk_date y m d) = days_before_year y + days_before_month y m + d.
Proof. reflexivity. Qed.

(** Easter Sunday as [calculer_paques] builds it: a date of the year, on
    one of the thirty-five days from March 22nd to April 25th. *)
Lemma calculer_paques_ok annee :
  1 <= annee <= 9999 ->
  calculer_paques annee
  = Ok (mk_date annee (gauss_month annee) (gauss_day annee))
  /\ valid_date (mk_date annee (gauss_month annee) (gauss_day annee)).
Proof.
  intros Hy.
  assert (Hv : valid_date (mk_date annee (gauss_month annee)
                                   (gauss_day annee))).
  { apply valid_date_iff. cbn [year month day].
    destruct (gauss_month_day annee) as [[-> Hd] | [-> Hd]];
      change (days_in_month annee 3) with 31;
      change (days_in_month annee 4) with 30; lia. }
  split; [| exact Hv]. rewrite calculer_paques_gauss.
  apply new_date_valid; exact Hv.
Qed.

(** Day of the year of Easter Sunday. *)
Lemma paques_jour_annee annee :
  let l := if is_leap annee then 1 else 0 in
  81 + l <= days_before_month annee (gauss_month annee) + gauss_day annee
         <= 115 + l.
Proof.
  cbv zeta. unfold days_before_month.
  destruct (gauss_month_day annee) as [[-> Hd] | [-> Hd]];
    generalize dependent (gauss_day annee); intros g Hg;
    generalize (is_leap annee); intros [|]; cbn; lia.
Qed.

Lemma valid_fixe y m d :
  1 <= y <= 9999 -> 1 <= m <= 12 -> m <> 2 -> 1 <= d <= 30 ->
  valid_date (mk_date y m d).
Proof.
  intros Hy Hm Hm2 Hd. apply valid_date_iff. cbn [year month day].
  unfold days_in_month. replace (m =? 2) with false by lia.
  destruct ((m =? 4) || (m =? 6) || (m =? 9) || (m =? 11)); lia.
Qed.

Lemma get_jours_feries_fixes_ok annee :
  1 <= annee <= 9999 ->
  get_jours_feries_fixes annee = Ok (jours_feries_fixes annee).
Proof.
  intros Hy. unfold get_jours_feries_fixes.
  rewrite !new_date_valid by (apply valid_fixe; lia). reflexivity.
Qed.

Lemma get_jours_feries_fixes_out annee :
  ~ (1 <= annee <= 9999) ->
  get_jours_feries_fixes annee
  = Raise (if c_int annee then ValueError else OverflowError).
Proof.
  intros Hy. unfold get_jours_feries_fixes.
  rewrite new_date_year_out by (assumption || reflexivity). reflexivity.
Qed.

Lemma insert_sorted_perm d l : Permutation (insert_sorted d l) (d :: l).
Proof.
  induction l as [| x r IH]; cbn [insert_sorted]; [reflexivity |].
  destruct (date_leb d x); [reflexivity |].
  rewrite IH. apply perm_swap.
Qed.

Lemma sorted_perm l : Permutation (sorted l) l.
Proof.
  induction l as [| x r IH]; cbn; [reflexivity |].
  rewrite insert_sorted_perm. constructor. exact IH.
Qed.

Lemma date_le_trans a b c : date_le a b -> date_le b c -> date_le a c.
Proof. unfold date_le, date_leb, date_ltb, date_eqb. lia. Qed.

Lemma insert_sorted_sorted d l :
  StronglySorted date_le l -> StronglySorted date_le (insert_sorted d l).
Proof.
  induction 1 as [| x r Hr IH Hx]; cbn [insert_sorted].
  - repeat constructor.
  - destruct (date_leb d x) eqn:E.
    + constructor; [constructor; assumption |].
      constructor; [exact E |].
      eapply List.Forall_impl; [| exact Hx]. intros y Hy.
      eapply date_le_trans; eassumption.
    + constructor; [exact IH |].
      eapply Permutation_Forall;
        [symmetry; apply insert_sorted_perm |].
      constructor; [| exact Hx].
      apply date_leb_total in E. unfold date_le, date_leb. rewrite E.
      reflexivity.
Qed.

Lemma sorted_sorted l : StronglySorted date_le (sorted l).
Proof.
  induction l as [| x r IH]; cbn; [constructor |].
  apply insert_sorted_sorted; exact IH.
Qed.

(** What [calcul_jours_feries] builds for a year that [date] accepts. *)
Lemma calcul_jours_feries_ok annee :
  1 <= annee <= 9999 ->
  let paques := mk_date annee (gauss_month annee) (gauss_day annee) in
  exists lundi ascension pentecote,
    calculer_paques annee = Ok paques
    /\ date_add paques 1 = Ok lundi
    /\ date_add paques 39 = Ok ascension
    /\ date_add paques 50 = Ok pentecote
    /\ Forall valid_date [paques; lundi; ascension; pentecote]
    /\ toordinal lundi = toordinal paques + 1
    /\ toordinal ascension = toordinal paques + 39
    /\ toordinal pentecote = toordinal paques + 50
    /\ calcul_jours_feries annee
       = Ok (sorted (jours_feries_fixes annee
                     ++ [paques; lundi; ascension; pentecote])).
Proof.
  intros Hy paques.
  destruct (calculer_paques_ok annee Hy) as [Hp Hv]. fold paques in Hp, Hv.
  pose proof (paques_jour_annee annee) as Hk. cbv zeta in Hk.
  pose proof (days_before_year_mono annee 9999 ltac:(lia)) as Hm.
  assert (Hmax : toordinal paques + 50 <= toordinal date_max).
  { rewrite toordinal_date_max. unfold paques. rewrite toordinal_in_year.
    destruct (is_leap annee); lia. }
  destruct (add_days_ok 1 paques Hv ltac:(lia)) as (d1 & E1 & V1 & O1).
  destruct (add_days_ok 39 paques Hv ltac:(lia)) as (d39 & E39 & V39 & O39).
  destruct (add_days_ok 50 paques Hv ltac:(lia)) as (d50 & E50 & V50 & O50).
  exists d1, d39, d50. unfold date_add.
  change (Z.to_nat 1) with 1%nat. change (Z.to_nat 39) with 39%nat.
  change (Z.to_nat 50) with 50%nat.
  repeat split; try assumption; try lia.
  - repeat constructor; assumption.
  - unfold calcul_jours_feries, date_add.
    rewrite get_jours_feries_fixes_ok by assumption. cbn [rbind].
    rewrite Hp. cbn [rbind].
    change (Z.to_nat 1) with 1%nat. change (Z.to_nat 39) with 39%nat.
    change (Z.to_nat 50) with 50%nat.
    rewrite E1, E39, E50. reflexivity.
Qed.

Lemma calcul_jours_feries_out annee :
  ~ (1 <= annee <= 9999) ->
  calcul_jours_feries annee
  = Raise (if c_int annee then ValueError else OverflowError).
Proof.
  intros Hy. unfold calcul_jours_feries.
  rewrite get_jours_feries_fixes_out by assumption. reflexivity.
Qed.

Lemma year_fixes annee :
  Forall (fun d => year d = annee) (jours_feries_fixes annee).
Proof. repeat constructor. Qed.

Lemma NoDup_of_ordinals l :
  List.NoDup (List.map toordinal l) -> List.NoDup l.
Proof. apply List.NoDup_map_inv. Qed.

Lemma NoDup_app_disjoint {A : Type} (l1 l2 : list A) :
  List.NoDup (l1 ++ l2) -> forall a, In a l1 -> ~ In a l2.
Proof.
  induction l1 as [| x r IH]; cbn [app]; intros Hnd a Ha; [destruct Ha |].
  apply List.NoDup_cons_iff in Hnd as [Hx Hr].
  destruct Ha as [-> | Ha]; [| exact (IH Hr a Ha)].
  intros Hin. apply Hx. apply in_or_app. right. exact Hin.
Qed.

(** The four movable holidays, like the eight fixed ones, are dates of the
    year. *)
Lemma annee_jours_feries annee lundi ascension pentecote :
  1 <= annee <= 9999 ->
  let paques := mk_date annee (gauss_month annee) (gauss_day annee) in
  Forall valid_date [paques; lundi; ascension; pentecote] ->
  toordinal lundi = toordinal paques + 1 ->
  toordinal ascension = toordinal paques + 39 ->
  toordinal pentecote = toordinal paques + 50 ->
  Forall (fun d => year d = annee)
         (jours_feries_fixes annee ++ [paques; lundi; ascension; pentecote]).
Proof.
  intros Hy paques Hv O1 O39 O50.
  apply List.Forall_cons_iff in Hv as [Vp Hv].
  apply List.Forall_cons_iff in Hv as [V1 Hv].
  apply List.Forall_cons_iff in Hv as [V39 Hv].
  apply List.Forall_cons_iff in Hv as [V50 _].
  pose proof (paques_jour_annee annee) as Hk. cbv zeta in Hk.
  assert (Op : toordinal paques
               = days_before_year annee
                 + (days_before_month annee (gauss_month annee)
                    + gauss_day annee)).
  { unfold paques. rewrite toordinal_in_year. lia. }
  apply Forall_app. split; [apply year_fixes |].
  repeat constructor; try reflexivity;
    apply year_of_ordinal; try assumption;
    destruct (is_leap annee); lia.
Qed.

Lemma calcul_jours_feries_annee annee jf :
  calcul_jours_feries annee = Ok jf -> Forall (fun d => year d = annee) jf.
Proof.
  intros H.
  destruct (Z_le_dec 1 annee) as [H1 |];
    [destruct (Z_le_dec annee 9999) as [H2 |] |];
    try (rewrite calcul_jours_feries_out in H by lia; discriminate).
  destruct (calcul_jours_feries_ok annee ltac:(lia))
    as (lundi & asc & pent & _ & _ & _ & _ & Hv & O1 & O39 & O50 & Hl).
  assert (E : jf = sorted (jours_feries_fixes annee
                           ++ [mk_date annee (gauss_month annee)
                                       (gauss_day annee);
                               lundi; asc; pent])) by congruence.
  rewrite E.
  eapply Permutation_Forall; [symmetry; apply sorted_perm |].
  apply annee_jours_feries; assumption || lia.
Qed.

End JoursFeries.

(** ** Counting a period with half days *)

Section Periode.

Lemma jours_de_la_plage_un d : jours_de_la_plage d d = [d].
Proof.
  unfold jours_de_la_plage. rewrite Z.sub_diag. apply jours_a_partir_one.
Qed.

Lemma jours_de_la_plage_deux d d' :
  valid_date d -> tomorrow d = Ok d' -> jours_de_la_plage d d' = [d; d'].
Proof.
  intros Hd Ht. unfold jours_de_la_plage.
  rewrite (toordinal_tomorrow d d' Hd Ht).
  replace (toordinal d + 1 - toordinal d + 1) with 2 by lia.
  change (Z.to_nat 2) with 2%nat.
  rewrite (jours_a_partir_cons d d' 1 Ht), jours_a_partir_one. reflexivity.
Qed.

Lemma feries_ou_rien_non_exclu ex annee d :
  non_exclu ex annee d ->
  exists jf, (if ex then calcul_jours_feries annee else Ok []) = Ok jf
             /\ date_in d jf = false.
Proof.
  intros H. destruct ex; [apply H; reflexivity |].
  exists []. split; reflexivity.
Qed.

Lemma compter_jours_periode_jour_compte a b mode ex annee dt ft :
  compter_jours_periode a b mode ex annee dt ft
  = let y := annee_feries annee a in
    let! jours_pleins :=
      (if String.eqb mode "ouvrables"
       then compter_jours_ouvrables a b ex (Some y)
       else compter_jours_ouvres a b ex (Some y)) in
    let! debut_compte := jour_compte a mode ex y in
    let total_jours :=
      if debut_compte && String.eqb dt "apres_midi"
      then Decimal.sub (of_int jours_pleins) (mk_dec 5 (-1))
      else of_int jours_pleins in
    let! fin_compte := jour_compte b mode ex y in
    let total_jours :=
      if fin_compte && String.eqb ft "matin"
      then Decimal.sub total_jours (mk_dec 5 (-1)) else total_jours in
    m_ret (Decimal.max (mk_dec 0 (-1)) total_jours).
Proof. reflexivity. Qed.

Lemma jour_compte_vrai d mode ex annee :
  est_compte_mode mode d = true -> non_exclu ex annee d ->
  retourne (jour_compte d mode ex annee) (Ok true).
Proof.
  intros Hc Hn. unfold jour_compte. unfold est_compte_mode in Hc.
  rewrite Hc. destruct ex; cbn [andb]; [| apply retourne_ret].
  destruct (Hn eq_refl) as (jf & Ejf & Hin).
  intros c Hcoh. unfold m_bind.
  destruct (retourne_get_jours_feries annee c Hcoh) as (c1 & -> & Hc1).
  rewrite Ejf, Hin. exists c1. auto.
Qed.

(** The full-day scan of a single counted day. *)
Lemma valeur_compteur_un P d ex annee :
  valid_date d -> d <> date_max -> P d = true ->
  non_exclu ex (annee_feries annee d) d ->
  valeur_compteur P d d ex annee = Ok 1.
Proof.
  intros Hd Hmax HP Hn. unfold valeur_compteur.
  destruct (feries_ou_rien_non_exclu _ _ _ Hn) as (jf & -> & Hin).
  cbn [rbind]. rewrite date_leb_refl.
  destruct (date_eqb d date_max) eqn:E.
  { apply date_eqb_eq in E. contradiction. }
  rewrite jours_de_la_plage_un, nombre_jours_cons, nombre_jours_nil.
  rewrite HP, Hin. reflexivity.
Qed.

Lemma valeur_compteur_deux P d d' ex annee :
  valid_date d -> tomorrow d = Ok d' -> d' <> date_max ->
  P d = true -> P d' = true ->
  non_exclu ex (annee_feries annee d) d ->
  non_exclu ex (annee_feries annee d) d' ->
  valeur_compteur P d d' ex annee = Ok 2.
Proof.
  intros Hd Ht Hmax HP HP' Hn Hn'. unfold valeur_compteur.
  destruct (feries_ou_rien_non_exclu _ _ _ Hn) as (jf & E & Hin).
  destruct (feries_ou_rien_non_exclu _ _ _ Hn') as (jf' & E' & Hin').
  rewrite E in E'. injection E' as <-. rewrite E.
  cbn [rbind]. unfold date_leb. rewrite (tomorrow_ltb d d' Hd Ht).
  cbn [orb].
  destruct (date_eqb d' date_max) eqn:Em.
  { apply date_eqb_eq in Em. contradiction. }
  rewrite (jours_de_la_plage_deux d d' Hd Ht).
  rewrite !nombre_jours_cons, nombre_jours_nil.
  rewrite HP, HP', Hin, Hin'. reflexivity.
Qed.

Lemma compteur_du_mode_retourne mode a b ex annee :
  valid_date a -> valid_date b ->
  retourne (if String.eqb mode "ouvrables"
            then compter_jours_ouvrables a b ex annee
            else compter_jours_ouvres a b ex annee)
           (valeur_compteur (est_compte_mode mode) a b ex annee).
Proof.
  intros Ha Hb. unfold est_compte_mode.
  destruct (String.eqb mode "ouvrables").
  - replace (valeur_compteur _ a b ex annee)
      with (valeur_compteur est_jour_ouvrable a b ex annee) by reflexivity.
    apply compter_jours_ouvrables_retourne; assumption.
  - replace (valeur_compteur _ a b ex annee)
      with (valeur_compteur est_jour_ouvre a b ex annee) by reflexivity.
    apply compter_jours_ouvres_retourne; assumption.
Qed.

(** [compter_jours_periode] when the scan returns [n] and both boundary days
    are counted. *)
Lemma compter_jours_periode_bornes_comptees a b mode ex annee dt ft n :
  valid_date a -> valid_date b ->
  valeur_compteur (est_compte_mode mode) a b ex
                  (Some (annee_feries annee a)) = Ok n ->
  est_compte_mode mode a = true -> est_compte_mode mode b = true ->
  non_exclu ex (annee_feries annee a) a ->
  non_exclu ex (annee_feries annee a) b ->
  retourne (compter_jours_periode a b mode ex annee dt ft)
    (Ok (Decimal.max (mk_dec 0 (-1))
           (let t := of_int n in
            let t := if String.eqb dt "apres_midi"
                     then Decimal.sub t (mk_dec 5 (-1)) else t in
            if String.eqb ft "matin"
            then Decimal.sub t (mk_dec 5 (-1)) else t))).
Proof.
  intros Ha Hb Hn Ca Cb Na Nb c Hc.
  rewrite compter_jours_periode_jour_compte. cbv zeta. unfold m_bind.
  destruct (compteur_du_mode_retourne mode a b ex
              (Some (annee_feries annee a)) Ha Hb c Hc) as (c1 & -> & Hc1).
  rewrite Hn.
  destruct (jour_compte_vrai a mode ex _ Ca Na c1 Hc1) as (c2 & -> & Hc2).
  destruct (jour_compte_vrai b mode ex _ Cb Nb c2 Hc2) as (c3 & -> & Hc3).
  cbn [andb]. exists c3. split; [reflexivity | assumption].
Qed.

Lemma jours_a_partir_app n m : forall a a',
  add_days n a = Ok a' ->
  jours_a_partir a (n + m) = jours_a_partir a n ++ jours_a_partir a' m.
Proof.
  induction n as [| n IH]; intros a a'; cbn [add_days].
  - intros [= ->]. reflexivity.
  - destruct (tomorrow a) as [a1 |] eqn:E; [| discriminate].
    cbn [rbind]. intros H. cbn [Nat.add].
    rewrite !(jours_a_partir_cons a a1) by assumption.
    rewrite (IH a1 a' H). reflexivity.
Qed.

(** A date of another year is in no list of holidays of year [annee]. *)
Lemma date_in_autre_annee annee jf d :
  Forall (fun x => year x = annee) jf -> year d <> annee ->
  date_in d jf = false.
Proof.
  intros Hjf Hd. unfold date_in.
  induction Hjf as [| x r Hx _ IH]; [reflexivity |].
  cbn [existsb]. rewrite IH. unfold date_eqb. lia.
Qed.

Lemma nombre_jours_autre_annee P annee jf l :
  Forall (fun x => year x = annee) jf ->
  Forall (fun d => year d <> annee) l ->
  nombre_jours P jf l = nombre_jours P [] l.
Proof.
  intros Hjf Hl. induction Hl as [| d r Hd _ IH]; [reflexivity |].
  rewrite !nombre_jours_cons, IH, (date_in_autre_annee annee jf d) by auto.
  reflexivity.
Qed.

Lemma add_days_add n m a :
  add_days (n + m) a = (let? a' := add_days n a in add_days m a').
Proof.
  revert a. induction n as [| n IH]; intros a; cbn [Nat.add add_days rbind].
  - reflexivity.
  - destruct (tomorrow a) as [a1 |]; cbn [rbind]; [apply IH | reflexivity].
Qed.

Lemma fin_decembre annee :
  annee < 9999 ->
  add_days 12 (mk_date annee 12 20) = Ok (mk_date (annee + 1) 1 1).
Proof.
  intros Hy. change 12%nat with (11 + 1)%nat. rewrite add_days_add.
  replace (add_days 11 (mk_date annee 12 20)) with (Ok (mk_date annee 12 31))
    by reflexivity.
  cbn [rbind add_days]. unfold tomorrow; cbn [year month day].
  change (31 <? days_in_month annee 12) with false.
  change (12 <? 12) with false. unfold MAXYEAR.
  replace (annee <? 9999) with true by lia. reflexivity.
Qed.

Lemma debut_janvier y :
  jours_a_partir (mk_date y 1 1) 5
  = mk_date y 1 1 :: jours_a_partir (mk_date y 1 2) 4.
Proof. reflexivity. Qed.

Lemma annee_debut_janvier y :
  Forall (fun d => year d = y) (jours_a_partir (mk_date y 1 2) 4).
Proof. repeat constructor. Qed.

Lemma plage_decembre annee :
  jours_de_la_plage (mk_date annee 12 20) (mk_date annee 12 31)
  = jours_a_partir (mk_date annee 12 20) 12.
Proof.
  unfold jours_de_la_plage. rewrite !toordinal_in_year.
  replace (_ - _ + 1) with 12 by lia. reflexivity.
Qed.

Lemma plage_janvier y :
  jours_de_la_plage (mk_date y 1 2) (mk_date y 1 5)
  = jours_a_partir (mk_date y 1 2) 4.
Proof.
  unfold jours_de_la_plage. rewrite !toordinal_in_year.
  replace (_ - _ + 1) with 4 by lia. reflexivity.
Qed.

Lemma plage_fin_d_annee annee :
  annee < 9999 ->
  jours_de_la_plage (mk_date annee 12 20) (mk_date (annee + 1) 1 5)
  = jours_a_partir (mk_date annee 12 20) 12
    ++ mk_date (annee + 1) 1 1
       :: jours_a_partir (mk_date (annee + 1) 1 2) 4.
Proof.
  intros Hy. unfold jours_de_la_plage. rewrite !toordinal_in_year.
  rewrite days_before_year_succ. unfold days_before_month.
  replace (_ - _ + 1) with 17
    by (generalize (is_leap annee), (is_leap (annee + 1));
        intros [|] [|]; cbn; lia).
  change (Z.to_nat 17) with (12 + 5)%nat.
  rewrite (jours_a_partir_app 12 5 _ _ (fin_decembre annee Hy)).
  rewrite debut_janvier. reflexivity.
Qed.

(** The count over the last days of a year and the first of the next, with
    the holidays of the first year only. *)
Lemma valeur_compteur_fin_d_annee P annee jf :
  1 <= annee <= 9998 ->
  calcul_jours_feries annee = Ok jf ->
  valeur_compteur P (mk_date annee 12 20) (mk_date (annee + 1) 1 5) true
                  (Some annee)
  = Ok (nombre_jours P jf (jours_de_la_plage (mk_date annee 12 20)
                                             (mk_date annee 12 31))
        + (if P (mk_date (annee + 1) 1 1) then 1 else 0)
        + nombre_jours P [] (jours_de_la_plage (mk_date (annee + 1) 1 2)
                                               (mk_date (annee + 1) 1 5))).
Proof.
  intros Hy Hjf. unfold valeur_compteur. cbn [annee_feries].
  rewrite Hjf. cbn [rbind].
  replace (date_leb _ _) with true
    by (unfold date_leb, date_ltb; cbn [year month day]; lia).
  replace (date_eqb _ date_max) with false
    by (unfold date_eqb, date_max; cbn [year month day]; lia).
  rewrite plage_fin_d_annee, plage_decembre, plage_janvier by lia.
  pose proof (calcul_jours_feries_annee _ _ Hjf) as Hyear.
  rewrite nombre_jours_app, nombre_jours_cons.
  rewrite (date_in_autre_annee annee jf (mk_date (annee + 1) 1 1))
    by (auto; cbn; lia).
  rewrite (nombre_jours_autre_annee P annee jf
             (jours_a_partir (mk_date (annee + 1) 1 2) 4)); auto.
  - rewrite andb_true_r. f_equal. lia.
  - eapply List.Forall_impl; [| apply annee_debut_janvier].
    cbn beta. intros d ->. lia.
Qed.

End Periode.

(** ** The fractionation service *)

Section Service.

Lemma independant_retourne {A : Type} (m : M A) r :
  retourne m r -> independant m.
Proof.
  intros H. unfold independant. rewrite (retourne_vide m r H). exact H.
Qed.

Section Independance.

Context {A B : Type}.

Lemma independant_bind (m : M A) (k : A -> M B) :
  independant m -> (forall a, independant (k a)) ->
  independant (m_bind m k).
Proof.
  intros Hm Hk. apply (independant_retourne _ (rbind (fst (m ∅))
                                    (fun a => fst (k a ∅)))).
  apply retourne_bind; [exact Hm | intros a _; apply Hk].
Qed.

End Independance.

Lemma independant_ret {A : Type} (a : A) : independant (m_ret a).
Proof. exact (independant_retourne _ _ (retourne_ret a)). Qed.

Lemma independant_lift {A : Type} (r : result A) : independant (m_lift r).
Proof. exact (independant_retourne _ _ (retourne_lift r)). Qed.

Lemma independant_raise {A : Type} (e : exn) : independant (@m_raise A e).
Proof. exact (independant_retourne _ _ (retourne_raise e)). Qed.

Lemma independant_get_jours_feries annee :
  independant (get_jours_feries annee).
Proof. exact (independant_retourne _ _ (retourne_get_jours_feries annee)). Qed.

Ltac independance :=
  repeat first
    [ apply independant_ret
    | apply independant_lift
    | apply independant_raise
    | apply independant_get_jours_feries
    | apply independant_bind; [| intros ?]
    | match goal with
      | |- independant (if ?b then _ else _) => destruct b
      | |- independant (match ?x with _ => _ end) => destruct x
      end ].

Lemma independant_compter_jours_ouvres a b ex annee :
  independant (compter_jours_ouvres a b ex annee).
Proof. unfold compter_jours_ouvres. independance. Qed.

Lemma independant_compter_jours_ouvrables a b ex annee :
  independant (compter_jours_ouvrables a b ex annee).
Proof. unfold compter_jours_ouvrables. independance. Qed.

Lemma independant_jour_compte d mode ex annee :
  independant (jour_compte d mode ex annee).
Proof. unfold jour_compte. independance. Qed.

Lemma independant_compter_jours_periode a b mode ex annee dt ft :
  independant (compter_jours_periode a b mode ex annee dt ft).
Proof.
  rewrite compter_jours_periode_jour_compte. cbv zeta.
  apply independant_bind.
  { destruct (String.eqb mode "ouvrables");
      [apply independant_compter_jours_ouvrables
      | apply independant_compter_jours_ouvres]. }
  intros n. apply independant_bind; [apply independant_jour_compte |].
  intros dc. apply independant_bind; [apply independant_jour_compte |].
  intros fc. apply independant_ret.
Qed.

Lemma independant_jours_hors_de_periode p jt annee :
  independant (jours_hors_de_periode p jt annee).
Proof.
  unfold jours_hors_de_periode.
  repeat first
    [ apply independant_compter_jours_periode
    | apply independant_ret
    | apply independant_lift
    | apply independant_bind; [| intros ?]
    | match goal with
      | |- independant (if ?b then _ else _) => destruct b
      end ].
Qed.

(** The loop over the periods never raises. *)
Lemma somme_periodes_retourne l jt annee : forall total,
  exists v, retourne (somme_periodes l jt annee total) (Ok v)
            /\ fst (somme_periodes l jt annee total ∅) = Ok v.
Proof.
  induction l as [| p r IH]; intros total.
  - exists total. split; [apply retourne_ret | reflexivity].
  - pose proof (independant_jours_hors_de_periode p jt annee) as Hp.
    destruct (Hp ∅ cache_coherent_empty) as (c0 & E0 & Hc0).
    destruct (fst (jours_hors_de_periode p jt annee ∅)) as [j | e] eqn:Ej.
    + destruct (IH (Decimal.add total j)) as (v & Hv & _).
      exists v.
      assert (R : retourne (somme_periodes (p :: r) jt annee total) (Ok v)).
      { intros c Hc. cbn [somme_periodes].
        destruct (Hp c Hc) as (c1 & -> & Hc1). rewrite Ej.
        exact (Hv c1 Hc1). }
      split; [exact R | exact (retourne_vide _ _ R)].
    + destruct (IH total) as (v & Hv & _).
      exists v.
      assert (R : retourne (somme_periodes (p :: r) jt annee total) (Ok v)).
      { intros c Hc. cbn [somme_periodes].
        destruct (Hp c Hc) as (c1 & -> & Hc1). rewrite Ej.
        exact (Hv c1 Hc1). }
      split; [exact R | exact (retourne_vide _ _ R)].
Qed.

Lemma somme_periodes_total l jt annee total (c : cache) :
  exists v c', somme_periodes l jt annee total c = (Ok v, c').
Proof.
  revert total c. induction l as [| p r IH]; intros total c.
  - exists total, c. reflexivity.
  - cbn [somme_periodes].
    destruct (jours_hors_de_periode p jt annee c) as [[j | e] c1]; apply IH.
Qed.

Lemma independant_somme_periodes l jt annee total :
  independant (somme_periodes l jt annee total).
Proof.
  destruct (somme_periodes_retourne l jt annee total) as (v & Hv & _).
  exact (independant_retourne _ _ Hv).
Qed.

Lemma independant_get_jours_hors_periode_principale db user annee :
  independant (get_jours_hors_periode_principale db user annee).
Proof.
  unfold get_jours_hors_periode_principale.
  destruct ((annee <? ANNEE_MIN) || (ANNEE_MAX <? annee));
    [apply independant_raise |].
  apply independant_bind; [apply independant_lift |].
  intros jt. apply independant_bind; [apply independant_somme_periodes |].
  intros t. apply independant_ret.
Qed.

Lemma objects_get_raises {A : Type} (rows : list A) e :
  objects_get rows = Raise e ->
  e = DoesNotExist \/ e = MultipleObjectsReturned.
Proof.
  destruct rows as [| x [| y r]]; cbn; intros [=]; auto.
Qed.

(** When [get_jours_hors_periode_principale] raises. *)
Lemma get_jours_hors_periode_principale_raises db user annee (c : cache) e :
  fst (get_jours_hors_periode_principale db user annee c) = Raise e ->
  (e = ValueError /\ (annee < ANNEE_MIN \/ ANNEE_MAX < annee))
  \/ (e = MultipleObjectsReturned /\ ANNEE_MIN <= annee <= ANNEE_MAX
      /\ ParametresAnnee_get db user annee = Raise MultipleObjectsReturned).
Proof.
  unfold get_jours_hors_periode_principale.
  destruct ((annee <? ANNEE_MIN) || (ANNEE_MAX <? annee)) eqn:E.
  - cbn. intros [= <-]. left. split; [reflexivity | lia].
  - unfold m_bind, m_lift.
    destruct (ParametresAnnee_get db user annee) as [p | e'] eqn:Ep.
    + destruct (somme_periodes_total
                  (PeriodeConge_filter db user annee "annuel")
                  (pa_jours_ouvres_ou_ouvrables p) annee (mk_dec 0 (-1)) c)
        as (v & c' & ->).
      cbn. discriminate.
    + destruct (objects_get_raises _ _ Ep) as [-> | ->].
      * destruct (somme_periodes_total
                    (PeriodeConge_filter db user annee "annuel")
                    "ouvres" annee (mk_dec 0 (-1)) c)
          as (v & c' & ->).
        cbn. discriminate.
      * cbn. intros [= <-]. right. repeat split; try lia.
Qed.

Lemma get_jours_hors_periode_principale_annee_invalide db user annee
      (c : cache) :
  annee < ANNEE_MIN \/ ANNEE_MAX < annee ->
  get_jours_hors_periode_principale db user annee c = (Raise ValueError, c).
Proof.
  intros H. unfold get_jours_hors_periode_principale.
  replace ((annee <? ANNEE_MIN) || (ANNEE_MAX <? annee)) with true by lia.
  reflexivity.
Qed.

Lemma calculer_fractionnement_complet_propage db user annee (c : cache) e :
  fst (get_jours_hors_periode_principale db user annee c) = Raise e ->
  fst (calculer_fractionnement_complet db user annee c) = Raise e.
Proof.
  unfold calculer_fractionnement_complet.
  destruct (get_jours_hors_periode_principale db user annee c)
    as [[n | e'] c']; cbn [fst]; [discriminate |].
  intros [= ->]. destruct e; reflexivity.
Qed.

Lemma calculer_fractionnement_complet_retourne db user annee (c : cache) n :
  fst (get_jours_hors_periode_principale db user annee c) = Ok n ->
  fst (calculer_fractionnement_complet db user annee c)
  = Ok (mk_resultat n (calculer_jours_fractionnement n) annee).
Proof.
  unfold calculer_fractionnement_complet.
  destruct (get_jours_hors_periode_principale db user annee c)
    as [[n' | e'] c']; cbn [fst]; [| discriminate].
  intros [= ->]. reflexivity.
Qed.

Lemma calculer_fractionnement_complet_ok db user annee n :
  retourne (get_jours_hors_periode_principale db user annee) (Ok n) ->
  retourne (calculer_fractionnement_complet db user annee)
           (Ok (mk_resultat n (calculer_jours_fractionnement n) annee)).
Proof.
  intros H c Hc. destruct (H c Hc) as (c1 & E & Hc1).
  unfold calculer_fractionnement_complet. rewrite E. exists c1. auto.
Qed.

(** The counting mode matters only through the test against
    ['ouvrables']. *)
Lemma jours_hors_de_periode_mode p jt annee :
  jours_hors_de_periode p jt annee
  = jours_hors_de_periode p (if String.eqb jt "ouvrables"
                             then "ouvrables" else "ouvres") annee.
Proof.
  destruct (String.eqb jt "ouvrables") eqn:E.
  - apply String.eqb_eq in E. subst jt. reflexivity.
  - unfold jours_hors_de_periode, compter_jours_periode.
    rewrite E. reflexivity.
Qed.

Lemma somme_periodes_cons_retourne p r jt annee total j v :
  retourne (jours_hors_de_periode p jt annee) (Ok j) ->
  retourne (somme_periodes r jt annee (Decimal.add total j)) (Ok v) ->
  retourne (somme_periodes (p :: r) jt annee total) (Ok v).
Proof.
  intros Hp Hr c Hc. cbn [somme_periodes].
  destruct (Hp c Hc) as (c1 & -> & Hc1). exact (Hr c1 Hc1).
Qed.

Lemma get_jours_hors_periode_principale_retourne db user annee jt v :
  ANNEE_MIN <= annee <= ANNEE_MAX ->
  jours_type_service db user annee = Ok jt ->
  retourne (somme_periodes (PeriodeConge_filter db user annee "annuel")
                           jt annee (mk_dec 0 (-1))) (Ok v) ->
  retourne (get_jours_hors_periode_principale db user annee)
           (Ok (Decimal.to_int v)).
Proof.
  intros Hy Hjt Hs c Hc. unfold get_jours_hors_periode_principale.
  replace ((annee <? ANNEE_MIN) || (ANNEE_MAX <? annee)) with false by lia.
  unfold m_bind, m_lift. fold (jours_type_service db user annee).
  rewrite Hjt. destruct (Hs c Hc) as (c1 & -> & Hc1).
  exists c1. auto.
Qed.

Lemma jours_type_service_ok db user annee :
  ParametresAnnee_get db user annee <> Raise MultipleObjectsReturned ->
  exists jt, jours_type_service db user annee = Ok jt.
Proof.
  intros H. unfold jours_type_service.
  destruct (ParametresAnnee_get db user annee) as [p | e] eqn:E; [eauto |].
  destruct (objects_get_raises _ _ E) as [-> | ->]; [eauto | contradiction].
Qed.

Lemma jours_hors_du_4_au_8 p jt :
  periode_du_4_au_8 p ->
  retourne (jours_hors_de_periode p jt 2024) (Ok (mk_dec 45 (-1))).
Proof.
  intros Hp. unfold periode_du_4_au_8 in Hp.
  rewrite (jours_hors_de_periode_mode p jt).
  destruct p as [u dd dt df ft tc ac]; cbn in Hp.
  destruct Hp as (-> & -> & -> & ->).
  destruct (String.eqb jt "ouvrables").
  - exact (independant_jours_hors_de_periode
             (mk_periode u _ _ _ _ tc ac) "ouvrables" 2024).
  - exact (independant_jours_hors_de_periode
             (mk_periode u _ _ _ _ tc ac) "ouvres" 2024).
Qed.

Lemma jours_hors_du_8 p jt :
  periode_du_8 p ->
  retourne (jours_hors_de_periode p jt 2024) (Ok (mk_dec 5 (-1))).
Proof.
  intros Hp. unfold periode_du_8 in Hp.
  rewrite (jours_hors_de_periode_mode p jt).
  destruct p as [u dd dt df ft tc ac]; cbn in Hp.
  destruct Hp as (-> & -> & -> & ->).
  destruct (String.eqb jt "ouvrables").
  - exact (independant_jours_hors_de_periode
             (mk_periode u _ _ _ _ tc ac) "ouvrables" 2024).
  - exact (independant_jours_hors_de_periode
             (mk_periode u _ _ _ _ tc ac) "ouvres" 2024).
Qed.

Lemma scenario_une_periode db user p1 :
  ParametresAnnee_get db user 2024 <> Raise MultipleObjectsReturned ->
  periode_du_4_au_8 p1 ->
  PeriodeConge_filter db user 2024 "annuel" = [p1] ->
  retourne (get_jours_hors_periode_principale db user 2024) (Ok 4).
Proof.
  intros Hpa H1 Hf.
  destruct (jours_type_service_ok db user 2024 Hpa) as (jt & Hjt).
  apply (get_jours_hors_periode_principale_retourne db user 2024 jt
           (mk_dec 45 (-1))); [unfold ANNEE_MIN, ANNEE_MAX; lia | exact Hjt |].
  rewrite Hf.
  eapply somme_periodes_cons_retourne;
    [apply jours_hors_du_4_au_8; exact H1 | apply retourne_ret].
Qed.

Lemma scenario_deux_periodes db user p1 p2 :
  ParametresAnnee_get db user 2024 <> Raise MultipleObjectsReturned ->
  periode_du_4_au_8 p1 -> periode_du_8 p2 ->
  Permutation (PeriodeConge_filter db user 2024 "annuel") [p1; p2] ->
  retourne (get_jours_hors_periode_principale db user 2024) (Ok 5).
Proof.
  intros Hpa H1 H2 Hf.
  destruct (jours_type_service_ok db user 2024 Hpa) as (jt & Hjt).
  apply Permutation_sym, Permutation_length_2_inv in Hf.
  destruct Hf as [Hf | Hf].
  - apply (get_jours_hors_periode_principale_retourne db user 2024 jt
             (mk_dec 50 (-1)));
      [unfold ANNEE_MIN, ANNEE_MAX; lia | exact Hjt |].
    rewrite Hf.
    eapply somme_periodes_cons_retourne;
      [apply jours_hors_du_4_au_8; exact H1 |].
    eapply somme_periodes_cons_retourne;
      [apply jours_hors_du_8; exact H2 | apply retourne_ret].
  - apply (get_jours_hors_periode_principale_retourne db user 2024 jt
             (mk_dec 50 (-1)));
      [unfold ANNEE_MIN, ANNEE_MAX; lia | exact Hjt |].
    rewrite Hf.
    eapply somme_periodes_cons_retourne;
      [apply jours_hors_du_8; exact H2 |].
    eapply somme_periodes_cons_retourne;
      [apply jours_hors_du_4_au_8; exact H1 | apply retourne_ret].
Qed.

End Service.

(** ** Decimal rounding and the yearly RTT *)

Section Rtt.

Lemma pow10_pos k : 0 <= k -> 0 < 10 ^ k.
Proof. intros H. apply Z.pow_pos_nonneg; lia. Qed.

Lemma pow10_succ k : 0 <= k -> 10 ^ (k + 1) = 10 * 10 ^ k.
Proof. intros H. rewrite Z.pow_add_r by lia. lia. Qed.

Lemma ndigits_aux_spec fuel : forall n,
  1 <= n -> n < 2 ^ Z.of_nat fuel ->
  1 <= ndigits_aux fuel n
  /\ 10 ^ (ndigits_aux fuel n - 1) <= n < 10 ^ ndigits_aux fuel n.
Proof.
  induction fuel as [| k IH]; intros n Hn Hf.
  - cbn in Hf. lia.
  - cbn [ndigits_aux]. destruct (n <? 10) eqn:E.
    + cbn. lia.
    + assert (H10 : 1 <= n / 10) by (Z.to_euclidean_division_equations; lia).
      assert (Hk : n / 10 < 2 ^ Z.of_nat k).
      { rewrite Nat2Z.inj_succ, Z.pow_succ_r in Hf by lia.
        Z.to_euclidean_division_equations; lia. }
      destruct (IH (n / 10) H10 Hk) as (Hr & Hlo & Hhi).
      set (r := ndigits_aux k (n / 10)) in *.
      replace (1 + r - 1) with (r - 1 + 1) by lia.
      replace (1 + r) with (r + 1) by lia.
      rewrite !pow10_succ by lia.
      split; [lia |]. Z.to_euclidean_division_equations; lia.
Qed.

Lemma ndigits_spec n :
  1 <= n -> 1 <= ndigits n /\ 10 ^ (ndigits n - 1) <= n < 10 ^ ndigits n.
Proof.
  intros Hn. unfold ndigits. apply ndigits_aux_spec; [assumption |].
  rewrite Nat2Z.inj_succ, Z2Nat.id by apply Z.log2_nonneg.
  apply Z.log2_spec. lia.
Qed.

Lemma ndigits_zero : ndigits 0 = 1.
Proof. reflexivity. Qed.

Lemma ndigits_pos n : 0 <= n -> 1 <= ndigits n.
Proof.
  intros Hn.
  destruct (Z.eq_dec n 0) as [-> | Hz]; [rewrite ndigits_zero; lia |].
  apply ndigits_spec. lia.
Qed.

Lemma pow10_mono a b : 0 <= a <= b -> 10 ^ a <= 10 ^ b.
Proof. intros H. apply Z.pow_le_mono_r; lia. Qed.

Lemma ndigits_mono a b : 0 <= a <= b -> ndigits a <= ndigits b.
Proof.
  intros H. destruct (Z.eq_dec a 0) as [-> | Ha].
  { rewrite ndigits_zero. apply ndigits_pos. lia. }
  destruct (ndigits_spec a ltac:(lia)) as (Ha1 & Ha2 & Ha3).
  destruct (ndigits_spec b ltac:(lia)) as (Hb1 & Hb2 & Hb3).
  destruct (Z_lt_le_dec (ndigits b) (ndigits a)) as [Hlt |]; [| assumption].
  pose proof (pow10_mono (ndigits b) (ndigits a - 1) ltac:(lia)). lia.
Qed.

Lemma div_half_even_cases n p :
  div_half_even n p = n / p \/ div_half_even n p = n / p + 1.
Proof. unfold div_half_even. repeat case_match; auto. Qed.

Lemma div_half_even_exact a p : 0 < p -> div_half_even (a * p) p = a.
Proof.
  intros Hp. unfold div_half_even.
  rewrite Z.div_mul, Z.mod_mul by lia.
  replace (2 * 0 <? p) with true by lia. reflexivity.
Qed.

Lemma div_half_even_mono a b p :
  0 < p -> a <= b -> div_half_even a p <= div_half_even b p.
Proof.
  intros Hp Hab.
  pose proof (Z.div_le_mono a b p Hp Hab) as Hq.
  destruct (Z.eq_dec (a / p) (b / p)) as [E | NE].
  - unfold div_half_even. rewrite !Z.mod_eq by lia. rewrite E.
    generalize dependent (b / p). intros q _ _.
    generalize dependent (p * q). intros pq.
    destruct (Z.even q); repeat case_match; lia.
  - destruct (div_half_even_cases a p) as [-> | ->].
    + destruct (div_half_even_cases b p) as [-> | ->]; lia.
    + destruct (div_half_even_cases b p) as [-> | ->]; lia.
Qed.

Lemma div_half_even_scale a p k :
  0 < p -> 0 < k -> div_half_even (a * k) (p * k) = div_half_even a p.
Proof.
  intros Hp Hk. unfold div_half_even.
  rewrite Z.div_mul_cancel_r, Z.mul_mod_distr_r by lia.
  replace (2 * (a mod p * k) <? p * k) with (2 * (a mod p) <? p) by nia.
  replace (p * k <? 2 * (a mod p * k)) with (p <? 2 * (a mod p)) by nia.
  reflexivity.
Qed.

(** Rounding a coefficient of [n > 28] digits leaves it between the powers
    of ten that bound it. *)
Lemma arrondi_28_bounds c :
  prec < ndigits c -> 1 <= c ->
  10 ^ (ndigits c - 1) <= arrondi_28 c <= 10 ^ ndigits c
  /\ 10 ^ 27 <= div_half_even c (10 ^ (ndigits c - prec)) <= 10 ^ 28.
Proof.
  intros Hn Hc. unfold arrondi_28, prec in *.
  replace (28 <? ndigits c) with true by lia.
  destruct (ndigits_spec c Hc) as (_ & Hlo & Hhi).
  set (n := ndigits c) in *. set (d := n - 28).
  assert (Hd : 0 < 10 ^ d) by (apply pow10_pos; lia).
  assert (E1 : 10 ^ (n - 1) = 10 ^ 27 * 10 ^ d).
  { rewrite <- Z.pow_add_r by lia. f_equal. lia. }
  assert (E2 : 10 ^ n = 10 ^ 28 * 10 ^ d).
  { rewrite <- Z.pow_add_r by lia. f_equal. lia. }
  pose proof (div_half_even_mono (10 ^ 27 * 10 ^ d) c (10 ^ d) Hd ltac:(lia))
    as H1.
  pose proof (div_half_even_mono c (10 ^ 28 * 10 ^ d) (10 ^ d) Hd ltac:(lia))
    as H2.
  rewrite div_half_even_exact in H1, H2 by assumption.
  rewrite E1, E2. split; [| lia]. split.
  - apply Z.mul_le_mono_nonneg_r; lia.
  - apply Z.mul_le_mono_nonneg_r; lia.
Qed.

Lemma arrondi_28_mono c1 c2 :
  0 <= c1 <= c2 -> arrondi_28 c1 <= arrondi_28 c2.
Proof.
  intros H. pose proof (ndigits_mono c1 c2 H) as Hn.
  destruct (Z_lt_le_dec prec (ndigits c2)) as [H2 | H2].
  - assert (Hc2 : 1 <= c2).
    { destruct (Z.eq_dec c2 0) as [-> | ]; [| lia].
      rewrite ndigits_zero in H2. unfold prec in H2. lia. }
    destruct (arrondi_28_bounds c2 H2 Hc2) as [[Hlo2 _] _].
    destruct (Z_lt_le_dec prec (ndigits c1)) as [H1 | H1].
    + assert (Hc1 : 1 <= c1).
      { destruct (Z.eq_dec c1 0) as [-> | ]; [| lia].
        rewrite ndigits_zero in H1. unfold prec in H1. lia. }
      destruct (Z.eq_dec (ndigits c1) (ndigits c2)) as [E | NE].
      * unfold arrondi_28. rewrite E.
        replace (prec <? ndigits c2) with true by lia.
        apply Z.mul_le_mono_nonneg_r;
          [apply Z.lt_le_incl, pow10_pos; lia |].
        apply div_half_even_mono; [apply pow10_pos; lia | lia].
      * destruct (arrondi_28_bounds c1 H1 Hc1) as [[_ Hhi1] _].
        pose proof (pow10_mono (ndigits c1) (ndigits c2 - 1)
                               ltac:(unfold prec in *; lia)).
        lia.
    + unfold arrondi_28 at 1. replace (prec <? ndigits c1) with false by lia.
      destruct (Z.eq_dec c1 0) as [-> | Hz].
      { pose proof (pow10_pos (ndigits c2 - 1) ltac:(unfold prec in *; lia)).
        lia. }
      destruct (ndigits_spec c1 ltac:(lia)) as (Hpos & _ & Hhi).
      pose proof (pow10_mono (ndigits c1) (ndigits c2 - 1)
                             ltac:(unfold prec in *; lia)).
      lia.
  - unfold arrondi_28.
    replace (prec <? ndigits c1) with false by lia.
    replace (prec <? ndigits c2) with false by lia. lia.
Qed.

(** [fix_] on a non-negative coefficient: the exponent can only grow, and
    the value is [arrondi_28 c] units of [10 ^ e]. *)
Lemma fix_value c e :
  0 <= c ->
  exists f k,
    fix_ (mk_dec c e) = mk_dec f (e + k)
    /\ 0 <= f /\ 0 <= k /\ f * 10 ^ k = arrondi_28 c.
Proof.
  intros Hc. unfold fix_, arrondi_28. cbn [coef expo].
  rewrite Z.abs_eq by assumption.
  destruct (prec <? ndigits c) eqn:En.
  - assert (Hc1 : 1 <= c).
    { destruct (Z.eq_dec c 0) as [-> | ]; [| lia].
      rewrite ndigits_zero in En. discriminate. }
    destruct (arrondi_28_bounds c ltac:(lia) Hc1) as [_ [Hlo Hhi]].
    set (d := ndigits c - prec) in *.
    set (c' := div_half_even c (10 ^ d)) in *.
    assert (Hd : 0 <= d) by (unfold d; lia).
    rewrite Z.sgn_pos by lia. rewrite !Z.mul_1_l.
    destruct (prec <? ndigits c') eqn:En'.
    + assert (c' = 10 ^ 28) as Ec.
      { destruct (ndigits_spec c' ltac:(lia)) as (_ & Hlo' & _).
        pose proof (pow10_mono 28 (ndigits c' - 1)
                               ltac:(unfold prec in *; lia)). lia. }
      exists (c' / 10), (d + 1). rewrite Z.add_assoc.
      split; [reflexivity |]. rewrite Ec.
      change (10 ^ 28 / 10) with (10 ^ 27).
      rewrite pow10_succ by lia. repeat split; lia.
    + exists c', d. repeat split; lia.
  - exists c, 0. rewrite Z.add_0_r. repeat split; lia.
Qed.

Lemma arrondi_entier_mono v1 v2 e :
  0 <= v1 <= v2 -> arrondi_entier v1 e <= arrondi_entier v2 e.
Proof.
  intros H. unfold arrondi_entier. destruct (0 <=? e) eqn:E.
  - apply Z.mul_le_mono_nonneg_r; [apply Z.lt_le_incl, pow10_pos |]; lia.
  - apply div_half_even_mono; [apply pow10_pos |]; lia.
Qed.

Lemma round_value f e k :
  0 <= f -> 0 <= k ->
  Decimal.round (mk_dec f (e + k)) = arrondi_entier (f * 10 ^ k) e.
Proof.
  intros Hf Hk. unfold Decimal.round, arrondi_entier. cbn [coef expo].
  destruct (0 <=? e) eqn:E.
  - replace (0 <=? e + k) with true by lia.
    rewrite (Z.add_comm e k), Z.pow_add_r by lia. lia.
  - destruct (0 <=? e + k) eqn:E'.
    + replace (f * 10 ^ k) with (f * 10 ^ (e + k) * 10 ^ (- e)).
      * rewrite div_half_even_exact by (apply pow10_pos; lia). reflexivity.
      * rewrite <- Z.mul_assoc, <- Z.pow_add_r by lia. do 2 f_equal. lia.
    + replace (10 ^ (- e)) with (10 ^ (- (e + k)) * 10 ^ k)
        by (rewrite <- Z.pow_add_r by lia; f_equal; lia).
      rewrite div_half_even_scale by (apply pow10_pos; lia).
      rewrite Z.abs_eq by assumption.
      destruct (Z.eq_dec f 0) as [-> | Hz].
      * pose proof (pow10_pos (- (e + k)) ltac:(lia)) as Hp.
        unfold div_half_even. rewrite Z.div_0_l, Z.mod_0_l by lia.
        replace (2 * 0 <? 10 ^ (- (e + k))) with true by lia. reflexivity.
      * rewrite Z.sgn_pos by lia. lia.
Qed.

(** Rounding to 28 digits and then to an integer is monotone in the
    coefficient. *)
Lemma round_fix_mono c1 c2 e :
  0 <= c1 <= c2 ->
  Decimal.round (fix_ (mk_dec c1 e)) <= Decimal.round (fix_ (mk_dec c2 e)).
Proof.
  intros H.
  destruct (fix_value c1 e ltac:(lia)) as (f1 & k1 & -> & Hf1 & Hk1 & E1).
  destruct (fix_value c2 e ltac:(lia)) as (f2 & k2 & -> & Hf2 & Hk2 & E2).
  rewrite !round_value, E1, E2 by assumption.
  apply arrondi_entier_mono. split; [| apply arrondi_28_mono; assumption].
  rewrite <- E1. apply Z.mul_nonneg_nonneg; [lia |].
  apply Z.lt_le_incl, pow10_pos; lia.
Qed.

Lemma fix_nonneg c e : 0 <= c -> 0 <= coef (fix_ (mk_dec c e)).
Proof.
  intros Hc. destruct (fix_value c e Hc) as (f & k & -> & Hf & _). exact Hf.
Qed.

Lemma strip_zeros_nonneg fuel : forall c e ideal,
  0 <= c -> 0 <= coef (strip_zeros fuel c e ideal).
Proof.
  induction fuel as [| n IH]; intros c e ideal Hc; cbn [strip_zeros].
  - exact Hc.
  - destruct ((e <? ideal) && (c mod 10 =? 0)); [| exact Hc].
    apply IH. apply Z.div_pos; lia.
Qed.

(** A decimal above a non-negative integer has a positive coefficient. *)
Lemma leb_false_pos x n :
  0 <= n -> Decimal.leb x (of_int n) = false -> 0 < coef x.
Proof.
  intros Hn. unfold Decimal.leb, cmp, of_int. cbn [coef expo].
  set (e := Z.min (expo x) 0).
  pose proof (pow10_pos (expo x - e) ltac:(lia)) as H1.
  pose proof (pow10_pos (0 - e) ltac:(lia)) as H2.
  destruct (_ ?= _) eqn:E; try discriminate. intros _.
  apply Z.compare_gt_iff in E. nia.
Qed.

Lemma div_positifs a b :
  0 < coef a -> 0 < coef b ->
  exists x, Decimal.div a b = Ok x /\ 0 <= coef x.
Proof.
  intros Ha Hb. unfold Decimal.div.
  replace (coef b =? 0) with false by lia.
  replace (coef a =? 0) with false by lia.
  rewrite !Z.sgn_pos, !Z.abs_eq, !Z.mul_1_l by lia.
  set (shift := ndigits (coef b) - ndigits (coef a) + prec + 1).
  set (num := if 0 <=? shift then coef a * 10 ^ shift else coef a).
  set (den := if 0 <=? shift then coef b else coef b * 10 ^ (- shift)).
  assert (Hnum : 0 <= num).
  { unfold num. destruct (0 <=? shift) eqn:E; [| lia].
    pose proof (pow10_pos shift ltac:(lia)). nia. }
  assert (Hden : 0 < den).
  { unfold den. destruct (0 <=? shift) eqn:E; [lia |].
    pose proof (pow10_pos (- shift) ltac:(lia)). nia. }
  pose proof (Z.div_pos num den Hnum Hden) as Hq.
  destruct (negb (num mod den =? 0)).
  - eexists. split; [reflexivity |]. apply fix_nonneg.
    destruct (num / den mod 5 =? 0); lia.
  - eexists. split; [reflexivity |]. apply fix_nonneg.
    apply strip_zeros_nonneg. exact Hq.
Qed.

Lemma calculer_rtt_annuels_au_dessus h q :
  Decimal.leb h HEURES_SEMAINE_MIN = false ->
  calculer_rtt_annuels h q
  = if Decimal.leb (heures_supplementaires h) (of_int 0) then Ok 0
    else let? x := Decimal.div (heures_supplementaires h) h in
         Ok (Decimal.round (Decimal.mul x q)).
Proof. intros H. unfold calculer_rtt_annuels. rewrite H. reflexivity. Qed.

Lemma calculer_rtt_annuels_quotite h :
  Decimal.leb h HEURES_SEMAINE_MIN = false ->
  exists r1 r05,
    calculer_rtt_annuels h (mk_dec 10 (-1)) = Ok r1
    /\ calculer_rtt_annuels h (mk_dec 5 (-1)) = Ok r05
    /\ r05 <= r1.
Proof.
  intros H. rewrite !calculer_rtt_annuels_au_dessus by assumption.
  destruct (Decimal.leb (heures_supplementaires h) (of_int 0)) eqn:E.
  - exists 0, 0. repeat split; lia.
  - pose proof (leb_false_pos h 35 ltac:(lia) H) as Hh.
    pose proof (leb_false_pos _ 0 ltac:(lia) E) as Hs.
    destruct (div_positifs _ h Hs Hh) as (x & -> & Hx). cbn [rbind].
    eexists _, _. split; [reflexivity |]. split; [reflexivity |].
    unfold Decimal.mul. cbn [coef expo].
    apply round_fix_mono. lia.
Qed.

Lemma div_half_even_nearest n p :
  0 < p -> 2 * Z.abs (n - div_half_even n p * p) <= p.
Proof.
  intros Hp. unfold div_half_even.
  pose proof (Z.div_mod n p ltac:(lia)) as Hdm.
  pose proof (Z.mod_pos_bound n p Hp) as Hr.
  generalize dependent (n mod p). intros r Hdm Hr.
  generalize dependent (n / p). intros q Hdm.
  repeat case_match; nia.
Qed.

(** [round] returns an integer nearest to its argument. *)
Lemma round_nearest x :
  if 0 <=? expo x
  then Decimal.round x = coef x * 10 ^ expo x
  else 2 * Z.abs (coef x - Decimal.round x * 10 ^ (- expo x))
       <= 10 ^ (- expo x).
Proof.
  unfold Decimal.round. destruct (0 <=? expo x) eqn:E; [reflexivity |].
  pose proof (pow10_pos (- expo x) ltac:(lia)) as Hp.
  pose proof (div_half_even_nearest (Z.abs (coef x)) (10 ^ (- expo x)) Hp)
    as H.
  destruct (Z.lt_trichotomy (coef x) 0) as [Hc | [Hc | Hc]].
  - rewrite Z.sgn_neg by assumption.
    rewrite (Z.abs_neq (coef x)) in * by lia.
    set (d := div_half_even (- coef x) (10 ^ (- expo x))) in *.
    replace (-1 * d * 10 ^ (- expo x)) with (- (d * 10 ^ (- expo x)))
      by ring.
    lia.
  - rewrite Hc in *. cbn [Z.sgn Z.abs] in *. lia.
  - rewrite Z.sgn_pos by assumption.
    rewrite (Z.abs_eq (coef x)) in * by lia.
    rewrite Z.mul_1_l. lia.
Qed.

End Rtt.

(** Evaluates the powers of ten with a constant exponent. *)
Ltac calcule_puissances :=
  repeat match goal with
         | |- context [10 ^ ?e] =>
             let v := eval vm_compute in (10 ^ e) in
             change (10 ^ e) with v
         | H : context [10 ^ ?e] |- _ =>
             let v := eval vm_compute in (10 ^ e) in
             change (10 ^ e) with v in H
         end.

(** ** Easter Sunday and Good Friday *)

Section Dimanche.

Lemma pour_tout_spec f n : forall lo,
  pour_tout f lo n = true ->
  forall k, lo <= k < lo + Z.of_nat n -> f k = true.
Proof.
  induction n as [| n IH]; intros lo H k Hk; [lia |].
  cbn [pour_tout] in H. apply andb_true_iff in H as [H0 H1].
  destruct (Z.eq_dec k lo) as [-> | Hne]; [exact H0 |].
  apply (IH (lo + 1) H1). lia.
Qed.

Lemma paques_un_dimanche annee :
  1 <= annee <= 9999 -> weekday (dimanche_de_paques annee) = 6.
Proof.
  intros Hy.
  assert (H : pour_tout (fun y => weekday (dimanche_de_paques y) =? 6)
                        1 (Z.to_nat 9999) = true)
    by (vm_compute; reflexivity).
  pose proof (pour_tout_spec _ _ _ H annee ltac:(lia)) as E.
  cbv beta in E. lia.
Qed.

Lemma weekday_of_ordinal d d' k :
  toordinal d' = toordinal d + k -> weekday d' = (weekday d + k) mod 7.
Proof.
  intros H. unfold weekday. rewrite H.
  Z.to_euclidean_division_equations; lia.
Qed.

Lemma toordinal_yesterday d d' :
  valid_date d -> yesterday d = Ok d' ->
  valid_date d' /\ toordinal d' = toordinal d - 1.
Proof.
  intros Hd. apply valid_date_iff in Hd. unfold yesterday, MINYEAR.
  destruct d as [y m dd]; cbn [year month day] in *.
  destruct (1 <? dd) eqn:E1.
  { intros [= <-]. split; [apply valid_date_iff; cbn [year month day]; lia |].
    unfold toordinal; cbn [year month day]. lia. }
  destruct (1 <? m) eqn:E2.
  { intros [= <-]. pose proof (days_in_month_bounds y (m - 1)).
    split; [apply valid_date_iff; cbn [year month day]; lia |].
    unfold toordinal; cbn [year month day].
    pose proof (days_before_month_succ y (m - 1) ltac:(lia)) as Hs.
    replace (m - 1 + 1) with m in Hs by lia. lia. }
  destruct (1 <? y) eqn:E3; [| discriminate].
  intros [= <-].
  split; [apply valid_date_iff; cbn [year month day];
          change (days_in_month (y - 1) 12) with 31; lia |].
  unfold toordinal; cbn [year month day].
  pose proof (days_before_year_succ (y - 1)) as Hs.
  replace (y - 1 + 1) with y in Hs by lia.
  assert (m = 1) by lia. assert (dd = 1) by lia. subst m dd.
  unfold days_before_month.
  generalize dependent (is_leap (y - 1)). intros [|]; cbn; lia.
Qed.

Lemma yesterday_ok d :
  valid_date d -> 1 < toordinal d -> exists d', yesterday d = Ok d'.
Proof.
  intros Hd Ho. pose proof Hd as Hv. apply valid_date_iff in Hv.
  unfold yesterday, MINYEAR.
  destruct (1 <? day d) eqn:E1; [eauto |].
  destruct (1 <? month d) eqn:E2; [eauto |].
  destruct (1 <? year d) eqn:E3; [eauto |].
  exfalso. destruct d as [y m dd]; cbn [year month day] in *.
  assert (y = 1) by lia. assert (m = 1) by lia. assert (dd = 1) by lia.
  subst. vm_compute in Ho. discriminate.
Qed.

Lemma sub_days_ok n : forall d,
  valid_date d -> Z.of_nat n < toordinal d ->
  exists d', sub_days n d = Ok d' /\ valid_date d'
             /\ toordinal d' = toordinal d - Z.of_nat n.
Proof.
  induction n as [| n IH]; intros d Hd Hn.
  - exists d. cbn [sub_days]. repeat split; auto; lia.
  - cbn [sub_days].
    destruct (yesterday_ok d Hd ltac:(lia)) as [d1 H1]. rewrite H1.
    cbn [rbind].
    destruct (toordinal_yesterday _ _ Hd H1) as [Hv Ho].
    destruct (IH d1 Hv ltac:(lia)) as (d' & E & Hv' & Ho').
    exists d'. repeat split; auto; lia.
Qed.

Lemma date_in_In d l : date_in d l = true <-> In d l.
Proof.
  unfold date_in. rewrite existsb_exists. split.
  - intros (x & Hx & E). apply date_eqb_eq in E. subst. exact Hx.
  - intros H. exists d. split; [exact H | apply date_eqb_refl].
Qed.

Lemma date_in_false d l : date_in d l = false <-> ~ In d l.
Proof.
  rewrite <- date_in_In. destruct (date_in d l); split; intros H;
    try discriminate; try reflexivity; try (intros E; discriminate).
  exfalso. apply H. reflexivity.
Qed.

Lemma paques_mars_avril annee :
  1 <= annee <= 9999 ->
  date_leb (mk_date annee 3 22) (dimanche_de_paques annee) = true
  /\ date_leb (dimanche_de_paques annee) (mk_date annee 4 25) = true.
Proof.
  intros Hy. unfold dimanche_de_paques, date_leb, date_ltb, date_eqb.
  cbn [year month day].
  destruct (gauss_month_day annee) as [[-> Hd] | [-> Hd]]; lia.
Qed.

(** Good Friday, two days before Easter Sunday, is a date of the year. *)
Lemma vendredi_saint_ok annee :
  1 <= annee <= 9999 ->
  exists v, date_sub (dimanche_de_paques annee) 2 = Ok v
            /\ valid_date v /\ year v = annee
            /\ toordinal v = toordinal (dimanche_de_paques annee) - 2.
Proof.
  intros Hy. destruct (calculer_paques_ok annee Hy) as [_ Hv].
  fold (dimanche_de_paques annee) in Hv.
  pose proof (paques_jour_annee annee) as Hj. cbv zeta in Hj.
  pose proof (toordinal_in_year annee (gauss_month annee) (gauss_day annee))
    as Ho. fold (dimanche_de_paques annee) in Ho.
  pose proof (days_before_year_mono 1 annee ltac:(lia)) as Hm.
  change (days_before_year 1) with 0 in Hm.
  destruct (sub_days_ok 2 (dimanche_de_paques annee) Hv) as (v & E & Hvv & Hov).
  { destruct (is_leap annee); lia. }
  exists v. unfold date_sub. change (Z.to_nat 2) with 2%nat.
  split; [exact E |]. split; [exact Hvv |]. split; [| lia].
  apply year_of_ordinal; [exact Hvv |].
  destruct (is_leap annee); lia.
Qed.

End Dimanche.

(** ** The counters over a range *)

Section Compteurs.

(** ** The days of a range *)

Lemma jours_a_partir_length n : forall d,
  (length (jours_a_partir d n) <= n)%nat.
Proof.
  induction n as [| n IH]; intros d; cbn [jours_a_partir length]; [lia |].
  destruct (tomorrow d) as [d' |]; cbn [length]; [| lia].
  specialize (IH d'). lia.
Qed.

Lemma jours_a_partir_In n : forall d x,
  valid_date d ->
  In x (jours_a_partir d n)
  <-> valid_date x /\ toordinal d <= toordinal x < toordinal d + Z.of_nat n.
Proof.
  induction n as [| n IH]; intros d x Hd.
  - cbn [jours_a_partir In]. split; [tauto | lia].
  - cbn [jours_a_partir In].
    destruct (tomorrow_cases d Hd) as [[-> Ht] | [Hne [d' Ht]]].
    + rewrite Ht. cbn [In]. split.
      * intros [<- | []]. split; [exact Hd | lia].
      * intros [Hx Ho]. left. apply toordinal_inj; auto.
        pose proof (toordinal_le x date_max Hx valid_date_max
                                 (date_leb_max x Hx)). lia.
    + rewrite Ht.
      pose proof (tomorrow_valid _ _ Hd Ht) as Hv.
      pose proof (toordinal_tomorrow _ _ Hd Ht) as Ho.
      rewrite (IH d' x Hv). split.
      * intros [<- | [Hx Hox]]; split; auto; lia.
      * intros [Hx Hox].
        destruct (Z.eq_dec (toordinal x) (toordinal d)) as [E | E].
        -- left. apply toordinal_inj; auto.
        -- right. split; [exact Hx | lia].
Qed.

Lemma jours_de_la_plage_In a b x :
  valid_date a ->
  In x (jours_de_la_plage a b)
  <-> valid_date x /\ toordinal a <= toordinal x <= toordinal b.
Proof.
  intros Ha. unfold jours_de_la_plage. rewrite jours_a_partir_In by exact Ha.
  split; intros [Hx Ho]; (split; [exact Hx | lia]).
Qed.

Lemma jours_a_partir_NoDup n : forall d,
  valid_date d -> List.NoDup (jours_a_partir d n).
Proof.
  induction n as [| n IH]; intros d Hd; cbn [jours_a_partir];
    [constructor |].
  destruct (tomorrow d) as [d' |] eqn:Ht.
  - pose proof (tomorrow_valid _ _ Hd Ht) as Hv.
    pose proof (toordinal_tomorrow _ _ Hd Ht) as Ho.
    constructor; [| apply IH; exact Hv].
    rewrite (jours_a_partir_In n d' d Hv). lia.
  - constructor; [intros [] | constructor].
Qed.

Lemma nombre_jours_bounds P jf l :
  0 <= nombre_jours P jf l <= Z.of_nat (length l).
Proof.
  unfold nombre_jours.
  pose proof (List.filter_length_le
                (fun d => P d && negb (date_in d jf)) l). lia.
Qed.

Lemma nombre_jours_partition P Q R jf l :
  (forall d, Q d = P d || R d) -> (forall d, P d && R d = false) ->
  nombre_jours Q jf l = nombre_jours P jf l + nombre_jours R jf l.
Proof.
  intros HQ HPR. induction l as [| d l IH]; [reflexivity |].
  rewrite !nombre_jours_cons, IH, HQ.
  specialize (HPR d).
  destruct (P d), (R d), (date_in d jf); cbn in *; try discriminate; lia.
Qed.

Lemma ouvrable_ouvre_samedi d :
  est_jour_ouvrable d = est_jour_ouvre d || (weekday d =? 5).
Proof. unfold est_jour_ouvrable, est_jour_ouvre. lia. Qed.

Lemma ouvre_pas_samedi d : est_jour_ouvre d && (weekday d =? 5) = false.
Proof. unfold est_jour_ouvre. lia. Qed.

Lemma jours_de_la_plage_length a b :
  Z.of_nat (length (jours_de_la_plage a b))
  <= Z.max 0 (toordinal b - toordinal a + 1).
Proof.
  unfold jours_de_la_plage.
  pose proof (jours_a_partir_length
                (Z.to_nat (toordinal b - toordinal a + 1)) a). lia.
Qed.

Lemma jours_de_la_plage_vide a b :
  valid_date a -> valid_date b -> date_leb a b = false ->
  jours_de_la_plage a b = [].
Proof.
  intros Ha Hb H. apply date_leb_total in H.
  pose proof (toordinal_lt b a Hb Ha H).
  unfold jours_de_la_plage.
  replace (Z.to_nat _) with 0%nat by lia. reflexivity.
Qed.

(** What a counter returns, once the list of holidays is known. *)
Lemma valeur_compteur_Ok P a b ex annee n :
  valid_date a -> valid_date b ->
  valeur_compteur P a b ex annee = Ok n ->
  exists jf,
    (if ex then calcul_jours_feries (annee_feries annee a) else Ok []) = Ok jf
    /\ n = nombre_jours P jf (jours_de_la_plage a b)
    /\ (date_leb a b = true -> b <> date_max).
Proof.
  intros Ha Hb. unfold valeur_compteur.
  destruct (if ex then _ else _) as [jf | e]; cbn [rbind]; [| discriminate].
  intros H. exists jf. split; [reflexivity |].
  destruct (date_leb a b) eqn:E.
  - destruct (date_eqb b date_max) eqn:Em; [discriminate |].
    injection H as <-. split; [reflexivity |].
    intros _ Hbm. subst b. rewrite date_eqb_refl in Em. discriminate.
  - injection H as <-. rewrite (jours_de_la_plage_vide a b Ha Hb E).
    split; [reflexivity | discriminate].
Qed.

Lemma valeur_compteur_of P a b (ex : bool) annee jf :
  valid_date a -> valid_date b ->
  (if ex then calcul_jours_feries (annee_feries annee a) else Ok []) = Ok jf ->
  (date_leb a b = true -> b <> date_max) ->
  valeur_compteur P a b ex annee
  = Ok (nombre_jours P jf (jours_de_la_plage a b)).
Proof.
  intros Ha Hb Ejf Hm. unfold valeur_compteur. rewrite Ejf. cbn [rbind].
  destruct (date_leb a b) eqn:E.
  - destruct (date_eqb b date_max) eqn:Em; [| reflexivity].
    apply date_eqb_eq in Em. destruct (Hm eq_refl Em).
  - rewrite (jours_de_la_plage_vide a b Ha Hb E). reflexivity.
Qed.

(** ** Holidays left out of a count *)

Lemma filter_eqb_NoDup x l :
  List.NoDup l -> (length (List.filter (fun d => date_eqb d x) l) <= 1)%nat.
Proof.
  induction 1 as [| d l Hd Hl IH]; cbn [List.filter length]; [lia |].
  destruct (date_eqb d x) eqn:E; [| exact IH].
  apply date_eqb_eq in E. subst d. cbn [length].
  replace (List.filter (fun d => date_eqb d x) l) with (@nil date);
    [cbn; lia |].
  symmetry. clear IH Hl. induction l as [| y l IH]; [reflexivity |].
  cbn [List.filter].
  destruct (date_eqb y x) eqn:E.
  - apply date_eqb_eq in E. subst y. destruct Hd. left. reflexivity.
  - apply IH. intros H. apply Hd. right. exact H.
Qed.

Lemma filter_date_in_length jf : forall l,
  List.NoDup l ->
  (length (List.filter (fun d => date_in d jf) l) <= length jf)%nat.
Proof.
  induction jf as [| x jf IH]; intros l Hl.
  - cbn [date_in existsb]. induction l as [| d l IHl]; [cbn; lia |].
    cbn [List.filter]. apply IHl. inversion Hl; assumption.
  - pose proof (IH l Hl) as H1. pose proof (filter_eqb_NoDup x l Hl) as H2.
    cbn [length].
    assert (H : (length (List.filter (fun d => date_in d (x :: jf)) l)
                 <= length (List.filter (fun d => date_eqb d x) l)
                    + length (List.filter (fun d => date_in d jf) l))%nat).
    { clear. induction l as [| d l IHl]; [cbn; lia |].
      cbn [List.filter]. unfold date_in at 1. cbn [existsb].
      fold (date_in d jf).
      destruct (date_eqb d x), (date_in d jf); cbn [orb length]; lia. }
    lia.
Qed.

Lemma nombre_jours_sans_feries P jf l :
  List.NoDup l ->
  nombre_jours P jf l <= nombre_jours P [] l
  /\ nombre_jours P [] l <= nombre_jours P jf l + Z.of_nat (length jf).
Proof.
  intros Hl. pose proof (filter_date_in_length jf l Hl) as Hf.
  assert (H : nombre_jours P jf l <= nombre_jours P [] l
              /\ nombre_jours P [] l
                 <= nombre_jours P jf l
                    + Z.of_nat (length (List.filter
                                          (fun d => date_in d jf) l))).
  { clear. induction l as [| d l IH];
      [rewrite !nombre_jours_nil; cbn [List.filter length]; lia |].
    rewrite !nombre_jours_cons. cbn [List.filter].
    change (date_in d []) with false.
    destruct (P d), (date_in d jf); cbn [andb negb length]; lia. }
  lia.
Qed.

Lemma calcul_jours_feries_length annee jf :
  calcul_jours_feries annee = Ok jf -> length jf = 12%nat.
Proof.
  intros E.
  destruct (Z_le_dec 1 annee) as [H1 |];
    [destruct (Z_le_dec annee 9999) as [H2 |] |].
  - destruct (calcul_jours_feries_ok annee ltac:(lia))
      as (l & a & p & _ & _ & _ & _ & _ & _ & _ & _ & Ejf).
    assert (Es : jf = sorted (jours_feries_fixes annee
                              ++ [dimanche_de_paques annee; l; a; p]))
      by (unfold dimanche_de_paques; congruence).
    rewrite Es, (Permutation_length (sorted_perm _)). reflexivity.
  - rewrite calcul_jours_feries_out in E by lia. discriminate.
  - rewrite calcul_jours_feries_out in E by lia. discriminate.
Qed.

Lemma jours_de_la_plage_NoDup a b :
  valid_date a -> List.NoDup (jours_de_la_plage a b).
Proof. intros Ha. apply jours_a_partir_NoDup. exact Ha. Qed.

Lemma compteur_sans_feries P a b annee n :
  valid_date a -> valid_date b ->
  valeur_compteur P a b true (Some annee) = Ok n ->
  exists n0, valeur_compteur P a b false (Some annee) = Ok n0
             /\ n <= n0 <= n + 12.
Proof.
  intros Ha Hb E.
  destruct (valeur_compteur_Ok _ _ _ _ _ _ Ha Hb E) as (jf & Ejf & -> & Hm).
  exists (nombre_jours P [] (jours_de_la_plage a b)).
  split; [apply valeur_compteur_of; auto |].
  cbn [annee_feries] in Ejf.
  pose proof (calcul_jours_feries_length annee jf Ejf) as Hl.
  pose proof (nombre_jours_sans_feries P jf (jours_de_la_plage a b)
                (jours_de_la_plage_NoDup a b Ha)).
  lia.
Qed.

(** ** Splitting a range *)

Lemma jours_de_la_plage_app a b b' c :
  valid_date a -> valid_date b -> valid_date c ->
  date_leb a b = true -> tomorrow b = Ok b' -> date_leb b' c = true ->
  jours_de_la_plage a c = jours_de_la_plage a b ++ jours_de_la_plage b' c.
Proof.
  intros Ha Hb Hc Hab Ht Hbc.
  pose proof (tomorrow_valid _ _ Hb Ht) as Hb'.
  pose proof (toordinal_tomorrow _ _ Hb Ht) as Ho.
  pose proof (toordinal_le _ _ Ha Hb Hab) as H1.
  pose proof (toordinal_le _ _ Hb' Hc Hbc) as H2.
  pose proof (toordinal_le _ _ Hb' valid_date_max (date_leb_max _ Hb')) as H3.
  unfold jours_de_la_plage.
  set (n := Z.to_nat (toordinal b - toordinal a + 1)).
  set (m := Z.to_nat (toordinal c - toordinal b' + 1)).
  replace (Z.to_nat (toordinal c - toordinal a + 1)) with (n + m)%nat
    by lia.
  apply jours_a_partir_app.
  destruct (add_days_ok n a Ha ltac:(lia)) as (d & E & Hd & Hod).
  rewrite E. f_equal. apply toordinal_inj; auto. lia.
Qed.

Lemma compteur_additif P a b b' c (ex : bool) annee n1 n2 :
  valid_date a -> valid_date b -> valid_date c ->
  date_leb a b = true -> tomorrow b = Ok b' -> date_leb b' c = true ->
  valeur_compteur P a b ex (Some annee) = Ok n1 ->
  valeur_compteur P b' c ex (Some annee) = Ok n2 ->
  valeur_compteur P a c ex (Some annee) = Ok (n1 + n2).
Proof.
  intros Ha Hb Hc Hab Ht Hbc E1 E2.
  pose proof (tomorrow_valid _ _ Hb Ht) as Hb'.
  destruct (valeur_compteur_Ok _ _ _ _ _ _ Ha Hb E1) as (jf & Ejf & -> & _).
  destruct (valeur_compteur_Ok _ _ _ _ _ _ Hb' Hc E2)
    as (jf' & Ejf' & -> & Hm).
  cbn [annee_feries] in Ejf, Ejf'.
  assert (jf' = jf) by congruence. subst jf'.
  rewrite (valeur_compteur_of P a c ex (Some annee) jf Ha Hc Ejf).
  - rewrite (jours_de_la_plage_app a b b' c) by assumption.
    rewrite nombre_jours_app. reflexivity.
  - intros _. apply Hm. exact Hbc.
Qed.

(** ** A week *)

Lemma add_days_6 a b :
  add_days 6 a = Ok b ->
  exists a1 a2 a3 a4 a5,
    tomorrow a = Ok a1 /\ tomorrow a1 = Ok a2 /\ tomorrow a2 = Ok a3
    /\ tomorrow a3 = Ok a4 /\ tomorrow a4 = Ok a5 /\ tomorrow a5 = Ok b.
Proof.
  cbn [add_days].
  destruct (tomorrow a) as [a1 |]; cbn [rbind]; [| discriminate].
  destruct (tomorrow a1) as [a2 |] eqn:E2; cbn [rbind]; [| discriminate].
  destruct (tomorrow a2) as [a3 |] eqn:E3; cbn [rbind]; [| discriminate].
  destruct (tomorrow a3) as [a4 |] eqn:E4; cbn [rbind]; [| discriminate].
  destruct (tomorrow a4) as [a5 |] eqn:E5; cbn [rbind]; [| discriminate].
  destruct (tomorrow a5) as [a6 |] eqn:E6; cbn [rbind]; [| discriminate].
  intros [= <-]. exists a1, a2, a3, a4, a5. repeat split; assumption.
Qed.

Lemma weekday_range d : 0 <= weekday d < 7.
Proof. unfold weekday. apply Z.mod_pos_bound. lia. Qed.

Lemma semaine f a b :
  valid_date a -> date_add a 6 = Ok b ->
  exists w,
    0 <= w < 7
    /\ nombre_jours (fun d => f (weekday d)) [] (jours_de_la_plage a b)
       = Z.of_nat (length (List.filter f
                             [w; (w + 1) mod 7; (w + 2) mod 7; (w + 3) mod 7;
                              (w + 4) mod 7; (w + 5) mod 7; (w + 6) mod 7])).
Proof.
  intros Ha Hadd. unfold date_add in Hadd.
  change (Z.to_nat 6) with 6%nat in Hadd.
  destruct (add_days_6 a b Hadd) as (a1 & a2 & a3 & a4 & a5 & T1 & T2 & T3
                                     & T4 & T5 & T6).
  pose proof (tomorrow_valid _ _ Ha T1) as V1.
  pose proof (tomorrow_valid _ _ V1 T2) as V2.
  pose proof (tomorrow_valid _ _ V2 T3) as V3.
  pose proof (tomorrow_valid _ _ V3 T4) as V4.
  pose proof (tomorrow_valid _ _ V4 T5) as V5.
  pose proof (toordinal_tomorrow _ _ Ha T1) as O1.
  pose proof (toordinal_tomorrow _ _ V1 T2) as O2.
  pose proof (toordinal_tomorrow _ _ V2 T3) as O3.
  pose proof (toordinal_tomorrow _ _ V3 T4) as O4.
  pose proof (toordinal_tomorrow _ _ V4 T5) as O5.
  pose proof (toordinal_tomorrow _ _ V5 T6) as O6.
  exists (weekday a). split; [apply weekday_range |].
  unfold jours_de_la_plage.
  replace (Z.to_nat (toordinal b - toordinal a + 1)) with 7%nat by lia.
  rewrite (jours_a_partir_cons a a1 6 T1), (jours_a_partir_cons a1 a2 5 T2),
    (jours_a_partir_cons a2 a3 4 T3), (jours_a_partir_cons a3 a4 3 T4),
    (jours_a_partir_cons a4 a5 2 T5), (jours_a_partir_cons a5 b 1 T6),
    jours_a_partir_one.
  rewrite !nombre_jours_cons, nombre_jours_nil.
  change (date_in _ []) with false. cbn [negb].
  rewrite !andb_true_r.
  rewrite (weekday_of_ordinal a a1 1), (weekday_of_ordinal a a2 2),
    (weekday_of_ordinal a a3 3), (weekday_of_ordinal a a4 4),
    (weekday_of_ordinal a a5 5), (weekday_of_ordinal a b 6) by lia.
  cbn [List.filter].
  repeat match goal with
         | |- context [if f ?x then _ else _] => destruct (f x)
         end; reflexivity.
Qed.

End Compteurs.

(** ** Half days, in tenths *)

Section DemiJournees.

Lemma ndigits_small c : 0 <= c < 10 ^ 28 -> ndigits c <= 28.
Proof.
  intros Hc. destruct (Z.eq_dec c 0) as [-> | Hne]; [rewrite ndigits_zero; lia |].
  destruct (ndigits_spec c ltac:(lia)) as [H1 [H2 _]].
  destruct (Z_le_gt_dec (ndigits c) 28) as [H | H]; [exact H |].
  pose proof (pow10_mono 28 (ndigits c - 1) ltac:(lia)). lia.
Qed.

Lemma fix_small c e :
  Z.abs c < 10000000000000000000000000000 -> fix_ (mk_dec c e) = mk_dec c e.
Proof.
  intros Hc. change 10000000000000000000000000000 with (10 ^ 28) in Hc.
  unfold fix_. cbn [coef expo].
  pose proof (ndigits_small (Z.abs c) ltac:(lia)) as H.
  unfold prec. destruct (28 <? ndigits (Z.abs c)) eqn:E; [lia | reflexivity].
Qed.

Lemma jour_compte_retourne d mode (ex : bool) annee jf :
  (if ex then calcul_jours_feries annee else Ok []) = Ok jf ->
  retourne (jour_compte d mode ex annee) (Ok (borne_comptee mode jf d)).
Proof.
  intros Ejf. unfold jour_compte, borne_comptee, est_compte_mode.
  set (compte := if String.eqb mode "ouvrables" then est_jour_ouvrable d
                 else est_jour_ouvre d).
  destruct ex; cbn [andb].
  - destruct compte.
    + intros c Hc. unfold m_bind.
      destruct (retourne_get_jours_feries annee c Hc) as (c1 & -> & Hc1).
      rewrite Ejf. exists c1. split; [| exact Hc1].
      unfold m_ret. destruct (date_in d jf); reflexivity.
    + apply retourne_ret.
  - injection Ejf as <-. change (date_in d []) with false.
    cbn [negb]. rewrite andb_true_r. apply retourne_ret.
Qed.

Lemma toordinal_pos d : valid_date d -> 1 <= toordinal d.
Proof.
  intros Hd. apply valid_date_iff in Hd. unfold toordinal.
  pose proof (days_before_year_mono 1 (year d) ltac:(lia)) as H.
  change (days_before_year 1) with 0 in H.
  pose proof (days_before_month_nonneg (year d) (month d)). lia.
Qed.

Lemma toordinal_max d : valid_date d -> toordinal d <= 3652059.
Proof.
  intros Hd.
  exact (toordinal_le d date_max Hd valid_date_max (date_leb_max d Hd)).
Qed.

Lemma nombre_jours_plage_bound P jf a b :
  valid_date a -> valid_date b ->
  0 <= nombre_jours P jf (jours_de_la_plage a b) <= 3652059.
Proof.
  intros Ha Hb.
  pose proof (nombre_jours_bounds P jf (jours_de_la_plage a b)).
  pose proof (jours_de_la_plage_length a b).
  pose proof (toordinal_pos a Ha). pose proof (toordinal_max b Hb). lia.
Qed.

Lemma sub_demi_entier n :
  Z.abs n < 1000000000000000000000000000 ->
  Decimal.sub (of_int n) (mk_dec 5 (-1)) = mk_dec (10 * n - 5) (-1).
Proof.
  intros Hn. unfold Decimal.sub, of_int. cbn [coef expo].
  change (Z.min 0 (-1)) with (-1). change (0 - -1) with 1.
  change (-1 - -1) with 0. change (10 ^ 0) with 1. change (10 ^ 1) with 10.
  rewrite fix_small by lia. f_equal. lia.
Qed.

Lemma sub_demi_dixiemes c :
  Z.abs c < 1000000000000000000000000000 ->
  Decimal.sub (mk_dec c (-1)) (mk_dec 5 (-1)) = mk_dec (c - 5) (-1).
Proof.
  intros Hn. unfold Decimal.sub. cbn [coef expo].
  change (Z.min (-1) (-1)) with (-1).
  change (-1 - -1) with 0. change (10 ^ 0) with 1.
  rewrite fix_small by lia. f_equal. lia.
Qed.

Lemma max_zero_entier n :
  Decimal.max (mk_dec 0 (-1)) (of_int n)
  = if 0 <? n then of_int n else mk_dec 0 (-1).
Proof.
  unfold Decimal.max, Decimal.ltb, cmp, of_int. cbn [coef expo].
  change (Z.min (-1) 0) with (-1). change (-1 - -1) with 0.
  change (0 - -1) with 1. change (10 ^ 0) with 1. change (10 ^ 1) with 10.
  destruct (Z.compare_spec (0 * 1) (n * 10));
    destruct (0 <? n) eqn:E; try reflexivity; lia.
Qed.

Lemma max_zero_dixiemes c :
  Decimal.max (mk_dec 0 (-1)) (mk_dec c (-1))
  = if 0 <? c then mk_dec c (-1) else mk_dec 0 (-1).
Proof.
  unfold Decimal.max, Decimal.ltb, cmp. cbn [coef expo].
  change (Z.min (-1) (-1)) with (-1). change (-1 - -1) with 0.
  change (10 ^ 0) with 1.
  destruct (Z.compare_spec (0 * 1) (c * 1));
    destruct (0 <? c) eqn:E; try reflexivity; lia.
Qed.

Lemma dixiemes_entier n : dixiemes (of_int n) = 10 * n.
Proof. unfold dixiemes, of_int. cbn [coef expo]. change (10 ^ (0 + 1)) with 10. lia. Qed.

Lemma dixiemes_dixiemes c : dixiemes (mk_dec c (-1)) = c.
Proof. unfold dixiemes. cbn [coef expo]. change (10 ^ (-1 + 1)) with 1. lia. Qed.

(** The decimal that the half-day adjustments leave, in tenths. *)
Lemma demi_journees_dixiemes n (da db : bool) :
  0 <= n <= 3652059 ->
  let t1 := if da then Decimal.sub (of_int n) (mk_dec 5 (-1))
            else of_int n in
  let t2 := if db then Decimal.sub t1 (mk_dec 5 (-1)) else t1 in
  let t := Decimal.max (mk_dec 0 (-1)) t2 in
  dixiemes t
  = Z.max 0 (10 * n - (if da then 5 else 0) - (if db then 5 else 0))
  /\ -1 <= expo t <= 0 /\ 0 <= coef t.
Proof.
  intros Hn. cbv zeta.
  destruct da, db;
    rewrite ?sub_demi_entier, ?sub_demi_dixiemes by lia;
    rewrite ?max_zero_entier, ?max_zero_dixiemes;
    match goal with
    | |- context [0 <? ?x] => destruct (0 <? x) eqn:E
    end;
    rewrite ?dixiemes_entier, ?dixiemes_dixiemes; cbn [coef expo of_int];
    lia.
Qed.

Lemma compter_jours_periode_valeur a b mode (ex : bool) annee dt ft jf :
  valid_date a -> valid_date b ->
  (if ex then calcul_jours_feries (annee_feries annee a) else Ok []) = Ok jf ->
  (date_leb a b = true -> b <> date_max) ->
  exists t,
    retourne (compter_jours_periode a b mode ex annee dt ft) (Ok t)
    /\ dixiemes t
       = Z.max 0 (10 * nombre_jours (est_compte_mode mode) jf
                                    (jours_de_la_plage a b)
                  - demi_journee (borne_comptee mode jf a) dt "apres_midi"
                  - demi_journee (borne_comptee mode jf b) ft "matin")
    /\ -1 <= expo t <= 0 /\ 0 <= coef t.
Proof.
  intros Ha Hb Ejf Hm.
  set (n := nombre_jours (est_compte_mode mode) jf (jours_de_la_plage a b)).
  pose proof (nombre_jours_plage_bound (est_compte_mode mode) jf a b Ha Hb)
    as Hn. fold n in Hn.
  pose proof (demi_journees_dixiemes n
                (borne_comptee mode jf a && String.eqb dt "apres_midi")
                (borne_comptee mode jf b && String.eqb ft "matin") Hn) as Hd.
  cbv zeta in Hd. destruct Hd as (Hd & He & Hc).
  eexists. split; [| split; [| split; [exact He | exact Hc]]].
  - intros c Hcoh.
    rewrite compter_jours_periode_jour_compte. cbv zeta. unfold m_bind.
    destruct (compteur_du_mode_retourne mode a b ex
                (Some (annee_feries annee a)) Ha Hb c Hcoh)
      as (c1 & -> & Hc1).
    rewrite (valeur_compteur_of _ a b ex (Some (annee_feries annee a)) jf
               Ha Hb Ejf Hm).
    fold n.
    destruct (jour_compte_retourne a mode ex _ jf Ejf c1 Hc1)
      as (c2 & -> & Hc2).
    destruct (jour_compte_retourne b mode ex _ jf Ejf c2 Hc2)
      as (c3 & -> & Hc3).
    exists c3. split; [reflexivity | exact Hc3].
  - rewrite Hd. unfold demi_journee. reflexivity.
Qed.

Lemma demi_journee_bounds c t d : 0 <= demi_journee c t d <= 5.
Proof. unfold demi_journee. destruct (_ && _); lia. Qed.

End DemiJournees.

(** ** One period of a single year *)

Section PeriodePrincipale.

(** ** The main period and the order of dates *)

Lemma est_hors_mois d :
  valid_date d ->
  est_hors_periode_principale d = (month d <=? 4) || (11 <=? month d).
Proof.
  intros Hd. apply valid_date_iff in Hd.
  pose proof (days_in_month_bounds (year d) (month d)).
  unfold est_hors_periode_principale, est_dans_periode_principale.
  cbn [year month day].
  destruct ((month d =? 5) && (1 <=? day d)) eqn:E1;
    [| destruct ((6 <=? month d) && (month d <=? 9)) eqn:E2;
       [| destruct ((month d =? 10) && (day d <=? 31)) eqn:E3]];
    cbn [negb]; lia.
Qed.

Lemma date_leb_year_month x y :
  date_leb x y = true ->
  year x <= year y /\ (year x = year y -> month x <= month y).
Proof. unfold date_leb, date_ltb, date_eqb. lia. Qed.

(** The days of a range within one year lie in that year, between the
    months of its ends. *)
Lemma plage_meme_annee a b x :
  valid_date a -> valid_date b -> year a = year b ->
  In x (jours_de_la_plage a b) ->
  valid_date x /\ year x = year a /\ month a <= month x <= month b.
Proof.
  intros Ha Hb Hy Hin.
  apply (jours_de_la_plage_In a b x Ha) in Hin as [Hx Ho].
  pose proof (toordinal_leb a x Ha Hx ltac:(lia)) as H1.
  pose proof (toordinal_leb x b Hx Hb ltac:(lia)) as H2.
  apply date_leb_year_month in H1, H2. split; [exact Hx | lia].
Qed.

Lemma filter_tous {A : Type} (Q : A -> bool) l :
  (forall x, In x l -> Q x = true) -> List.filter Q l = l.
Proof.
  induction l as [| x l IH]; intros H; [reflexivity |].
  cbn [List.filter]. rewrite (H x (or_introl eq_refl)). f_equal.
  apply IH. intros y Hy. apply H. right. exact Hy.
Qed.

Lemma filter_aucun {A : Type} (Q : A -> bool) l :
  (forall x, In x l -> Q x = false) -> List.filter Q l = [].
Proof.
  induction l as [| x l IH]; intros H; [reflexivity |].
  cbn [List.filter]. rewrite (H x (or_introl eq_refl)).
  apply IH. intros y Hy. apply H. right. exact Hy.
Qed.

Lemma plage_hors a b :
  valid_date a -> valid_date b -> year a = year b ->
  (month b <= 4 \/ 11 <= month a) ->
  List.filter est_hors_periode_principale (jours_de_la_plage a b)
  = jours_de_la_plage a b.
Proof.
  intros Ha Hb Hy Hm. apply filter_tous. intros x Hx.
  destruct (plage_meme_annee a b x Ha Hb Hy Hx) as (Hv & _ & Hmx).
  rewrite (est_hors_mois x Hv). lia.
Qed.

Lemma plage_dans a b :
  valid_date a -> valid_date b -> year a = year b ->
  5 <= month a -> month b <= 10 ->
  List.filter est_hors_periode_principale (jours_de_la_plage a b) = [].
Proof.
  intros Ha Hb Hy H5 H10. apply filter_aucun. intros x Hx.
  destruct (plage_meme_annee a b x Ha Hb Hy Hx) as (Hv & _ & Hmx).
  rewrite (est_hors_mois x Hv). lia.
Qed.

(** ** Counted boundary days *)

Lemma nombre_jours_borne mode jf l :
  nombre_jours (est_compte_mode mode) jf l
  = Z.of_nat (length (List.filter (borne_comptee mode jf) l)).
Proof. reflexivity. Qed.

Lemma filter_un {A : Type} (Q : A -> bool) l x :
  In x l -> Q x = true -> (1 <= length (List.filter Q l))%nat.
Proof.
  intros Hin HQ.
  assert (H : In x (List.filter Q l)) by (apply List.filter_In; auto).
  destruct (List.filter Q l); [destruct H | cbn; lia].
Qed.

Lemma filter_deux {A : Type} (Q : A -> bool) l x y :
  In x l -> In y l -> x <> y -> Q x = true -> Q y = true ->
  (2 <= length (List.filter Q l))%nat.
Proof.
  intros Hx Hy Hne Qx Qy.
  assert (H1 : In x (List.filter Q l)) by (apply List.filter_In; auto).
  assert (H2 : In y (List.filter Q l)) by (apply List.filter_In; auto).
  destruct (List.filter Q l) as [| z [| z' r]]; cbn [length]; try lia.
  - destruct H1.
  - destruct H1 as [<- | []]. destruct H2 as [<- | []]. congruence.
Qed.

Lemma plage_bornes a b :
  valid_date a -> valid_date b -> date_leb a b = true ->
  In a (jours_de_la_plage a b) /\ In b (jours_de_la_plage a b).
Proof.
  intros Ha Hb Hab. pose proof (toordinal_le a b Ha Hb Hab).
  split; apply jours_de_la_plage_In; auto; split; auto; lia.
Qed.

(** The half days taken off never exceed the days counted. *)
Lemma demi_journees_comptees a b mode jf dt ft :
  valid_date a -> valid_date b -> date_leb a b = true ->
  demi_journee (borne_comptee mode jf a) dt "apres_midi"
  + demi_journee (borne_comptee mode jf b) ft "matin"
  <= 10 * nombre_jours (est_compte_mode mode) jf (jours_de_la_plage a b).
Proof.
  intros Ha Hb Hab. rewrite nombre_jours_borne.
  destruct (plage_bornes a b Ha Hb Hab) as [Ia Ib].
  unfold demi_journee.
  destruct (borne_comptee mode jf a) eqn:Ca,
           (borne_comptee mode jf b) eqn:Cb; cbn [andb].
  - destruct (date_eqb a b) eqn:E.
    + apply date_eqb_eq in E. subst b.
      pose proof (filter_un _ _ _ Ia Ca).
      destruct (String.eqb dt _), (String.eqb ft _); lia.
    + assert (a <> b).
      { intros ->. rewrite date_eqb_refl in E. discriminate. }
      pose proof (filter_deux _ _ _ _ Ia Ib H Ca Cb).
      destruct (String.eqb dt _), (String.eqb ft _); lia.
  - pose proof (filter_un _ _ _ Ia Ca). destruct (String.eqb dt _); lia.
  - pose proof (filter_un _ _ _ Ib Cb). destruct (String.eqb ft _); lia.
  - lia.
Qed.

(** [compter_jours_periode] over a range that is not empty, with the
    holidays of an explicit year left out. *)
Lemma compter_jours_periode_plage a b mode annee dt ft jf :
  valid_date a -> valid_date b -> date_leb a b = true -> b <> date_max ->
  calcul_jours_feries annee = Ok jf ->
  exists t,
    retourne (compter_jours_periode a b mode true (Some annee) dt ft) (Ok t)
    /\ dixiemes t
       = 10 * nombre_jours (est_compte_mode mode) jf (jours_de_la_plage a b)
         - demi_journee (borne_comptee mode jf a) dt "apres_midi"
         - demi_journee (borne_comptee mode jf b) ft "matin"
    /\ -1 <= expo t <= 0.
Proof.
  intros Ha Hb Hab Hm Ejf.
  destruct (compter_jours_periode_valeur a b mode true (Some annee) dt ft jf
              Ha Hb Ejf (fun _ => Hm)) as (t & Ht & Hd & He & _).
  exists t. split; [exact Ht |]. split; [| exact He].
  pose proof (demi_journees_comptees a b mode jf dt ft Ha Hb Hab). lia.
Qed.

(** Adding a count to a total kept in tenths. *)
Lemma add_dixiemes c y :
  -1 <= expo y <= 0 ->
  Z.abs (c + dixiemes y) < 10000000000000000000000000000 ->
  Decimal.add (mk_dec c (-1)) y = mk_dec (c + dixiemes y) (-1).
Proof.
  intros He Hb. unfold Decimal.add, dixiemes in *. cbn [coef expo].
  replace (Z.min (-1) (expo y)) with (-1) by lia.
  change (-1 - -1) with 0. change (10 ^ 0) with 1.
  replace (expo y - -1) with (expo y + 1) by lia.
  rewrite fix_small by lia. f_equal. lia.
Qed.

(** ** The ends of the main period *)

Lemma valid_30_avril annee :
  1 <= annee <= 9999 -> valid_date (mk_date annee 4 30).
Proof. intros H. apply valid_fixe; lia. Qed.

Lemma valid_1er_mai annee :
  1 <= annee <= 9999 -> valid_date (mk_date annee 5 1).
Proof. intros H. apply valid_fixe; lia. Qed.

Lemma valid_31_octobre annee :
  1 <= annee <= 9999 -> valid_date (mk_date annee 10 31).
Proof.
  intros H. apply valid_date_iff. cbn [year month day].
  change (days_in_month annee 10) with 31. lia.
Qed.

Lemma valid_1er_novembre annee :
  1 <= annee <= 9999 -> valid_date (mk_date annee 11 1).
Proof. intros H. apply valid_fixe; lia. Qed.

Lemma lendemain_30_avril annee :
  tomorrow (mk_date annee 4 30) = Ok (mk_date annee 5 1).
Proof. reflexivity. Qed.

Lemma lendemain_31_octobre annee :
  tomorrow (mk_date annee 10 31) = Ok (mk_date annee 11 1).
Proof. reflexivity. Qed.

Lemma nombre_jours_filter_app P jf (Q : date -> bool) l1 l2 :
  nombre_jours P jf (List.filter Q (l1 ++ l2))
  = nombre_jours P jf (List.filter Q l1)
    + nombre_jours P jf (List.filter Q l2).
Proof. rewrite List.filter_app. apply nombre_jours_app. Qed.

(** A range that starts by the end of April and ends after it. *)
Lemma plage_avril a b annee :
  valid_date a -> valid_date b -> year a = annee -> year b = annee ->
  month a <= 4 -> 5 <= month b ->
  date_min b (mk_date annee 4 30) = mk_date annee 4 30
  /\ date_eqb (mk_date annee 4 30) b = false
  /\ date_leb a (mk_date annee 4 30) = true
  /\ date_leb (mk_date annee 5 1) b = true.
Proof.
  intros Ha Hb Ya Yb Ma Mb. apply valid_date_iff in Ha, Hb.
  pose proof (days_in_month_bounds (year a) (month a)) as Hd.
  assert (Hd4 : month a = 4 -> day a <= 30).
  { intros E. rewrite E in Ha. change (days_in_month (year a) 4) with 30 in Ha.
    lia. }
  unfold date_min, date_leb, date_ltb, date_eqb. cbn [year month day].
  destruct ((annee <? year b) || _) eqn:E; [| lia].
  repeat split; lia.
Qed.

(** A range that starts before November and ends in it or after. *)
Lemma plage_novembre a b annee :
  valid_date a -> valid_date b -> year a = annee -> year b = annee ->
  month a <= 10 -> 11 <= month b ->
  date_max_of a (mk_date annee 11 1) = mk_date annee 11 1
  /\ date_eqb (mk_date annee 11 1) a = false
  /\ date_leb a (mk_date annee 10 31) = true
  /\ date_leb (mk_date annee 11 1) b = true.
Proof.
  intros Ha Hb Ya Yb Ma Mb. apply valid_date_iff in Ha, Hb.
  pose proof (days_in_month_bounds (year a) (month a)) as Hd.
  unfold date_max_of, date_leb, date_ltb, date_eqb. cbn [year month day].
  destruct ((year a <? annee) || _) eqn:E; [| lia].
  repeat split; lia.
Qed.

Lemma demi_journee_autre c : demi_journee c "apres_midi" "matin" = 0
                             /\ demi_journee c "matin" "apres_midi" = 0.
Proof. unfold demi_journee. destruct c; split; reflexivity. Qed.

(** The part of a period up to 30 April, as the service counts it. *)
Lemma bloc_avril a b jt annee dt ft jf :
  valid_date a -> valid_date b -> year a = annee -> year b = annee ->
  month a <= 4 -> 5 <= month b ->
  calcul_jours_feries annee = Ok jf ->
  retourne
    (let! fin_avril := m_lift (new_date annee 4 30) in
     let date_fin_sous_periode := date_min b fin_avril in
     let fin_type_sous :=
       if date_eqb date_fin_sous_periode b then ft else "apres_midi" in
     let! n := compter_jours_periode a date_fin_sous_periode jt true
                 (Some annee) dt fin_type_sous in
     m_ret (Decimal.add (mk_dec 0 (-1)) n))
    (Ok (mk_dec (10 * nombre_jours (est_compte_mode jt) jf
                        (jours_de_la_plage a (mk_date annee 4 30))
                 - demi_journee (borne_comptee jt jf a) dt "apres_midi")
                (-1))).
Proof.
  intros Ha Hb Ya Yb Ma Mb Ejf.
  assert (Hy : 1 <= annee <= 9999) by (apply valid_date_iff in Ha; lia).
  pose proof (valid_30_avril annee Hy) as HA.
  destruct (plage_avril a b annee Ha Hb Ya Yb Ma Mb) as (E1 & E2 & L1 & _).
  assert (HAm : mk_date annee 4 30 <> date_max) by discriminate.
  destruct (compter_jours_periode_plage a (mk_date annee 4 30) jt annee dt
              "apres_midi" jf Ha HA L1 HAm Ejf) as (t & Ht & Hd & He).
  intros c Hc. unfold m_bind, m_lift, m_ret.
  rewrite (new_date_valid annee 4 30 HA). cbv beta iota zeta.
  rewrite E1, E2.
  destruct (Ht c Hc) as (c1 & -> & Hc1).
  exists c1. split; [| exact Hc1].
  pose proof (nombre_jours_plage_bound (est_compte_mode jt) jf a
                (mk_date annee 4 30) Ha HA).
  pose proof (demi_journee_bounds (borne_comptee jt jf a) dt "apres_midi").
  destruct (demi_journee_autre (borne_comptee jt jf (mk_date annee 4 30)))
    as [Z1 _].
  rewrite add_dixiemes by lia. do 3 f_equal. lia.
Qed.

(** The part of a period from 1 November on, added to a total in tenths. *)
Lemma bloc_novembre a b jt annee dt ft jf acc :
  valid_date a -> valid_date b -> year a = annee -> year b = annee ->
  month a <= 10 -> 11 <= month b -> b <> date_max ->
  calcul_jours_feries annee = Ok jf ->
  0 <= acc <= 100000000 ->
  retourne
    (let! debut_novembre := m_lift (new_date annee 11 1) in
     let date_debut_sous_periode := date_max_of a debut_novembre in
     let debut_type_sous :=
       if date_eqb date_debut_sous_periode a then dt else "matin" in
     let! n := compter_jours_periode date_debut_sous_periode b jt true
                 (Some annee) debut_type_sous ft in
     m_ret (Decimal.add (mk_dec acc (-1)) n))
    (Ok (mk_dec (acc
                 + (10 * nombre_jours (est_compte_mode jt) jf
                           (jours_de_la_plage (mk_date annee 11 1) b)
                    - demi_journee (borne_comptee jt jf b) ft "matin"))
                (-1))).
Proof.
  intros Ha Hb Ya Yb Ma Mb Hbm Ejf Hacc.
  assert (Hy : 1 <= annee <= 9999) by (apply valid_date_iff in Ha; lia).
  pose proof (valid_1er_novembre annee Hy) as HN.
  destruct (plage_novembre a b annee Ha Hb Ya Yb Ma Mb) as (E1 & E2 & _ & L2).
  destruct (compter_jours_periode_plage (mk_date annee 11 1) b jt annee
              "matin" ft jf HN Hb L2 Hbm Ejf) as (t & Ht & Hd & He).
  intros c Hc. unfold m_bind, m_lift, m_ret.
  rewrite (new_date_valid annee 11 1 HN). cbv beta iota zeta.
  rewrite E1, E2.
  destruct (Ht c Hc) as (c1 & -> & Hc1).
  exists c1. split; [| exact Hc1].
  pose proof (nombre_jours_plage_bound (est_compte_mode jt) jf
                (mk_date annee 11 1) b HN Hb).
  pose proof (demi_journee_bounds (borne_comptee jt jf b) ft "matin").
  destruct (demi_journee_autre (borne_comptee jt jf (mk_date annee 11 1)))
    as [_ Z1].
  rewrite add_dixiemes by lia. do 3 f_equal. lia.
Qed.

Lemma demi_journee_faux t d : demi_journee false t d = 0.
Proof. reflexivity. Qed.

Lemma retourne_bind_Ok {A B : Type} (m : M A) (k : A -> M B) a r :
  retourne m (Ok a) -> retourne (k a) r -> retourne (m_bind m k) r.
Proof.
  intros Hm Hk c Hc. unfold m_bind.
  destruct (Hm c Hc) as (c1 & -> & Hc1). exact (Hk c1 Hc1).
Qed.

(** What one period of a single year contributes, in tenths. *)
Lemma jours_hors_de_periode_dixiemes p jt annee :
  valid_date (date_debut p) -> valid_date (date_fin p) ->
  date_leb (date_debut p) (date_fin p) = true ->
  year (date_debut p) = annee -> year (date_fin p) = annee ->
  date_fin p <> date_max ->
  exists v jf,
    calcul_jours_feries annee = Ok jf
    /\ retourne (jours_hors_de_periode p jt annee) (Ok v)
    /\ dixiemes v
       = 10 * nombre_jours (est_compte_mode jt) jf
                (List.filter est_hors_periode_principale
                             (jours_de_la_plage (date_debut p) (date_fin p)))
         - demi_journee (est_hors_periode_principale (date_debut p)
                         && borne_comptee jt jf (date_debut p))
                        (debut_type p) "apres_midi"
         - demi_journee (est_hors_periode_principale (date_fin p)
                         && borne_comptee jt jf (date_fin p))
                        (fin_type p) "matin"
    /\ -1 <= expo v <= 0.
Proof.
  destruct p as [u a dt b ft tc ac]. cbn [date_debut date_fin debut_type
                                          fin_type].
  intros Ha Hb Hab Ya Yb Hbm.
  assert (Hy : 1 <= annee <= 9999) by (apply valid_date_iff in Ha; lia).
  destruct (calcul_jours_feries_ok annee Hy)
    as (l1 & l2 & l3 & _ & _ & _ & _ & _ & _ & _ & _ & Ejf).
  set (jf := sorted _) in Ejf.
  pose proof (date_leb_year_month a b Hab) as [_ Hmm].
  specialize (Hmm ltac:(lia)).
  pose proof (est_hors_mois a Ha) as Ea.
  pose proof (est_hors_mois b Hb) as Eb.
  pose proof (valid_30_avril annee Hy) as HA.
  pose proof (valid_1er_mai annee Hy) as HM.
  pose proof (valid_31_octobre annee Hy) as HO.
  pose proof (valid_1er_novembre annee Hy) as HN.
  set (N := fun x y => nombre_jours (est_compte_mode jt) jf
                                    (jours_de_la_plage x y)).
  unfold jours_hors_de_periode.
  cbn [date_debut date_fin debut_type fin_type]. cbv zeta.
  destruct ((((11 <=? month a) && (11 <=? month b))
             || ((month a <=? 4) && (month b <=? 4))
             || ((11 <=? month a) && (month b <=? 4)))
            && negb ((5 <=? month a) && (month a <=? 10))) eqn:C1.
  { (* the whole period is outside the main period *)
    destruct (compter_jours_periode_plage a b jt annee dt ft jf
                Ha Hb Hab Hbm Ejf) as (t & Ht & Hd & He).
    exists t, jf. split; [exact Ejf |]. split; [exact Ht |].
    split; [| exact He].
    rewrite (plage_hors a b Ha Hb ltac:(lia) ltac:(lia)).
    replace (est_hors_periode_principale a) with true by lia.
    replace (est_hors_periode_principale b) with true by lia.
    exact Hd. }
  destruct ((5 <=? month a) && (month b <=? 10)) eqn:C2.
  { (* the whole period is inside the main period *)
    exists (mk_dec 0 (-1)), jf. split; [exact Ejf |].
    split; [apply retourne_ret |]. split; [| cbn; lia].
    rewrite (plage_dans a b Ha Hb ltac:(lia) ltac:(lia) ltac:(lia)).
    replace (est_hors_periode_principale a) with false by lia.
    replace (est_hors_periode_principale b) with false by lia.
    reflexivity. }
  destruct (month a <=? 4) eqn:C3; destruct (11 <=? month b) eqn:C4.
  - (* from April or before to November or after *)
    destruct (plage_avril a b annee Ha Hb Ya Yb ltac:(lia) ltac:(lia))
      as (_ & _ & L1 & L2).
    destruct (plage_novembre (mk_date annee 5 1) b annee HM Hb eq_refl Yb
                ltac:(cbn; lia) ltac:(lia)) as (_ & _ & L3 & L4).
    pose proof (bloc_avril a b jt annee dt ft jf Ha Hb Ya Yb
                  ltac:(lia) ltac:(lia) Ejf) as B1.
    pose proof (nombre_jours_plage_bound (est_compte_mode jt) jf a
                  (mk_date annee 4 30) Ha HA) as Hn1.
    pose proof (demi_journees_comptees a (mk_date annee 4 30) jt jf dt
                  "apres_midi" Ha HA L1) as Hd1.
    destruct (demi_journee_autre (borne_comptee jt jf (mk_date annee 4 30)))
      as [Z1 _]. rewrite Z1 in Hd1.
    pose proof (demi_journee_bounds (borne_comptee jt jf a) dt "apres_midi").
    assert (Hacc : 0 <= 10 * nombre_jours (est_compte_mode jt) jf
                               (jours_de_la_plage a (mk_date annee 4 30))
                        - demi_journee (borne_comptee jt jf a) dt "apres_midi"
                   <= 100000000) by lia.
    pose proof (bloc_novembre a b jt annee dt ft jf _ Ha Hb Ya Yb
                  ltac:(lia) ltac:(lia) Hbm Ejf Hacc) as B2.
    eexists. exists jf. split; [exact Ejf |]. split.
    + apply (retourne_bind_Ok _ _ _ _ B1).
      apply (retourne_bind_Ok _ _ _ _ B2). apply retourne_ret.
    + split; [| cbn; lia]. rewrite dixiemes_dixiemes.
      rewrite (jours_de_la_plage_app a _ _ b Ha HA Hb L1
                 (lendemain_30_avril annee) L2).
      rewrite (jours_de_la_plage_app (mk_date annee 5 1) _ _ b HM HO Hb L3
                 (lendemain_31_octobre annee) L4).
      rewrite !nombre_jours_filter_app.
      rewrite (plage_hors a _ Ha HA Ya ltac:(left; cbn; clear; lia)).
      rewrite (plage_dans _ _ HM HO eq_refl ltac:(cbn; clear; lia)
                 ltac:(cbn; clear; lia)).
      rewrite (plage_hors _ b HN Hb (eq_sym Yb) ltac:(right; cbn; clear; lia)).
      rewrite nombre_jours_nil.
      replace (est_hors_periode_principale a) with true by lia.
      replace (est_hors_periode_principale b) with true by lia.
      cbn [andb]. lia.
  - (* from April or before to the main period *)
    destruct (plage_avril a b annee Ha Hb Ya Yb ltac:(lia) ltac:(lia))
      as (_ & _ & L1 & L2).
    pose proof (bloc_avril a b jt annee dt ft jf Ha Hb Ya Yb
                  ltac:(lia) ltac:(lia) Ejf) as B1.
    eexists. exists jf. split; [exact Ejf |]. split.
    + apply (retourne_bind_Ok _ _ _ _ B1).
      apply (retourne_bind_Ok _ _ _ _ (retourne_ret _)). apply retourne_ret.
    + split; [| cbn; lia]. rewrite dixiemes_dixiemes.
      rewrite (jours_de_la_plage_app a _ _ b Ha HA Hb L1
                 (lendemain_30_avril annee) L2).
      rewrite !nombre_jours_filter_app.
      rewrite (plage_hors a _ Ha HA Ya ltac:(left; cbn; clear; lia)).
      rewrite (plage_dans _ b HM Hb (eq_sym Yb) ltac:(cbn; clear; lia)
                 ltac:(clear - C4; lia)).
      rewrite nombre_jours_nil.
      replace (est_hors_periode_principale a) with true by lia.
      replace (est_hors_periode_principale b) with false by lia.
      cbn [andb]. rewrite demi_journee_faux. lia.
  - (* from the main period to November or after *)
    destruct (plage_novembre a b annee Ha Hb Ya Yb ltac:(lia) ltac:(lia))
      as (_ & _ & L3 & L4).
    pose proof (bloc_novembre a b jt annee dt ft jf 0 Ha Hb Ya Yb
                  ltac:(lia) ltac:(lia) Hbm Ejf ltac:(lia)) as B2.
    eexists. exists jf. split; [exact Ejf |]. split.
    + apply (retourne_bind_Ok _ _ _ _ (retourne_ret _)).
      apply (retourne_bind_Ok _ _ _ _ B2). apply retourne_ret.
    + split; [| cbn; lia]. rewrite dixiemes_dixiemes.
      rewrite (jours_de_la_plage_app a _ _ b Ha HO Hb L3
                 (lendemain_31_octobre annee) L4).
      rewrite !nombre_jours_filter_app.
      rewrite (plage_dans a _ Ha HO Ya ltac:(clear - C3; lia)
                 ltac:(cbn; clear; lia)).
      rewrite (plage_hors _ b HN Hb (eq_sym Yb) ltac:(right; cbn; clear; lia)).
      rewrite nombre_jours_nil.
      replace (est_hors_periode_principale a) with false by lia.
      replace (est_hors_periode_principale b) with true by lia.
      cbn [andb]. rewrite demi_journee_faux. lia.
  - lia.
Qed.

Lemma demi_journees_liste (Q : date -> bool) l a b (ca cb : bool) dt ft :
  (ca = true -> In a l /\ Q a = true) ->
  (cb = true -> In b l /\ Q b = true) ->
  demi_journee ca dt "apres_midi" + demi_journee cb ft "matin"
  <= 10 * Z.of_nat (length (List.filter Q l)).
Proof.
  intros Ha Hb. unfold demi_journee.
  destruct ca, cb; cbn [andb]; try lia.
  - destruct (Ha eq_refl) as [Ia Qa]. destruct (Hb eq_refl) as [Ib Qb].
    destruct (date_eqb a b) eqn:E.
    + pose proof (filter_un _ _ _ Ia Qa).
      destruct (String.eqb dt _), (String.eqb ft _); lia.
    + assert (a <> b).
      { intros ->. rewrite date_eqb_refl in E. discriminate. }
      pose proof (filter_deux _ _ _ _ Ia Ib H Qa Qb).
      destruct (String.eqb dt _), (String.eqb ft _); lia.
  - destruct (Ha eq_refl) as [Ia Qa]. pose proof (filter_un _ _ _ Ia Qa).
    destruct (String.eqb dt _); lia.
  - destruct (Hb eq_refl) as [Ib Qb]. pose proof (filter_un _ _ _ Ib Qb).
    destruct (String.eqb ft _); lia.
Qed.

Lemma dixiemes_hors_bornes a b jt jf dt ft :
  valid_date a -> valid_date b -> date_leb a b = true ->
  0 <= 10 * nombre_jours (est_compte_mode jt) jf
               (List.filter est_hors_periode_principale
                            (jours_de_la_plage a b))
       - demi_journee (est_hors_periode_principale a
                       && borne_comptee jt jf a) dt "apres_midi"
       - demi_journee (est_hors_periode_principale b
                       && borne_comptee jt jf b) ft "matin"
    <= 36520590.
Proof.
  intros Ha Hb Hab.
  destruct (plage_bornes a b Ha Hb Hab) as [Ia Ib].
  pose proof (demi_journees_liste (borne_comptee jt jf)
                (List.filter est_hors_periode_principale
                             (jours_de_la_plage a b)) a b
                (est_hors_periode_principale a && borne_comptee jt jf a)
                (est_hors_periode_principale b && borne_comptee jt jf b)
                dt ft) as H.
  rewrite <- nombre_jours_borne in H.
  assert (H1 : est_hors_periode_principale a && borne_comptee jt jf a = true ->
               In a (List.filter est_hors_periode_principale
                                 (jours_de_la_plage a b))
               /\ borne_comptee jt jf a = true).
  { intros E. apply andb_true_iff in E as [E1 E2].
    split; [apply List.filter_In; auto | exact E2]. }
  assert (H2 : est_hors_periode_principale b && borne_comptee jt jf b = true ->
               In b (List.filter est_hors_periode_principale
                                 (jours_de_la_plage a b))
               /\ borne_comptee jt jf b = true).
  { intros E. apply andb_true_iff in E as [E1 E2].
    split; [apply List.filter_In; auto | exact E2]. }
  specialize (H H1 H2).
  pose proof (demi_journee_bounds
                (est_hors_periode_principale a && borne_comptee jt jf a)
                dt "apres_midi").
  pose proof (demi_journee_bounds
                (est_hors_periode_principale b && borne_comptee jt jf b)
                ft "matin").
  pose proof (nombre_jours_bounds (est_compte_mode jt) jf
                (List.filter est_hors_periode_principale
                             (jours_de_la_plage a b))) as Hn.
  pose proof (List.filter_length_le est_hors_periode_principale
                (jours_de_la_plage a b)) as Hf.
  pose proof (jours_de_la_plage_length a b) as Hl.
  pose proof (toordinal_pos a Ha). pose proof (toordinal_max b Hb).
  lia.
Qed.

End PeriodePrincipale.

(** ** What the service never returns *)

Section Positif.

(** ** Periods that contribute nothing *)

Lemma jours_hors_de_periode_nul p jt annee :
  mai_a_octobre p -> jours_hors_de_periode p jt annee = m_ret (mk_dec 0 (-1)).
Proof.
  intros (H1 & H2 & H3). unfold jours_hors_de_periode. cbv zeta.
  replace ((((11 <=? month (date_debut p)) && (11 <=? month (date_fin p)))
            || ((month (date_debut p) <=? 4) && (month (date_fin p) <=? 4))
            || ((11 <=? month (date_debut p)) && (month (date_fin p) <=? 4)))
           && negb ((5 <=? month (date_debut p))
                    && (month (date_debut p) <=? 10)))
    with false by lia.
  replace ((5 <=? month (date_debut p)) && (month (date_fin p) <=? 10))
    with true by lia.
  reflexivity.
Qed.

Lemma somme_periodes_nulle l jt annee :
  Forall mai_a_octobre l ->
  somme_periodes l jt annee (mk_dec 0 (-1)) = m_ret (mk_dec 0 (-1)).
Proof.
  induction 1 as [| p l Hp Hl IH]; [reflexivity |].
  cbn [somme_periodes]. rewrite (jours_hors_de_periode_nul p jt annee Hp).
  unfold m_ret at 1.
  change (Decimal.add (mk_dec 0 (-1)) (mk_dec 0 (-1))) with (mk_dec 0 (-1)).
  exact IH.
Qed.

(** ** What every returned value satisfies *)

Lemma produit_ret {A : Type} (a : A) (Q : A -> Prop) :
  Q a -> produit (m_ret a) Q.
Proof. intros H c a' c' [= <- _]. exact H. Qed.

Lemma produit_bind {A B : Type} (m : M A) (k : A -> M B) (Q : B -> Prop) :
  (forall a, produit (k a) Q) -> produit (m_bind m k) Q.
Proof.
  intros Hk c b c'. unfold m_bind.
  destruct (m c) as [[a | e] c1]; [| discriminate].
  apply Hk.
Qed.

Lemma max_zero_nonneg t : 0 <= coef (Decimal.max (mk_dec 0 (-1)) t).
Proof.
  unfold Decimal.max, Decimal.ltb, cmp. cbn [coef expo].
  set (e := Z.min (-1) (expo t)).
  destruct (Z.compare_spec (0 * 10 ^ (-1 - e)) (coef t * 10 ^ (expo t - e)))
    as [H | H | H]; cbn [coef]; lia.
Qed.

Lemma add_nonneg x y :
  0 <= coef x -> 0 <= coef y -> 0 <= coef (Decimal.add x y).
Proof.
  intros Hx Hy. unfold Decimal.add. apply fix_nonneg.
  set (e := Z.min (expo x) (expo y)).
  pose proof (Z.pow_nonneg 10 (expo x - e) ltac:(lia)).
  pose proof (Z.pow_nonneg 10 (expo y - e) ltac:(lia)). nia.
Qed.

Lemma to_int_nonneg x : 0 <= coef x -> 0 <= Decimal.to_int x.
Proof.
  intros Hx. unfold Decimal.to_int.
  destruct (0 <=? expo x) eqn:E.
  - pose proof (Z.pow_nonneg 10 (expo x) ltac:(lia)). nia.
  - apply Z.quot_pos; [exact Hx |]. apply Z.pow_pos_nonneg; lia.
Qed.

Lemma compter_jours_periode_positif a b mode ex annee dt ft :
  produit (compter_jours_periode a b mode ex annee dt ft)
          (fun t => 0 <= coef t).
Proof.
  unfold compter_jours_periode. cbv zeta.
  apply produit_bind; intros n. apply produit_bind; intros dc.
  apply produit_bind; intros fc. apply produit_ret. apply max_zero_nonneg.
Qed.

Lemma jours_hors_de_periode_positif p jt annee :
  produit (jours_hors_de_periode p jt annee) (fun t => 0 <= coef t).
Proof.
  unfold jours_hors_de_periode. cbv zeta.
  destruct (_ && negb _); [apply compter_jours_periode_positif |].
  destruct ((5 <=? _) && _); [apply produit_ret; cbn; lia |].
  intros c v c'. unfold m_bind at 1.
  destruct (month (date_debut p) <=? 4).
  - unfold m_bind at 1. unfold m_lift at 1.
    destruct (new_date annee 4 30) as [fa |]; [| discriminate].
    unfold m_bind at 1.
    destruct (compter_jours_periode _ _ _ _ _ _ _ c) as [[n | e] c1] eqn:E1;
      [| discriminate].
    pose proof (compter_jours_periode_positif _ _ _ _ _ _ _ _ _ _ E1) as Hn.
    cbv beta in Hn. unfold m_ret at 1.
    assert (H0 : 0 <= coef (Decimal.add (mk_dec 0 (-1)) n))
      by (apply add_nonneg; [cbn; lia | exact Hn]).
    revert H0. generalize (Decimal.add (mk_dec 0 (-1)) n). intros acc Hacc.
    destruct (11 <=? month (date_fin p)).
    + unfold m_bind at 1. unfold m_bind at 1. unfold m_lift at 1.
      destruct (new_date annee 11 1) as [dn |]; [| discriminate].
      unfold m_bind at 1.
      destruct (compter_jours_periode _ _ _ _ _ _ _ c1) as [[n2 | e] c2]
        eqn:E2; [| discriminate].
      pose proof (compter_jours_periode_positif _ _ _ _ _ _ _ _ _ _ E2)
        as Hn2. cbv beta in Hn2.
      unfold m_ret. intros [= <- _]. apply add_nonneg; assumption.
    + unfold m_bind, m_ret. intros [= <- _]. exact Hacc.
  - unfold m_ret at 1.
    destruct (11 <=? month (date_fin p)).
    + unfold m_bind at 1. unfold m_bind at 1. unfold m_lift at 1.
      destruct (new_date annee 11 1) as [dn |]; [| discriminate].
      unfold m_bind at 1.
      destruct (compter_jours_periode _ _ _ _ _ _ _ c) as [[n2 | e] c2]
        eqn:E2; [| discriminate].
      pose proof (compter_jours_periode_positif _ _ _ _ _ _ _ _ _ _ E2)
        as Hn2. cbv beta in Hn2.
      unfold m_ret. intros [= <- _]. apply add_nonneg; [cbn; lia | exact Hn2].
    + unfold m_bind, m_ret. intros [= <- _]. cbn; lia.
Qed.

Lemma somme_periodes_positif l jt annee : forall total,
  0 <= coef total ->
  produit (somme_periodes l jt annee total) (fun t => 0 <= coef t).
Proof.
  induction l as [| p l IH]; intros total Ht.
  - apply produit_ret. exact Ht.
  - intros c v c'. cbn [somme_periodes].
    destruct (jours_hors_de_periode p jt annee c) as [[j | e] c1] eqn:E.
    + apply IH. apply add_nonneg; [exact Ht |].
      exact (jours_hors_de_periode_positif p jt annee c j c1 E).
    + apply IH. exact Ht.
Qed.

Lemma get_jours_hors_periode_principale_positif db user annee :
  produit (get_jours_hors_periode_principale db user annee)
          (fun n => 0 <= n).
Proof.
  unfold get_jours_hors_periode_principale.
  destruct (_ || _); [intros c a c'; discriminate |].
  apply produit_bind; intros jt. intros c n c'. unfold m_bind.
  destruct (somme_periodes _ _ _ _ c) as [[v | e] c1] eqn:E; [| discriminate].
  unfold m_ret. intros [= <- _]. apply to_int_nonneg.
  assert (H0 : 0 <= coef (mk_dec 0 (-1))) by (cbn; lia).
  exact (somme_periodes_positif _ _ _ _ H0 c v c1 E).
Qed.

End Positif.

(** ** Validated cycles *)

Section Cycle.

(** ** Prorated annual leave *)

Lemma ndigits_le c : 0 <= c < 10000000000000000000000000000 ->
                     ndigits c <= 28.
Proof. intros H. exact (ndigits_small c H). Qed.

Lemma calculer_conges_annuels_exact k e jt :
  -2 <= e <= 0 -> Z.abs k < 100000000000000000000 ->
  calculer_conges_annuels (mk_dec k e) jt
  = inl (mk_dec (25 * k * 10 ^ (e + 2)) (-2)).
Proof.
  intros He Hk. unfold calculer_conges_annuels, CONGES_ANNUELS_BASE.
  cbv zeta. unfold Decimal.mul. cbn [coef expo].
  rewrite fix_small by lia.
  unfold quantize. cbn [coef expo].
  destruct (Z.eq_dec k 0) as [-> | Hne].
  { change (2500 * 0) with 0. change (0 =? 0) with true. cbv iota.
    rewrite fix_small by (cbn; lia). cbn [expo]. do 2 f_equal; try lia. }
  replace (2500 * k =? 0) with false by lia.
  pose proof (ndigits_le (Z.abs (2500 * k)) ltac:(lia)) as Hn.
  pose proof (ndigits_pos (Z.abs (2500 * k)) ltac:(lia)) as Hp.
  unfold adjusted, prec. cbn [coef expo].
  replace (28 <? -2 + e + ndigits (Z.abs (2500 * k)) - 1 - -2 + 1)
    with false by lia.
  unfold rescale. cbn [coef expo].
  replace (2500 * k =? 0) with false by lia.
  assert (Hc : e = 0 \/ e = -1 \/ e = -2) by lia.
  destruct Hc as [-> | [-> | ->]].
  - change (-2 <=? -2 + 0) with true. cbv iota. cbn [coef].
    change (10 ^ (-2 + 0 - -2)) with 1. change (10 ^ (0 + 2)) with 100.
    replace (2500 * k * 1) with (25 * k * 100) by lia.
    pose proof (ndigits_le (Z.abs (25 * k * 100)) ltac:(lia)).
    replace (28 <? ndigits (Z.abs (25 * k * 100))) with false by lia.
    rewrite fix_small by lia. reflexivity.
  - change (-2 <=? -2 + -1) with false. cbv iota. cbn [coef].
    change (10 ^ (-2 - (-2 + -1))) with 10. change (10 ^ (-1 + 2)) with 10.
    replace (Z.abs (2500 * k)) with (250 * Z.abs k * 10) by lia.
    rewrite div_half_even_exact by lia.
    replace (Z.sgn (2500 * k) * (250 * Z.abs k)) with (25 * k * 10) by lia.
    pose proof (ndigits_le (Z.abs (25 * k * 10)) ltac:(lia)).
    replace (28 <? ndigits (Z.abs (25 * k * 10))) with false by lia.
    rewrite fix_small by lia. reflexivity.
  - change (-2 <=? -2 + -2) with false. cbv iota. cbn [coef].
    change (10 ^ (-2 - (-2 + -2))) with 100. change (10 ^ (-2 + 2)) with 1.
    replace (Z.abs (2500 * k)) with (25 * Z.abs k * 100) by lia.
    rewrite div_half_even_exact by lia.
    replace (Z.sgn (2500 * k) * (25 * Z.abs k)) with (25 * k * 1) by lia.
    pose proof (ndigits_le (Z.abs (25 * k * 1)) ltac:(lia)).
    replace (28 <? ndigits (Z.abs (25 * k * 1))) with false by lia.
    rewrite fix_small by lia. reflexivity.
Qed.

Lemma clean_quotite self :
  CycleHebdomadaire_clean self = None ->
  Decimal.ltb (heures_semaine self) HEURES_SEMAINE_MIN = false
  /\ Decimal.ltb HEURES_SEMAINE_MAX (heures_semaine self) = false
  /\ Decimal.ltb (quotite_travail self) (mk_dec 5 (-1)) = false
  /\ Decimal.ltb (mk_dec 10 (-1)) (quotite_travail self) = false.
Proof.
  unfold CycleHebdomadaire_clean.
  destruct (Decimal.ltb (heures_semaine self) _); [discriminate |].
  destruct (Decimal.ltb HEURES_SEMAINE_MAX _); [discriminate |].
  destruct (Decimal.ltb (quotite_travail self) _); [discriminate |].
  destruct (Decimal.ltb (mk_dec 10 (-1)) _); [discriminate |].
  auto.
Qed.

Lemma ltb_false x y :
  Decimal.ltb x y = false ->
  coef y * 10 ^ (expo y - Z.min (expo x) (expo y))
  <= coef x * 10 ^ (expo x - Z.min (expo x) (expo y)).
Proof.
  unfold Decimal.ltb, cmp.
  destruct (Z.compare_spec
              (coef x * 10 ^ (expo x - Z.min (expo x) (expo y)))
              (coef y * 10 ^ (expo y - Z.min (expo x) (expo y))));
    try discriminate; lia.
Qed.

(** The values that [CycleHebdomadaire.clean] accepts, in hundredths, for
    fields with at most two decimals. *)
Lemma clean_bornes self :
  CycleHebdomadaire_clean self = None ->
  -2 <= expo (heures_semaine self) <= 0 ->
  -2 <= expo (quotite_travail self) <= 0 ->
  3500 <= coef (heures_semaine self) * 10 ^ (expo (heures_semaine self) + 2)
       <= 3900
  /\ 50 <= coef (quotite_travail self)
            * 10 ^ (expo (quotite_travail self) + 2) <= 100.
Proof.
  intros Hc Eh Eq. destruct (clean_quotite self Hc) as (H1 & H2 & H3 & H4).
  apply ltb_false in H1, H2, H3, H4.
  unfold HEURES_SEMAINE_MIN, HEURES_SEMAINE_MAX in *.
  cbn [coef expo] in *.
  destruct (heures_semaine self) as [kh eh], (quotite_travail self)
    as [kq eq]. cbn [coef expo] in *.
  assert (Ch : eh = 0 \/ eh = -1 \/ eh = -2) by lia.
  assert (Cq : eq = 0 \/ eq = -1 \/ eq = -2) by lia.
  destruct Ch as [-> | [-> | ->]], Cq as [-> | [-> | ->]];
    calcule_puissances; lia.
Qed.

(** ** The yearly RTT of a validated cycle *)

Lemma round_fix_nonneg c e : 0 <= c -> 0 <= Decimal.round (fix_ (mk_dec c e)).
Proof.
  intros Hc. pose proof (round_fix_mono 0 c e ltac:(lia)) as H.
  replace (Decimal.round (fix_ (mk_dec 0 e))) with 0 in H; [exact H |].
  rewrite fix_small by (cbn; lia). unfold Decimal.round. cbn [coef expo].
  destruct (0 <=? e); reflexivity.
Qed.

Lemma calculer_rtt_annuels_croissant h q1 q2 :
  expo q1 = expo q2 -> 0 <= coef q1 <= coef q2 ->
  exists r1 r2,
    calculer_rtt_annuels h q1 = Ok r1 /\ calculer_rtt_annuels h q2 = Ok r2
    /\ 0 <= r1 <= r2.
Proof.
  intros He Hc.
  destruct (Decimal.leb h HEURES_SEMAINE_MIN) eqn:H.
  { exists 0, 0. unfold calculer_rtt_annuels. rewrite H.
    repeat split; lia. }
  rewrite !calculer_rtt_annuels_au_dessus by assumption.
  destruct (Decimal.leb (heures_supplementaires h) (of_int 0)) eqn:E.
  - exists 0, 0. repeat split; lia.
  - pose proof (leb_false_pos h 35 ltac:(lia) H) as Hh.
    pose proof (leb_false_pos _ 0 ltac:(lia) E) as Hs.
    destruct (div_positifs _ h Hs Hh) as (x & -> & Hx). cbn [rbind].
    eexists _, _. split; [reflexivity |]. split; [reflexivity |].
    unfold Decimal.mul. rewrite He. split.
    + apply round_fix_nonneg. nia.
    + apply round_fix_mono. nia.
Qed.

Lemma rtt_entre_spec lo hi h q :
  rtt_entre lo hi h q = true ->
  exists r, calculer_rtt_annuels h q = Ok r /\ lo <= r <= hi.
Proof.
  unfold rtt_entre. destruct (calculer_rtt_annuels h q) as [r |];
    [| discriminate].
  intros H. exists r. split; [reflexivity | lia].
Qed.

(** At full quota, every accepted number of weekly hours gives at most
    eleven days. *)
Lemma rtt_plein_temps eh eq kh :
  -2 <= eh <= 0 -> -2 <= eq <= 0 ->
  3500 <= kh * 10 ^ (eh + 2) <= 3900 ->
  rtt_entre 0 11 (mk_dec kh eh) (mk_dec (10 ^ (- eq)) eq) = true.
Proof.
  intros Hh Hq Hk.
  assert (Ch : eh = 0 \/ eh = -1 \/ eh = -2) by lia.
  assert (Cq : eq = 0 \/ eq = -1 \/ eq = -2) by lia.
  destruct Ch as [-> | [-> | ->]].
  - assert (H : forall e, e = 0 \/ e = -1 \/ e = -2 ->
                pour_tout (fun k => rtt_entre 0 11 (mk_dec k 0)
                                      (mk_dec (10 ^ (- e)) e))
                          35 (Z.to_nat 5) = true).
    { intros e [-> | [-> | ->]]; vm_compute; reflexivity. }
    apply (pour_tout_spec _ _ _ (H eq Cq)).
    change (10 ^ (0 + 2)) with 100 in Hk. lia.
  - assert (H : forall e, e = 0 \/ e = -1 \/ e = -2 ->
                pour_tout (fun k => rtt_entre 0 11 (mk_dec k (-1))
                                      (mk_dec (10 ^ (- e)) e))
                          350 (Z.to_nat 41) = true).
    { intros e [-> | [-> | ->]]; vm_compute; reflexivity. }
    apply (pour_tout_spec _ _ _ (H eq Cq)).
    change (10 ^ (-1 + 2)) with 10 in Hk. lia.
  - assert (H : forall e, e = 0 \/ e = -1 \/ e = -2 ->
                pour_tout (fun k => rtt_entre 0 11 (mk_dec k (-2))
                                      (mk_dec (10 ^ (- e)) e))
                          3500 (Z.to_nat 401) = true).
    { intros e [-> | [-> | ->]]; vm_compute; reflexivity. }
    apply (pour_tout_spec _ _ _ (H eq Cq)).
    change (10 ^ (-2 + 2)) with 1 in Hk. lia.
Qed.

End Cycle.

(** ** The names of the public holidays *)

Section NomsFeries.

Lemma get_jours_feries_list_entrees annee :
  get_jours_feries_list annee
  = let! jours_feries := get_jours_feries annee in
    m_ret (List.map entree_ferie jours_feries).
Proof. reflexivity. Qed.

Lemma noms_feries_valeurs k v :
  noms_feries !! k = Some v ->
  In v ["Jour de l'an"; "Fête du Travail"; "Victoire en Europe";
        "Fête nationale"; "Assomption"; "Toussaint"; "Noël"].
Proof.
  intros H. unfold noms_feries in H.
  apply elem_of_list_to_map_2 in H.
  repeat (apply elem_of_cons in H as [H | H];
          [injection H as _ ->; cbn [In]; tauto |]).
  apply elem_of_nil in H. destruct H.
Qed.

Lemma nom_ferie_jamais_pentecote d : nom_ferie d <> "Lundi de Pentecôte".
Proof.
  unfold nom_ferie. cbv zeta.
  destruct ((month d =? 3) || (month d =? 4)).
  { destruct (weekday d =? 0); discriminate. }
  destruct ((month d =? 5) && (15 <? day d)) eqn:E1; [discriminate |].
  destruct ((month d =? 5) && (20 <? day d)) eqn:E2; [lia |].
  destruct (noms_feries !! day d) as [v |] eqn:E; cbn [default];
    [| discriminate].
  apply noms_feries_valeurs in E. cbn [In] in E.
  repeat (destruct E as [<- | E]; [discriminate |]). destruct E.
Qed.

Lemma lundi_de_paques_mois annee lundi :
  1 <= annee <= 9999 ->
  date_add (dimanche_de_paques annee) 1 = Ok lundi ->
  month lundi = 3 \/ month lundi = 4.
Proof.
  intros Hy. unfold date_add. change (Z.to_nat 1) with 1%nat.
  cbn [add_days]. unfold dimanche_de_paques, tomorrow.
  cbn [year month day].
  destruct (gauss_month_day annee) as [[-> Hd] | [-> Hd]].
  - change (days_in_month annee 3) with 31.
    destruct (gauss_day annee <? 31); cbn [rbind]; intros [= <-]; cbn; lia.
  - change (days_in_month annee 4) with 30.
    replace (gauss_day annee <? 30) with true by lia.
    cbn [rbind]. intros [= <-]. cbn; lia.
Qed.

Lemma nom_du_dimanche_de_paques annee :
  1 <= annee <= 9999 -> nom_ferie (dimanche_de_paques annee) = "Pâques".
Proof.
  intros Hy. unfold nom_ferie. cbv zeta.
  rewrite (paques_un_dimanche annee Hy).
  replace ((month (dimanche_de_paques annee) =? 3)
           || (month (dimanche_de_paques annee) =? 4)) with true.
  - reflexivity.
  - unfold dimanche_de_paques. cbn [month].
    destruct (gauss_month_day annee) as [[-> _] | [-> _]]; reflexivity.
Qed.

Lemma nom_du_lundi_de_paques annee lundi :
  1 <= annee <= 9999 ->
  date_add (dimanche_de_paques annee) 1 = Ok lundi ->
  toordinal lundi = toordinal (dimanche_de_paques annee) + 1 ->
  nom_ferie lundi = "Lundi de Pâques".
Proof.
  intros Hy El Ho. unfold nom_ferie. cbv zeta.
  rewrite (weekday_of_ordinal _ lundi 1 Ho), (paques_un_dimanche annee Hy).
  destruct (lundi_de_paques_mois annee lundi Hy El) as [-> | ->];
    reflexivity.
Qed.

Lemma noms_des_jours_fixes annee :
  List.map nom_ferie (jours_feries_fixes annee)
  = ["Jour de l'an"; "Jour de l'an"; "Victoire en Europe"; "Fête nationale";
     "Assomption"; "Jour de l'an"; "Toussaint"; "Noël"].
Proof. vm_compute. reflexivity. Qed.

End NomsFeries.

(** ** The periods of a year *)

Section Annee.

(** ** The sum over the periods of a year *)

Lemma somme_periodes_dixiemes jt annee jf :
  annee < 9999 -> calcul_jours_feries annee = Ok jf ->
  forall l acc,
    Forall (periode_de_l_annee annee) l ->
    0 <= acc ->
    acc + 36520590 * Z.of_nat (length l) < 1000000000000000000000000000 ->
    retourne (somme_periodes l jt annee (mk_dec acc (-1)))
             (Ok (mk_dec (acc + somme_dixiemes jt jf l) (-1)))
    /\ 0 <= somme_dixiemes jt jf l <= 36520590 * Z.of_nat (length l).
Proof.
  intros Hy Ejf. induction l as [| p l IH]; intros acc Hl Hacc Hb.
  - cbn [somme_dixiemes length]. rewrite Z.add_0_r.
    split; [apply retourne_ret | lia].
  - apply List.Forall_cons_iff in Hl as [(Ha & Hbv & Hab & Ya & Yb) Hl].
    assert (Hm : date_fin p <> date_max).
    { intros E. rewrite E in Yb. cbn in Yb. lia. }
    destruct (jours_hors_de_periode_dixiemes p jt annee Ha Hbv Hab Ya Yb Hm)
      as (v & jf' & Ejf' & Hr & Hd & He).
    assert (jf' = jf) by congruence. subst jf'.
    fold (dixiemes_hors jt jf p) in Hd.
    pose proof (dixiemes_hors_bornes (date_debut p) (date_fin p) jt jf
                  (debut_type p) (fin_type p) Ha Hbv Hab) as Hbnd.
    fold (dixiemes_hors jt jf p) in Hbnd.
    cbn [length] in Hb.
    destruct (IH (acc + dixiemes_hors jt jf p) Hl ltac:(lia) ltac:(lia))
      as [IHr IHb].
    cbn [somme_dixiemes length]. split; [| lia].
    apply (somme_periodes_cons_retourne p l jt annee _ v _ Hr).
    rewrite add_dixiemes by (rewrite ?Hd; lia).
    rewrite Hd.
    replace (acc + (dixiemes_hors jt jf p + somme_dixiemes jt jf l))
      with (acc + dixiemes_hors jt jf p + somme_dixiemes jt jf l) by lia.
    exact IHr.
Qed.

Lemma to_int_dixiemes c : 0 <= c -> Decimal.to_int (mk_dec c (-1)) = c / 10.
Proof.
  intros Hc. unfold Decimal.to_int. cbn [coef expo].
  change (0 <=? -1) with false. cbv iota. change (10 ^ (- -1)) with 10.
  apply Z.quot_div_nonneg; lia.
Qed.

(** What the service returns when every period is one of the year. *)
Lemma get_jours_hors_periode_principale_valeur db user annee jt :
  ANNEE_MIN <= annee <= ANNEE_MAX ->
  jours_type_service db user annee = Ok jt ->
  Forall (periode_de_l_annee annee)
         (PeriodeConge_filter db user annee "annuel") ->
  Z.of_nat (length (PeriodeConge_filter db user annee "annuel"))
  <= 1000000000000000000 ->
  exists jf,
    calcul_jours_feries annee = Ok jf
    /\ 0 <= somme_dixiemes jt jf (PeriodeConge_filter db user annee "annuel")
    /\ retourne (get_jours_hors_periode_principale db user annee)
                (Ok (somme_dixiemes jt jf
                       (PeriodeConge_filter db user annee "annuel") / 10)).
Proof.
  intros Hy Ejt Hl Hlen. unfold ANNEE_MIN, ANNEE_MAX in Hy.
  destruct (calcul_jours_feries_ok annee ltac:(lia))
    as (l1 & l2 & l3 & _ & _ & _ & _ & _ & _ & _ & _ & Ejf).
  eexists. split; [exact Ejf |].
  destruct (somme_periodes_dixiemes jt annee _ ltac:(lia) Ejf _ 0 Hl
              ltac:(lia) ltac:(lia)) as [Hr Hb].
  rewrite Z.add_0_l in Hr.
  pose proof (get_jours_hors_periode_principale_retourne db user annee jt _
                ltac:(unfold ANNEE_MIN, ANNEE_MAX; lia) Ejt Hr) as Hg.
  rewrite to_int_dixiemes in Hg by lia.
  split; [lia | exact Hg].
Qed.

(** ** The days of a period and its days outside the main period *)

Lemma nombre_jours_filter_partition P jf (Q : date -> bool) l :
  nombre_jours P jf l
  = nombre_jours P jf (List.filter Q l)
    + nombre_jours P jf (List.filter (fun d => negb (Q d)) l).
Proof.
  induction l as [| d l IH]; [reflexivity |].
  cbn [List.filter]. rewrite nombre_jours_cons, IH.
  destruct (Q d); cbn [negb]; rewrite nombre_jours_cons; lia.
Qed.

Lemma demi_journee_partition (h c : bool) t d :
  demi_journee c t d
  = demi_journee (h && c) t d + demi_journee (negb h && c) t d.
Proof. unfold demi_journee. destruct h, c, (String.eqb t d); reflexivity. Qed.

(** The days outside the main period are among the days of the period. *)
Lemma dixiemes_hors_le a b jt jf dt ft :
  valid_date a -> valid_date b -> date_leb a b = true ->
  10 * nombre_jours (est_compte_mode jt) jf
         (List.filter est_hors_periode_principale (jours_de_la_plage a b))
  - demi_journee (est_hors_periode_principale a && borne_comptee jt jf a)
                 dt "apres_midi"
  - demi_journee (est_hors_periode_principale b && borne_comptee jt jf b)
                 ft "matin"
  <= 10 * nombre_jours (est_compte_mode jt) jf (jours_de_la_plage a b)
     - demi_journee (borne_comptee jt jf a) dt "apres_midi"
     - demi_journee (borne_comptee jt jf b) ft "matin".
Proof.
  intros Ha Hb Hab.
  destruct (plage_bornes a b Ha Hb Hab) as [Ia Ib].
  rewrite (nombre_jours_filter_partition _ jf est_hors_periode_principale
             (jours_de_la_plage a b)).
  rewrite (demi_journee_partition (est_hors_periode_principale a)
             (borne_comptee jt jf a)).
  rewrite (demi_journee_partition (est_hors_periode_principale b)
             (borne_comptee jt jf b)).
  set (l := List.filter (fun d => negb (est_hors_periode_principale d))
                        (jours_de_la_plage a b)).
  pose proof (demi_journees_liste (borne_comptee jt jf) l a b
                (negb (est_hors_periode_principale a)
                 && borne_comptee jt jf a)
                (negb (est_hors_periode_principale b)
                 && borne_comptee jt jf b) dt ft) as H.
  rewrite <- nombre_jours_borne in H.
  assert (H1 : negb (est_hors_periode_principale a)
               && borne_comptee jt jf a = true ->
               In a l /\ borne_comptee jt jf a = true).
  { intros E. apply andb_true_iff in E as [E1 E2].
    split; [apply List.filter_In; auto | exact E2]. }
  assert (H2 : negb (est_hors_periode_principale b)
               && borne_comptee jt jf b = true ->
               In b l /\ borne_comptee jt jf b = true).
  { intros E. apply andb_true_iff in E as [E1 E2].
    split; [apply List.filter_In; auto | exact E2]. }
  specialize (H H1 H2). lia.
Qed.

(** ** Rows created through the form *)

Lemma objects_get_app_nil {A : Type} (l : list A) :
  objects_get (l ++ []) = objects_get l.
Proof. rewrite app_nil_r. reflexivity. Qed.

Lemma ParametresAnnee_get_save db u a jt user annee :
  ParametresAnnee_get (ParametresAnneeForm_save db u a jt) user annee
  = objects_get
      (List.filter (fun p => (pa_user p =? user) && (pa_annee p =? annee))
                   (parametres db)
       ++ (if (u =? user) && (a =? annee) then [mk_parametres u a jt]
           else [])).
Proof.
  unfold ParametresAnnee_get, ParametresAnneeForm_save. cbn [parametres].
  rewrite List.filter_app. cbn [List.filter pa_user pa_annee]. reflexivity.
Qed.

(** ** The cache does not change what the service returns *)

(** ** Adding a period, and the order of the rows *)

Lemma somme_dixiemes_app jt jf l1 l2 :
  somme_dixiemes jt jf (l1 ++ l2)
  = somme_dixiemes jt jf l1 + somme_dixiemes jt jf l2.
Proof.
  induction l1 as [| p l1 IH]; [reflexivity |].
  cbn [app somme_dixiemes]. rewrite IH. lia.
Qed.

Lemma somme_dixiemes_perm jt jf l1 l2 :
  Permutation l1 l2 -> somme_dixiemes jt jf l1 = somme_dixiemes jt jf l2.
Proof.
  induction 1 as [| p l1 l2 _ IH | p q l | l1 l2 l3 _ IH1 _ IH2];
    cbn [somme_dixiemes]; lia.
Qed.

Lemma PeriodeConge_filter_perm db db' user annee type :
  Permutation (periodes db) (periodes db') ->
  Permutation (PeriodeConge_filter db user annee type)
              (PeriodeConge_filter db' user annee type).
Proof.
  intros H. unfold PeriodeConge_filter.
  induction H as [| p l1 l2 _ IH | p q l | l1 l2 l3 _ IH1 _ IH2];
    cbn [List.filter].
  - constructor.
  - destruct (_ && _); [constructor |]; exact IH.
  - destruct (_ && String.eqb (type_conge q) type),
             (_ && String.eqb (type_conge p) type);
      try apply Permutation_refl. apply perm_swap.
  - exact (Permutation_trans IH1 IH2).
Qed.

Lemma calculer_jours_fractionnement_croissant n m :
  n <= m ->
  calculer_jours_fractionnement n <= calculer_jours_fractionnement m.
Proof.
  intros H. unfold calculer_jours_fractionnement.
  destruct (n <? 5) eqn:E1; destruct (m <? 5) eqn:E2;
    destruct ((5 <=? n) && (n <=? 7)) eqn:E3;
    destruct ((5 <=? m) && (m <=? 7)) eqn:E4; lia.
Qed.

Lemma PeriodeConge_filter_save db user a dt b ft type u annee t :
  PeriodeConge_filter (PeriodeCongeForm_save db user a dt b ft type)
                      u annee t
  = PeriodeConge_filter db u annee t
    ++ (if (user =? u) && (year a =? annee) && String.eqb type t
        then [mk_periode user a dt b ft type (year a)] else []).
Proof.
  unfold PeriodeConge_filter, PeriodeCongeForm_save. cbn [periodes].
  rewrite List.filter_app.
  cbn [List.filter pc_user annee_civile type_conge]. reflexivity.
Qed.

Lemma objects_get_multiple {A : Type} (rows : list A) :
  objects_get rows = Raise MultipleObjectsReturned <-> (2 <= length rows)%nat.
Proof.
  destruct rows as [| x [| y r]]; cbn [objects_get length]; split;
    intros H; try discriminate; try lia; reflexivity.
Qed.

End Annee.

(** ** The rows of the scenario *)

Section Scenario.

(** The first row that a query selects, and the rows after it. *)
Lemma filter_premier {A : Type} (f : A -> bool) l a r :
  List.filter f l = a :: r ->
  exists l1 l2, l = l1 ++ a :: l2 /\ f a = true /\ List.filter f l2 = r.
Proof.
  induction l as [| x l IH]; cbn [List.filter]; [discriminate |].
  destruct (f x) eqn:E.
  - intros [= -> <-]. exists [], l. auto.
  - intros H. destruct (IH H) as (l1 & l2 & -> & Ha & Hr).
    exists (x :: l1), l2. auto.
Qed.

Lemma au_plus_un_parametre_get db user annee :
  au_plus_un_parametre db user annee ->
  ParametresAnnee_get db user annee <> Raise MultipleObjectsReturned.
Proof.
  intros H. unfold ParametresAnnee_get.
  destruct (List.filter _ (parametres db)) as [| x [| y r]] eqn:E;
    cbn [objects_get]; try discriminate.
  exfalso.
  destruct (filter_premier _ _ _ _ E) as (l1 & l' & E1 & Hx & E').
  destruct (filter_premier _ _ _ _ E') as (l2 & l3 & E2 & Hy & _).
  subst l'.
  assert (Hi : parametres db !! length l1 = Some x).
  { rewrite E1. apply list_lookup_middle. reflexivity. }
  assert (Hj : parametres db !! length (l1 ++ x :: l2) = Some y).
  { rewrite E1.
    replace (l1 ++ x :: l2 ++ y :: l3) with ((l1 ++ x :: l2) ++ y :: l3)
      by (rewrite <- List.app_assoc; reflexivity).
    apply list_lookup_middle. reflexivity. }
  pose proof (H _ _ x y Hi Hj ltac:(lia) ltac:(lia) ltac:(lia) ltac:(lia))
    as Hij.
  rewrite List.length_app in Hij. cbn [length] in Hij. lia.
Qed.

Lemma filter_sans_conge_annuel user annee l :
  Forall (fun p => ~ conge_annuel_de user annee p) l ->
  List.filter (fun p => (pc_user p =? user) && (annee_civile p =? annee)
                        && String.eqb (type_conge p) "annuel") l = [].
Proof.
  induction 1 as [| p l Hp _ IH]; cbn [List.filter]; [reflexivity |].
  destruct (_ && _) eqn:E; [| exact IH].
  exfalso. apply Hp. unfold conge_annuel_de.
  apply andb_true_iff in E as [E Et]. apply String.eqb_eq in Et.
  split; [lia |]. split; [lia | exact Et].
Qed.

Lemma filter_conge_annuel user annee p :
  conge_annuel_de user annee p ->
  (pc_user p =? user) && (annee_civile p =? annee)
  && String.eqb (type_conge p) "annuel" = true.
Proof.
  intros (Hu & Ha & Ht). rewrite Ht, String.eqb_refl. lia.
Qed.

(** What the query of the service selects, from the rows of the table. *)
Lemma PeriodeConge_filter_seul db user annee p1 autres :
  conge_annuel_de user annee p1 ->
  Forall (fun p => ~ conge_annuel_de user annee p) autres ->
  Permutation (periodes db) (p1 :: autres) ->
  PeriodeConge_filter db user annee "annuel" = [p1].
Proof.
  intros H1 Ha Hp.
  pose proof (PeriodeConge_filter_perm db (mk_db [] [] (p1 :: autres))
                user annee "annuel" Hp) as H.
  unfold PeriodeConge_filter at 2 in H. cbn [periodes List.filter] in H.
  rewrite (filter_conge_annuel _ _ _ H1) in H.
  rewrite (filter_sans_conge_annuel _ _ _ Ha) in H.
  apply Permutation_sym, Permutation_length_1_inv in H. exact H.
Qed.

Lemma PeriodeConge_filter_ajout db db' user annee p2 :
  conge_annuel_de user annee p2 ->
  Permutation (periodes db') (p2 :: periodes db) ->
  Permutation (PeriodeConge_filter db' user annee "annuel")
              (p2 :: PeriodeConge_filter db user annee "annuel").
Proof.
  intros H2 Hp.
  pose proof (PeriodeConge_filter_perm db' (mk_db [] [] (p2 :: periodes db))
                user annee "annuel" Hp) as H.
  unfold PeriodeConge_filter at 2 in H. cbn [periodes List.filter] in H.
  rewrite (filter_conge_annuel _ _ _ H2) in H. exact H.
Qed.

End Scenario.

(** ** The yearly RTT against exact arithmetic *)

Section Proche.

(** Rounding to 28 digits moves a coefficient by at most its
    [2 * 10 ^ 27]-th part. *)
Lemma arrondi_28_proche c :
  0 <= c -> 2 * 10 ^ 27 * Z.abs (arrondi_28 c - c) <= c.
Proof.
  intros Hc. unfold arrondi_28, prec.
  destruct (28 <? ndigits c) eqn:En.
  - assert (Hc1 : 1 <= c).
    { destruct (Z.eq_dec c 0) as [-> | ]; [| lia].
      rewrite ndigits_zero in En. discriminate. }
    destruct (ndigits_spec c Hc1) as (_ & Hlo & _).
    set (d := ndigits c - 28) in *.
    assert (Hd : 0 < 10 ^ d) by (apply pow10_pos; lia).
    assert (E1 : 10 ^ (ndigits c - 1) = 10 ^ 27 * 10 ^ d).
    { rewrite <- Z.pow_add_r by lia. f_equal. lia. }
    pose proof (div_half_even_nearest c (10 ^ d) Hd) as Hn.
    rewrite E1 in Hlo.
    set (a := div_half_even c (10 ^ d) * 10 ^ d) in *.
    assert (P27 : 0 < 10 ^ 27) by (apply pow10_pos; lia).
    replace (Z.abs (a - c)) with (Z.abs (c - a)) by lia.
    nia.
  - replace (c - c) with 0 by lia. cbn [Z.abs]. lia.
Qed.

(** The value of [fix_ (mk_dec c e)] in units of [10 ^ (- K)]. *)
Lemma fix_echelle c e K :
  0 <= c -> 0 <= e + K ->
  exists f e',
    fix_ (mk_dec c e) = mk_dec f e' /\ 0 <= f /\ e <= e'
    /\ f * 10 ^ (e' + K) = arrondi_28 c * 10 ^ (e + K).
Proof.
  intros Hc HK.
  destruct (fix_value c e Hc) as (f & k & E & Hf & Hk & Ev).
  exists f, (e + k). split; [exact E |]. split; [exact Hf |].
  split; [lia |]. rewrite <- Ev.
  replace (e + k + K) with (k + (e + K)) by lia.
  rewrite Z.pow_add_r by lia. ring.
Qed.

(** Stripping trailing zeros keeps the value. *)
Lemma strip_zeros_value fuel : forall c e ideal,
  0 <= c ->
  exists c' k,
    strip_zeros fuel c e ideal = mk_dec c' (e + k)
    /\ 0 <= c' /\ 0 <= k /\ c' * 10 ^ k = c.
Proof.
  induction fuel as [| n IH]; intros c e ideal Hc; cbn [strip_zeros].
  - exists c, 0. rewrite Z.add_0_r. repeat split; lia.
  - destruct ((e <? ideal) && (c mod 10 =? 0)) eqn:E.
    + assert (Hm : c mod 10 = 0) by lia.
      destruct (IH (c / 10) (e + 1) ideal ltac:(apply Z.div_pos; lia))
        as (c' & k & Es & Hc' & Hk & Ev).
      exists c', (1 + k). rewrite Es. split; [f_equal; lia |].
      split; [exact Hc' |]. split; [lia |].
      rewrite Z.pow_add_r by lia. change (10 ^ 1) with 10.
      pose proof (Z.div_mod c 10 ltac:(lia)). lia.
    + exists c, 0. rewrite Z.add_0_r. repeat split; lia.
Qed.

(** A number below [10 ^ n] has at most [n] digits. *)
Lemma ndigits_lt_pow c n :
  0 <= c < 10 ^ n -> 1 <= n -> ndigits c <= n.
Proof.
  intros Hc Hn.
  destruct (Z.eq_dec c 0) as [-> | Hne]; [rewrite ndigits_zero; lia |].
  destruct (ndigits_spec c ltac:(lia)) as [H1 [H2 _]].
  destruct (Z_le_gt_dec (ndigits c) n) as [H | H]; [exact H |].
  pose proof (pow10_mono n (ndigits c - 1) ltac:(lia)). lia.
Qed.

(** [fix_] moves a value by at most its [2 * 10 ^ 27]-th part; the values
    are in units of [10 ^ (- K)]. *)
Lemma fix_proche c e K :
  0 <= c -> 0 <= e + K ->
  exists f e',
    fix_ (mk_dec c e) = mk_dec f e' /\ 0 <= f /\ e <= e'
    /\ 2 * 10 ^ 27 * Z.abs (f * 10 ^ (e' + K) - c * 10 ^ (e + K))
       <= c * 10 ^ (e + K).
Proof.
  intros Hc HK.
  destruct (fix_echelle c e K Hc HK) as (f & e' & E & Hf & He & Ev).
  exists f, e'. split; [exact E |]. split; [exact Hf |].
  split; [exact He |]. rewrite Ev.
  pose proof (arrondi_28_proche c Hc) as Hp.
  pose proof (pow10_pos (e + K) HK) as HW.
  set (W := 10 ^ (e + K)) in *. set (A := arrondi_28 c) in *.
  replace (A * W - c * W) with ((A - c) * W) by ring.
  rewrite Z.abs_mul, (Z.abs_eq W) by lia.
  rewrite Z.mul_assoc. apply Z.mul_le_mono_nonneg_r; lia.
Qed.

(** From the truncated quotient [Qt] and its rounding [X], both in units
    of [10 ^ (-40)], to the distance between [X] and [E / kh]. *)
Lemma borne_quotient kh E X Qt T :
  0 < kh -> 0 <= E -> E < 52 * kh ->
  0 < T <= 10000000000000 ->
  Z.abs (Qt * kh - E * 10000000000000000000000000000000000000000)
  <= kh * T ->
  2 * 1000000000000000000000000000 * Z.abs (X - Qt) <= Qt ->
  Z.abs (X * kh - E * 10000000000000000000000000000000000000000)
  <= 280000000000000 * kh.
Proof.
  intros Hk HE HE52 HT H1 H2.
  assert (HQ : Qt <= 520000000000000000000000000010000000000000).
  { assert (Qt * kh <= 520000000000000000000000000010000000000000 * kh)
      by nia.
    nia. }
  assert (H3 : Z.abs (X - Qt) <= 270000000000000) by lia.
  replace (X * kh - E * 10000000000000000000000000000000000000000)
    with ((X - Qt) * kh
          + (Qt * kh - E * 10000000000000000000000000000000000000000)) by ring.
  assert (H4 : Z.abs ((X - Qt) * kh) <= 270000000000000 * kh).
  { rewrite Z.abs_mul, (Z.abs_eq kh) by lia.
    apply Z.mul_le_mono_nonneg_r; lia. }
  assert (H5 : kh * T <= kh * 10000000000000) by nia.
  lia.
Qed.

(** The quotient of the hours above the legal duration by the weekly
    hours, in units of [10 ^ (-40)]. *)
Lemma div_proche E kh e0 :
  0 < kh -> 6 * kh <= E -> E < 52 * kh ->
  exists x,
    Decimal.div (mk_dec E e0) (mk_dec kh e0) = Ok x
    /\ 0 <= coef x /\ -29 <= expo x
    /\ Z.abs (coef x * 10 ^ (expo x + 40) * kh - E * 10 ^ 40)
       <= 280000000000000 * kh.
Proof.
  intros Hk H6 H52.
  assert (HE : 0 < E) by lia.
  destruct (ndigits_spec kh ltac:(lia)) as (Hnk & Hklo & Hkhi).
  pose proof (ndigits_mono kh E ltac:(lia)) as Hn1.
  assert (Hn2 : ndigits E <= ndigits kh + 2).
  { apply ndigits_lt_pow; [| lia].
    rewrite Z.pow_add_r by lia. change (10 ^ 2) with 100. lia. }
  unfold Decimal.div. cbn [coef expo].
  replace (kh =? 0) with false by lia.
  replace (E =? 0) with false by lia.
  rewrite !Z.sgn_pos, !Z.abs_eq, !Z.mul_1_l by lia.
  unfold prec.
  set (shift := ndigits kh - ndigits E + 28 + 1).
  assert (Hs : 27 <= shift <= 29) by (unfold shift; lia).
  replace (0 <=? shift) with true by lia.
  replace (e0 - e0 - shift) with (- shift) by lia.
  replace (e0 - e0 - - shift) with shift by lia.
  replace (e0 - e0) with 0 by lia.
  pose proof (pow10_pos shift ltac:(lia)) as HS.
  pose proof (pow10_pos (- shift + 40) ltac:(lia)) as HT.
  assert (HST : 10 ^ shift * 10 ^ (- shift + 40) = 10 ^ 40).
  { rewrite <- Z.pow_add_r by lia. f_equal. lia. }
  assert (HT13 : 10 ^ (- shift + 40) <= 10000000000000).
  { change 10000000000000 with (10 ^ 13). apply pow10_mono. lia. }
  set (S := 10 ^ shift) in *. set (T := 10 ^ (- shift + 40)) in *.
  pose proof (Z.div_mod (E * S) kh ltac:(lia)) as Hdm.
  pose proof (Z.mod_pos_bound (E * S) kh Hk) as Hr.
  assert (Hq0 : 0 <= E * S / kh) by (apply Z.div_pos; nia).
  set (q0 := E * S / kh) in *. set (r := E * S mod kh) in *.
  assert (fin : forall c e,
             0 <= c -> - shift <= e ->
             Z.abs (c * 10 ^ (e + 40) * kh - E * 10 ^ 40)
             <= kh * T ->
             exists x,
               Ok (fix_ (mk_dec c e)) = Ok x
               /\ 0 <= coef x /\ -29 <= expo x
               /\ Z.abs (coef x * 10 ^ (expo x + 40) * kh - E * 10 ^ 40)
                  <= 280000000000000 * kh).
  { intros c e Hc He Hv.
    destruct (fix_proche c e 40 Hc ltac:(lia))
      as (f & e' & -> & Hf & He' & Hp).
    eexists. split; [reflexivity |]. cbn [coef expo].
    split; [exact Hf |]. split; [lia |].
    change (10 ^ 40) with 10000000000000000000000000000000000000000 in *.
    change (10 ^ 27) with 1000000000000000000000000000 in Hp.
    apply (borne_quotient kh E _ (c * 10 ^ (e + 40)) T);
      try assumption; lia. }
  destruct (negb (r =? 0)) eqn:Er.
  - apply fin; [destruct (q0 mod 5 =? 0); lia | lia |].
    fold T.
    replace (E * 10 ^ 40) with (E * S * T) by (rewrite <- HST; ring).
    set (q' := if q0 mod 5 =? 0 then q0 + 1 else q0).
    replace (q' * T * kh - E * S * T) with ((q' * kh - E * S) * T) by ring.
    rewrite Z.abs_mul, (Z.abs_eq T) by lia.
    apply Z.mul_le_mono_nonneg_r; [lia |].
    unfold q'. destruct (q0 mod 5 =? 0); lia.
  - assert (Hr0 : r = 0) by lia.
    destruct (strip_zeros_value (Z.to_nat shift) q0 (- shift) 0 Hq0)
      as (c' & k & -> & Hc' & Hk' & Ev). cbn [coef expo].
    apply fin; [exact Hc' | lia |].
    replace (- shift + k + 40) with (k + (- shift + 40)) by lia.
    rewrite Z.pow_add_r by lia. fold T.
    replace (c' * (10 ^ k * T) * kh) with (c' * 10 ^ k * kh * T) by ring.
    rewrite Ev.
    replace (E * 10 ^ 40) with (E * S * T) by (rewrite <- HST; ring).
    replace (q0 * kh * T - E * S * T) with ((q0 * kh - E * S) * T) by ring.
    rewrite Z.abs_mul, (Z.abs_eq T) by lia.
    apply Z.mul_le_mono_nonneg_r; lia.
Qed.

(** The hours above 1607 are computed exactly. *)
Lemma heures_supplementaires_valeur kh eh :
  -2 <= eh <= 0 -> Z.abs kh < 1000000 ->
  heures_supplementaires (mk_dec kh eh)
  = mk_dec (52 * kh - 1607 * 10 ^ (- eh)) eh.
Proof.
  intros He Hk.
  assert (HP : 1 <= 10 ^ (- eh) <= 100).
  { split; [pose proof (pow10_pos (- eh) ltac:(lia)); lia |].
    change 100 with (10 ^ 2). apply pow10_mono. lia. }
  unfold heures_supplementaires, Decimal.mul, Decimal.sub, of_int,
    SEMAINES_ANNUELLES, DUREE_LEGALE_ANNUELLE. cbn [coef expo].
  rewrite (fix_small (kh * 52)) by lia. cbn [coef expo].
  replace (Z.min (eh + 0) 0) with eh by lia.
  replace (eh + 0 - eh) with 0 by lia. replace (0 - eh) with (- eh) by lia.
  change (10 ^ 0) with 1.
  rewrite fix_small by lia. f_equal. ring.
Qed.

(** The two tests of [calculer_rtt_annuels] on the coefficients. *)
Lemma leb_35 kh eh :
  eh <= 0 ->
  Decimal.leb (mk_dec kh eh) HEURES_SEMAINE_MIN
  = (kh <=? 35 * 10 ^ (- eh)).
Proof.
  intros He. unfold Decimal.leb, cmp, HEURES_SEMAINE_MIN. cbn [coef expo].
  replace (Z.min eh 0) with eh by lia.
  replace (eh - eh) with 0 by lia. replace (0 - eh) with (- eh) by lia.
  change (10 ^ 0) with 1. rewrite Z.mul_1_r.
  destruct (kh ?= 35 * 10 ^ (- eh)) eqn:E.
  - apply Z.compare_eq_iff in E. symmetry. apply Z.leb_le.
    rewrite E. apply Z.le_refl.
  - apply Z.compare_lt_iff in E. symmetry. apply Z.leb_le.
    apply Z.lt_le_incl. exact E.
  - apply Z.compare_gt_iff in E. symmetry. apply Z.leb_gt. exact E.
Qed.

Lemma leb_zero c e :
  e <= 0 -> Decimal.leb (mk_dec c e) (of_int 0) = (c <=? 0).
Proof.
  intros He. unfold Decimal.leb, cmp, of_int. cbn [coef expo].
  replace (Z.min e 0) with e by lia.
  replace (e - e) with 0 by lia.
  change (10 ^ 0) with 1. rewrite Z.mul_1_r, Z.mul_0_l.
  destruct (c ?= 0) eqn:E.
  - apply Z.compare_eq_iff in E. symmetry. apply Z.leb_le.
    rewrite E. apply Z.le_refl.
  - apply Z.compare_lt_iff in E. symmetry. apply Z.leb_le.
    apply Z.lt_le_incl. exact E.
  - apply Z.compare_gt_iff in E. symmetry. apply Z.leb_gt. exact E.
Qed.

(** The three roundings together: [X] is the quotient in units of
    [10 ^ (-40)], [Qs] the quota in hundredths, [Y] their rounded product in
    units of [10 ^ (-42)] and [r] the integer that [round] returns. *)
Lemma borne_finale kh E X Qs Y r :
  0 < kh < 1000000 -> 0 <= E < 52 * kh -> 0 <= Qs <= 100000000 ->
  0 <= X ->
  Z.abs (X * kh - E * 10000000000000000000000000000000000000000)
  <= 280000000000000 * kh ->
  2 * 1000000000000000000000000000 * Z.abs (Y - X * Qs) <= X * Qs ->
  2 * Z.abs (Y - r * 1000000000000000000000000000000000000000000)
  <= 1000000000000000000000000000000000000000000 ->
  2 * 10000000000000000000000000000000000000000
  * Z.abs (r * (100 * kh) - E * Qs)
  <= 100 * kh * 10000000000000000000000000000000000000000
     + 1000000000000000000000000000000.
Proof.
  intros Hk HE HQ HX H1 H2 H3.
  assert (HXm : X <= 520000000000000000000000000280000000000000).
  { assert (X * kh <= 520000000000000000000000000280000000000000 * kh)
      by nia.
    nia. }
  assert (HXQ : X * Qs
                <= 520000000000000000000000000280000000000000 * 100000000).
  { apply Z.mul_le_mono_nonneg; lia. }
  assert (H4 : Z.abs (Y - X * Qs) <= 27000000000000000000000) by lia.
  assert (H5 : Z.abs ((Y - X * Qs) * kh)
               <= 27000000000000000000000 * 1000000).
  { rewrite Z.abs_mul, (Z.abs_eq kh) by lia.
    apply Z.mul_le_mono_nonneg; lia. }
  assert (H6 : Z.abs ((X * kh
                       - E * 10000000000000000000000000000000000000000)
                      * Qs)
               <= 280000000000000 * 1000000 * 100000000).
  { rewrite Z.abs_mul, (Z.abs_eq Qs) by lia.
    apply Z.mul_le_mono_nonneg; lia. }
  assert (H7 : 2 * Z.abs ((Y - r * 1000000000000000000000000000000000000000000)
                          * kh)
               <= 1000000000000000000000000000000000000000000 * kh).
  { rewrite Z.abs_mul, (Z.abs_eq kh) by lia.
    rewrite Z.mul_assoc. apply Z.mul_le_mono_nonneg_r; lia. }
  replace (10000000000000000000000000000000000000000
           * Z.abs (r * (100 * kh) - E * Qs))
    with (Z.abs (- ((Y - r * 1000000000000000000000000000000000000000000)
                    * kh)
                 + (Y - X * Qs) * kh
                 + (X * kh - E * 10000000000000000000000000000000000000000)
                   * Qs)).
  - lia.
  - replace (- ((Y - r * 1000000000000000000000000000000000000000000) * kh)
             + (Y - X * Qs) * kh
             + (X * kh - E * 10000000000000000000000000000000000000000) * Qs)
      with (10000000000000000000000000000000000000000
            * (r * (100 * kh) - E * Qs)) by ring.
    rewrite Z.abs_mul. reflexivity.
Qed.

(** [round] of a non-negative decimal, in units of [10 ^ (-42)]. *)
Lemma round_proche f e :
  0 <= e + 42 ->
  2 * Z.abs (f * 10 ^ (e + 42) - Decimal.round (mk_dec f e) * 10 ^ 42)
  <= 10 ^ 42.
Proof.
  intros He. pose proof (round_nearest (mk_dec f e)) as H.
  cbn [coef expo] in H. destruct (0 <=? e) eqn:E.
  - rewrite H. rewrite Z.pow_add_r by lia.
    replace (f * (10 ^ e * 10 ^ 42) - f * 10 ^ e * 10 ^ 42) with 0 by ring.
    cbn [Z.abs]. pose proof (pow10_pos 42 ltac:(lia)). lia.
  - pose proof (pow10_pos (e + 42) He) as HW.
    assert (E42 : 10 ^ 42 = 10 ^ (- e) * 10 ^ (e + 42)).
    { rewrite <- Z.pow_add_r by lia. f_equal. lia. }
    rewrite E42. set (W := 10 ^ (e + 42)) in *. set (p := 10 ^ (- e)) in *.
    set (r := Decimal.round (mk_dec f e)) in *.
    replace (f * W - r * (p * W)) with ((f - r * p) * W) by ring.
    rewrite Z.abs_mul, (Z.abs_eq W) by lia.
    rewrite Z.mul_assoc. apply Z.mul_le_mono_nonneg_r; lia.
Qed.

(** For weekly hours above 35 and a non-negative quota, both with at most
    two decimals: twice the distance from the result to the exact value
    [(52 h - 1607) q / h] is at most one. *)
Lemma rtt_proche_pos kh eh kq eq :
  -2 <= eh <= 0 -> -2 <= eq <= 0 ->
  35 * 10 ^ (- eh) < kh < 1000000 -> 0 <= kq < 1000000 ->
  exists r,
    calculer_rtt_annuels (mk_dec kh eh) (mk_dec kq eq) = Ok r
    /\ 2 * Z.abs (r * (kh * 10 ^ (- eq))
                  - (52 * kh - 1607 * 10 ^ (- eh)) * kq)
       <= kh * 10 ^ (- eq).
Proof.
  intros Heh Heq Hkh Hkq.
  assert (HP : 1 <= 10 ^ (- eh) <= 100).
  { split; [pose proof (pow10_pos (- eh) ltac:(lia)); lia |].
    change 100 with (10 ^ 2). apply pow10_mono. lia. }
  rewrite calculer_rtt_annuels_au_dessus
    by (rewrite leb_35 by lia; apply Z.leb_gt; lia).
  rewrite heures_supplementaires_valeur by lia.
  set (E := 52 * kh - 1607 * 10 ^ (- eh)).
  assert (HE : 6 * kh <= E < 52 * kh) by (unfold E; lia).
  rewrite leb_zero by lia. replace (E <=? 0) with false by lia.
  destruct (div_proche E kh eh ltac:(lia) ltac:(lia) ltac:(lia))
    as ([cx ex] & -> & Hcx & Hex & HX).
  cbn [coef expo rbind] in *. unfold Decimal.mul. cbn [coef expo].
  destruct (fix_proche (cx * kq) (ex + eq) 42 ltac:(nia) ltac:(lia))
    as (f & e' & -> & Hf & He' & Hp).
  pose proof (round_proche f e' ltac:(lia)) as Hr.
  set (r := Decimal.round (mk_dec f e')) in *.
  exists r. split; [reflexivity |].
  assert (EW : 10 ^ (ex + eq + 42) = 10 ^ (ex + 40) * 10 ^ (eq + 2)).
  { rewrite <- Z.pow_add_r by lia. f_equal. lia. }
  rewrite EW in Hp.
  replace (cx * kq * (10 ^ (ex + 40) * 10 ^ (eq + 2)))
    with (cx * 10 ^ (ex + 40) * (kq * 10 ^ (eq + 2))) in Hp by ring.
  pose proof (pow10_pos (ex + 40) ltac:(lia)) as HW.
  set (X := cx * 10 ^ (ex + 40)) in *.
  set (Y := f * 10 ^ (e' + 42)) in *.
  assert (HX0 : 0 <= X) by (unfold X; nia).
  change (10 ^ 40) with 10000000000000000000000000000000000000000 in HX.
  change (10 ^ 42) with 1000000000000000000000000000000000000000000 in Hr.
  change (10 ^ 27) with 1000000000000000000000000000 in Hp.
  assert (Ceq : eq = 0 \/ eq = -1 \/ eq = -2) by lia.
  destruct Ceq as [-> | [-> | ->]].
  - change (10 ^ (0 + 2)) with 100 in *. change (10 ^ (- 0)) with 1.
    pose proof (borne_finale kh E X (kq * 100) Y r ltac:(lia) ltac:(lia)
                  ltac:(lia) HX0 HX Hp Hr) as H.
    replace (r * (100 * kh) - E * (kq * 100))
      with (100 * (r * (kh * 1) - E * kq)) in H by ring.
    rewrite Z.abs_mul in H. change (Z.abs 100) with 100 in H. lia.
  - change (10 ^ (-1 + 2)) with 10 in *. change (10 ^ (- -1)) with 10.
    pose proof (borne_finale kh E X (kq * 10) Y r ltac:(lia) ltac:(lia)
                  ltac:(lia) HX0 HX Hp Hr) as H.
    replace (r * (100 * kh) - E * (kq * 10))
      with (10 * (r * (kh * 10) - E * kq)) in H by ring.
    rewrite Z.abs_mul in H. change (Z.abs 10) with 10 in H. lia.
  - change (10 ^ (-2 + 2)) with 1 in *. change (10 ^ (- -2)) with 100.
    pose proof (borne_finale kh E X (kq * 1) Y r ltac:(lia) ltac:(lia)
                  ltac:(lia) HX0 HX Hp Hr) as H.
    replace (r * (100 * kh) - E * (kq * 1))
      with (r * (kh * 100) - E * kq) in H by ring.
    lia.
Qed.

End Proche.

Section Exact.

(** The distance to a quotient of integers, without division. *)
Lemma proche_quotient r N D :
  0 < D -> 2 * Z.abs (r * D - N) <= D ->
  entier_le_plus_proche r (N # Z.to_pos D).
Proof.
  intros HD H. unfold entier_le_plus_proche, Qle, Qabs, Qminus, Qplus, Qopp,
    inject_Z. cbn [Qnum Qden].
  rewrite Pos.mul_1_l, Z2Pos.id by exact HD. lia.
Qed.

(** The exact value as a quotient of integers. *)
Lemma rtt_exact_quotient kh eh kq eq :
  -2 <= eh <= 0 -> -2 <= eq <= 0 -> 0 < kh ->
  (rtt_exact (mk_dec kh eh) (mk_dec kq eq)
   == ((52 * kh - 1607 * 10 ^ (- eh)) * kq) # Z.to_pos (kh * 10 ^ (- eq)))%Q.
Proof.
  intros Heh Heq Hk.
  assert (Hk0 : ~ (inject_Z kh == 0)%Q).
  { unfold Qeq, inject_Z. cbn [Qnum Qden]. lia. }
  assert (HD : 0 < kh * 10 ^ (- eq))
    by (pose proof (pow10_pos (- eq) ltac:(lia)); nia).
  rewrite Qmake_Qdiv, Z2Pos.id by exact HD.
  unfold rtt_exact, valeur. cbn [coef expo].
  assert (Ceh : eh = 0 \/ eh = -1 \/ eh = -2) by lia.
  assert (Ceq : eq = 0 \/ eq = -1 \/ eq = -2) by lia.
  destruct Ceh as [-> | [-> | ->]], Ceq as [-> | [-> | ->]];
    change (10 ^ (- 0)) with 1; change (10 ^ (- -1)) with 10;
    change (10 ^ (- -2)) with 100;
    rewrite !inject_Z_mult; unfold Z.sub;
    rewrite ?inject_Z_plus, ?inject_Z_opp, ?inject_Z_mult;
    cbn [Qpower Qpower_positive pow_pos Qinv]; field; exact Hk0.
Qed.

End Exact.

Section Signe.

(** Rounding is symmetric about zero. *)
Lemma fix_opp c e :
  fix_ (mk_dec (- c) e)
  = mk_dec (- coef (fix_ (mk_dec c e))) (expo (fix_ (mk_dec c e))).
Proof.
  unfold fix_. cbn [coef expo]. rewrite Z.abs_opp, Z.sgn_opp.
  destruct (prec <? ndigits (Z.abs c)); [| reflexivity].
  destruct (prec <? ndigits _); cbn [coef expo]; f_equal; ring.
Qed.

Lemma round_opp f e :
  Decimal.round (mk_dec (- f) e) = - Decimal.round (mk_dec f e).
Proof.
  unfold Decimal.round. cbn [coef expo]. rewrite Z.abs_opp, Z.sgn_opp.
  destruct (0 <=? e); ring.
Qed.

(** The result is odd in the quota. *)
Lemma calculer_rtt_annuels_opp h kq eq :
  calculer_rtt_annuels h (mk_dec (- kq) eq)
  = let? r := calculer_rtt_annuels h (mk_dec kq eq) in Ok (- r).
Proof.
  unfold calculer_rtt_annuels.
  destruct (Decimal.leb h HEURES_SEMAINE_MIN); [reflexivity |].
  destruct (Decimal.leb _ (of_int 0)); [reflexivity |].
  destruct (Decimal.div _ h) as [x |]; [| reflexivity].
  cbn [rbind]. unfold Decimal.mul. cbn [coef expo].
  rewrite Z.mul_opp_r, fix_opp, round_opp. reflexivity.
Qed.

(** [rtt_proche_pos] for a quota of either sign. *)
Lemma rtt_proche kh eh kq eq :
  -2 <= eh <= 0 -> -2 <= eq <= 0 ->
  35 * 10 ^ (- eh) < kh < 1000000 -> Z.abs kq < 1000000 ->
  exists r,
    calculer_rtt_annuels (mk_dec kh eh) (mk_dec kq eq) = Ok r
    /\ 2 * Z.abs (r * (kh * 10 ^ (- eq))
                  - (52 * kh - 1607 * 10 ^ (- eh)) * kq)
       <= kh * 10 ^ (- eq).
Proof.
  intros Heh Heq Hkh Hkq.
  destruct (Z_le_dec 0 kq) as [Hs | Hs].
  - apply rtt_proche_pos; lia.
  - destruct (rtt_proche_pos kh eh (- kq) eq Heh Heq Hkh ltac:(lia))
      as (r & Hr & Hp).
    exists (- r). split.
    + replace kq with (- - kq) by lia.
      rewrite calculer_rtt_annuels_opp, Hr. reflexivity.
    + set (D := kh * 10 ^ (- eq)) in *.
      set (E := 52 * kh - 1607 * 10 ^ (- eh)) in *.
      replace (- r * D - E * kq) with (- (r * D - E * - kq)) by ring.
      rewrite Z.abs_opp. exact Hp.
Qed.

End Signe.

Section Valeur.

Local Open Scope Q_scope.

Lemma Qpower_10_pos (n : Z) : 0 < 10 ^ n.
Proof. apply Qpower_0_lt. reflexivity. Qed.

(** The value of a decimal written at a lower exponent. *)
Lemma valeur_echelle c (e e0 : Z) :
  (e0 <= e)%Z ->
  valeur (mk_dec c e) == inject_Z (c * 10 ^ (e - e0)) * 10 ^ e0.
Proof.
  intros He. unfold valeur. cbn [coef expo].
  rewrite inject_Z_mult, Zpower_Qpower by lia.
  rewrite <- Qmult_assoc, <- Qpower_plus by discriminate.
  replace (e - e0 + e0)%Z with e by lia. reflexivity.
Qed.

(** The comparison of two decimals is the order of their values. *)
Lemma leb_valeur a b :
  Decimal.leb a b = true <-> valeur a <= valeur b.
Proof.
  destruct a as [ca ea], b as [cb eb].
  unfold Decimal.leb, cmp. cbn [coef expo].
  set (e := Z.min ea eb).
  rewrite (valeur_echelle ca ea e), (valeur_echelle cb eb e)
    by (unfold e; lia).
  set (A := (ca * 10 ^ (ea - e))%Z). set (B := (cb * 10 ^ (eb - e))%Z).
  pose proof (Qpower_10_pos e) as HP.
  assert (HA : (A <= B)%Z <-> inject_Z A * 10 ^ e <= inject_Z B * 10 ^ e).
  { split; intros H.
    - apply Qmult_le_compat_r; [| apply Qlt_le_weak; exact HP].
      rewrite <- Zle_Qle. exact H.
    - apply Qmult_lt_0_le_reg_r in H; [| exact HP].
      rewrite <- Zle_Qle in H. exact H. }
  rewrite <- HA. change ((A <=? B)%Z = true <-> (A <= B)%Z).
  apply Z.leb_le.
Qed.

Lemma leb_valeur_false a b :
  Decimal.leb a b = false <-> valeur b < valeur a.
Proof.
  rewrite <- not_true_iff_false, leb_valeur. split.
  - apply Qnot_le_lt.
  - apply Qlt_not_le.
Qed.

Lemma valeur_35 : valeur HEURES_SEMAINE_MIN == 35.
Proof. reflexivity. Qed.

End Valeur.

Section Formule.

Lemma au_dessus_de_35 kh eh :
  eh <= 0 -> (35 < valeur (mk_dec kh eh))%Q -> 35 * 10 ^ (- eh) < kh.
Proof.
  intros He H. rewrite <- valeur_35 in H. apply leb_valeur_false in H.
  rewrite leb_35 in H by exact He. apply Z.leb_gt in H. exact H.
Qed.

Lemma rtt_le_plus_proche h q :
  deux_decimales h -> deux_decimales q -> (35 < valeur h)%Q ->
  Decimal.leb (heures_supplementaires h) (of_int 0) = false
  /\ exists r,
       calculer_rtt_annuels h q = Ok r
       /\ entier_le_plus_proche r (rtt_exact h q).
Proof.
  destruct h as [kh eh], q as [kq eq]. unfold deux_decimales.
  cbn [coef expo]. intros [Heh Hkh] [Heq Hkq] H35.
  pose proof (au_dessus_de_35 kh eh ltac:(lia) H35) as Hh.
  assert (HP : 1 <= 10 ^ (- eh) <= 100).
  { split; [pose proof (pow10_pos (- eh) ltac:(lia)); lia |].
    change 100 with (10 ^ 2). apply pow10_mono. lia. }
  split.
  - rewrite heures_supplementaires_valeur by lia.
    rewrite leb_zero by lia. apply Z.leb_gt. lia.
  - destruct (rtt_proche kh eh kq eq Heh Heq ltac:(lia) Hkq)
      as (r & Hr & Hp).
    exists r. split; [exact Hr |].
    unfold entier_le_plus_proche.
    rewrite rtt_exact_quotient by lia.
    apply proche_quotient; [| exact Hp].
    pose proof (pow10_pos (- eq) ltac:(lia)). nia.
Qed.

End Formule.

(** * Main results *)

(** C1. [calculer_jours_fractionnement] returns 0 below 5 days, 1 from 5 to
    7 days and 2 from 8 days on; in particular 0 for 4, 1 for 5 and for 7,
    2 for 8 and for 100. *)
Theorem calculer_jours_fractionnement_seuils (n : Z) :
  (n < 5 -> calculer_jours_fractionnement n = 0)
  /\ (5 <= n <= 7 -> calculer_jours_fractionnement n = 1)
  /\ (8 <= n -> calculer_jours_fractionnement n = 2)
  /\ calculer_jours_fractionnement 4 = 0
  /\ calculer_jours_fractionnement 5 = 1
  /\ calculer_jours_fractionnement 7 = 1
  /\ calculer_jours_fractionnement 8 = 2
  /\ calculer_jours_fractionnement 100 = 2.
Proof.
  unfold calculer_jours_fractionnement.
  repeat split; try reflexivity; intros H.
  - replace (n <? 5) with true by lia. reflexivity.
  - replace (n <? 5) with false by lia.
    replace ((5 <=? n) && (n <=? 7)) with true by lia. reflexivity.
  - replace (n <? 5) with false by lia.
    replace ((5 <=? n) && (n <=? 7)) with false by lia. reflexivity.
Qed.

Lemma calculer_jours_fractionnement_seuils_witness :
  5 <= 6 <= 7 /\ calculer_jours_fractionnement 6 = 1.
Proof.
  split; [lia |].
  apply (proj1 (proj2 (calculer_jours_fractionnement_seuils 6))). lia.
Defined.

(** C2 (amended). For every day [D] other than [date.max] that the chosen
    mode counts and that is not in the list of holidays of the year used,
    [compter_jours_periode] from [D] to [D] returns 0.5 for morning to
    morning, 0.5 for afternoon to afternoon and 1 for morning to afternoon;
    from a Monday afternoon to the next day's morning, both days outside
    the holidays, it returns 1.0. *)
Theorem compter_jours_periode_demi_journees :
  (forall D mode ex annee,
      valid_date D -> D <> date_max ->
      est_compte_mode mode D = true ->
      non_exclu ex (annee_feries annee D) D ->
      retourne (compter_jours_periode D D mode ex annee "matin" "matin")
               (Ok (mk_dec 5 (-1)))
      /\ retourne (compter_jours_periode D D mode ex annee
                                         "apres_midi" "apres_midi")
                  (Ok (mk_dec 5 (-1)))
      /\ retourne (compter_jours_periode D D mode ex annee
                                         "matin" "apres_midi")
                  (Ok (of_int 1)))
  /\ (forall lundi mardi mode ex annee,
         valid_date lundi -> weekday lundi = 0 ->
         tomorrow lundi = Ok mardi ->
         non_exclu ex (annee_feries annee lundi) lundi ->
         non_exclu ex (annee_feries annee lundi) mardi ->
         retourne (compter_jours_periode lundi mardi mode ex annee
                                         "apres_midi" "matin")
                  (Ok (mk_dec 10 (-1))))
  /\ Decimal.eqb (of_int 1) (mk_dec 10 (-1)) = true.
Proof.
  split; [| split; [| reflexivity]].
  - intros D mode ex annee HD Hmax Hc Hn.
    pose proof (valeur_compteur_un (est_compte_mode mode) D ex
                  (Some (annee_feries annee D)) HD Hmax Hc Hn) as H1.
    repeat split.
    + exact (compter_jours_periode_bornes_comptees D D mode ex annee
               "matin" "matin" 1 HD HD H1 Hc Hc Hn Hn).
    + exact (compter_jours_periode_bornes_comptees D D mode ex annee
               "apres_midi" "apres_midi" 1 HD HD H1 Hc Hc Hn Hn).
    + exact (compter_jours_periode_bornes_comptees D D mode ex annee
               "matin" "apres_midi" 1 HD HD H1 Hc Hc Hn Hn).
  - intros lundi mardi mode ex annee Hl Hw Ht Hn Hn'.
    pose proof (tomorrow_valid _ _ Hl Ht) as Hm.
    pose proof (weekday_tomorrow _ _ Hl Ht) as Hw'. rewrite Hw in Hw'.
    change ((0 + 1) mod 7) with 1 in Hw'.
    assert (Cl : est_compte_mode mode lundi = true).
    { unfold est_compte_mode, est_jour_ouvrable, est_jour_ouvre.
      rewrite Hw. destruct (String.eqb mode "ouvrables"); reflexivity. }
    assert (Cm : est_compte_mode mode mardi = true).
    { unfold est_compte_mode, est_jour_ouvrable, est_jour_ouvre.
      rewrite Hw'. destruct (String.eqb mode "ouvrables"); reflexivity. }
    assert (Hmax : mardi <> date_max).
    { intros ->. discriminate Hw'. }
    refine (compter_jours_periode_bornes_comptees lundi mardi mode ex annee
              "apres_midi" "matin" 2 Hl Hm _ Cl Cm Hn Hn').
    apply valeur_compteur_deux; assumption.
Qed.

Lemma compter_jours_periode_demi_journees_witness :
  retourne (compter_jours_periode (mk_date 2024 7 1) (mk_date 2024 7 1)
                                  "ouvres" true (Some 2024) "matin" "matin")
           (Ok (mk_dec 5 (-1)))
  /\ retourne (compter_jours_periode (mk_date 2024 7 1) (mk_date 2024 7 2)
                                     "ouvres" true (Some 2024)
                                     "apres_midi" "matin")
              (Ok (mk_dec 10 (-1))).
Proof.
  split.
  - apply (proj1 compter_jours_periode_demi_journees
             (mk_date 2024 7 1) "ouvres" true (Some 2024)).
    + reflexivity.
    + discriminate.
    + reflexivity.
    + intros _. eexists. split; vm_compute; reflexivity.
  - apply (proj1 (proj2 compter_jours_periode_demi_journees)
             (mk_date 2024 7 1) (mk_date 2024 7 2) "ouvres" true (Some 2024)).
    + reflexivity.
    + reflexivity.
    + reflexivity.
    + intros _. eexists. split; vm_compute; reflexivity.
    + intros _. eexists. split; vm_compute; reflexivity.
Defined.

(** C2 as stated fails on the last day of the calendar: 31 December 9999
    is a Friday and not a public holiday, and the scan raises
    [OverflowError] when it steps past it. *)
Lemma compter_jours_periode_date_max :
  valid_date date_max
  /\ est_compte_mode "ouvres" date_max = true
  /\ (exists jf, calcul_jours_feries 9999 = Ok jf
                 /\ date_in date_max jf = false)
  /\ fst (compter_jours_periode date_max date_max "ouvres" true None
                                "matin" "matin" ∅)
     = Raise OverflowError
  /\ ~ retourne (compter_jours_periode date_max date_max "ouvres" true None
                                       "matin" "matin")
                (Ok (mk_dec 5 (-1))).
Proof.
  assert (E : fst (compter_jours_periode date_max date_max "ouvres" true
                                         None "matin" "matin" ∅)
              = Raise OverflowError) by (vm_compute; reflexivity).
  split; [reflexivity |]. split; [reflexivity |]. split; [| split].
  - eexists. split; vm_compute; reflexivity.
  - exact E.
  - intros H. apply retourne_vide in H. rewrite E in H. discriminate.
Qed.

(** C3. For a user whose table holds, as annual leave of 2024, the single
    period from Monday 4 November (morning) to Friday 8 November (morning),
    among any rows of other users, other years or other types of leave,
    [get_jours_hors_periode_principale] returns 4, the integer part of the
    sum 4.5, and the award is 0; once the period of Friday 8 November
    afternoon is added to the table, it returns 5 and the award is 1.  The
    table of parameters holds at most one row for the user and the year,
    as its uniqueness constraint requires. *)
Theorem scenario_novembre_2024 db user p1 autres :
  au_plus_un_parametre db user 2024 ->
  periode_du_4_au_8 p1 -> conge_annuel_de user 2024 p1 ->
  Forall (fun p => ~ conge_annuel_de user 2024 p) autres ->
  Permutation (periodes db) (p1 :: autres) ->
  ((exists jours_type,
       jours_type_service db user 2024 = Ok jours_type
       /\ retourne (somme_periodes (PeriodeConge_filter db user 2024 "annuel")
                                   jours_type 2024 (mk_dec 0 (-1)))
                   (Ok (mk_dec 45 (-1))))
   /\ Decimal.to_int (mk_dec 45 (-1)) = 4
   /\ retourne (get_jours_hors_periode_principale db user 2024) (Ok 4)
   /\ retourne (calculer_fractionnement_complet db user 2024)
               (Ok (mk_resultat 4 0 2024)))
  /\ (forall db' p2,
         periode_du_8 p2 -> conge_annuel_de user 2024 p2 ->
         parametres db' = parametres db ->
         Permutation (periodes db') (p2 :: periodes db) ->
         retourne (get_jours_hors_periode_principale db' user 2024) (Ok 5)
         /\ retourne (calculer_fractionnement_complet db' user 2024)
                     (Ok (mk_resultat 5 1 2024))).
Proof.
  intros Hu H1 C1 Ha Hp.
  pose proof (au_plus_un_parametre_get db user 2024 Hu) as Hpa.
  pose proof (PeriodeConge_filter_seul db user 2024 p1 autres C1 Ha Hp) as Hf.
  split.
  - pose proof (scenario_une_periode db user p1 Hpa H1 Hf) as H.
    split; [| split; [reflexivity | split; [exact H |]]].
    + destruct (jours_type_service_ok db user 2024 Hpa) as (jt & Hjt).
      exists jt. split; [exact Hjt |]. rewrite Hf.
      eapply somme_periodes_cons_retourne;
        [apply jours_hors_du_4_au_8; exact H1 | apply retourne_ret].
    + exact (calculer_fractionnement_complet_ok db user 2024 4 H).
  - intros db' p2 H2 C2 Epa Hp'.
    assert (Hpa' : ParametresAnnee_get db' user 2024
                   <> Raise MultipleObjectsReturned).
    { unfold ParametresAnnee_get. rewrite Epa. exact Hpa. }
    pose proof (PeriodeConge_filter_ajout db db' user 2024 p2 C2 Hp') as Hf'.
    rewrite Hf in Hf'.
    assert (H : retourne (get_jours_hors_periode_principale db' user 2024)
                         (Ok 5)).
    { apply (scenario_deux_periodes db' user p1 p2 Hpa' H1 H2).
      rewrite Hf'. apply perm_swap. }
    split; [exact H |].
    exact (calculer_fractionnement_complet_ok db' user 2024 5 H).
Qed.

Lemma scenario_novembre_2024_witness :
  let p1 := mk_periode 1 (mk_date 2024 11 4) "matin"
                       (mk_date 2024 11 8) "matin" "annuel" 2024 in
  let p2 := mk_periode 1 (mk_date 2024 11 8) "apres_midi"
                       (mk_date 2024 11 8) "apres_midi" "annuel" 2024 in
  let autre_agent := mk_periode 2 (mk_date 2024 11 12) "matin"
                                (mk_date 2024 11 22) "apres_midi"
                                "annuel" 2024 in
  let rtt := mk_periode 1 (mk_date 2024 12 2) "matin"
                        (mk_date 2024 12 6) "apres_midi" "rtt" 2024 in
  let autre_annee := mk_periode 1 (mk_date 2023 11 6) "matin"
                                (mk_date 2023 11 17) "apres_midi"
                                "annuel" 2023 in
  let ps := [mk_parametres 2 2024 "ouvrables"; mk_parametres 1 2023 "ouvres";
             mk_parametres 1 2024 "ouvrables"] in
  let db := mk_db [] ps [autre_agent; rtt; p1; autre_annee] in
  let db' := mk_db [] ps [autre_agent; rtt; p1; p2; autre_annee] in
  retourne (get_jours_hors_periode_principale db 1 2024) (Ok 4)
  /\ retourne (get_jours_hors_periode_principale db' 1 2024) (Ok 5).
Proof.
  intros p1 p2 autre_agent rtt autre_annee ps db db'.
  assert (Hu : au_plus_un_parametre db 1 2024).
  { intros [| [| [| i]]] [| [| [| j]]] x y Hi Hj; cbn in Hi, Hj;
      try discriminate; try reflexivity;
      injection Hi as <-; injection Hj as <-; cbn; intros; discriminate. }
  assert (H1 : periode_du_4_au_8 p1) by (repeat split; reflexivity).
  assert (C1 : conge_annuel_de 1 2024 p1) by (repeat split; reflexivity).
  assert (Ha : Forall (fun p => ~ conge_annuel_de 1 2024 p)
                      [autre_agent; rtt; autre_annee]).
  { repeat constructor; intros (Hu' & Hy & Ht); discriminate. }
  assert (Hp : Permutation (periodes db)
                           (p1 :: [autre_agent; rtt; autre_annee])).
  { cbn [periodes db]. symmetry.
    apply (Permutation_middle [autre_agent; rtt] [autre_annee] p1). }
  pose proof (scenario_novembre_2024 db 1 p1 _ Hu H1 C1 Ha Hp) as [A B].
  split; [exact (proj1 (proj2 (proj2 A))) |].
  apply (B db' p2).
  - repeat split; reflexivity.
  - repeat split; reflexivity.
  - reflexivity.
  - cbn [periodes db db']. symmetry.
    apply (Permutation_middle [autre_agent; rtt; p1] [autre_annee] p2).
Defined.

(** C4. Without a [ParametresAnnee] row, and for a year within the bounds,
    [get_jours_hors_periode_principale] does not raise: it counts with
    'ouvres', and no [CycleHebdomadaire] row changes what it does, whereas
    [PeriodeCongeForm.clean] resolves the convention through the cycle.
    For a user with a cycle in 'ouvrables', no parameters and Saturday
    9 November 2024 as annual leave, the form's convention counts one day
    and the service returns 0. *)
Theorem get_jours_hors_periode_principale_sans_parametres :
  (forall db user annee,
      ANNEE_MIN <= annee <= ANNEE_MAX ->
      ParametresAnnee_get db user annee = Raise DoesNotExist ->
      exists total,
        retourne (somme_periodes (PeriodeConge_filter db user annee "annuel")
                                 "ouvres" annee (mk_dec 0 (-1)))
                 (Ok total)
        /\ retourne (get_jours_hors_periode_principale db user annee)
                    (Ok (Decimal.to_int total)))
  /\ (forall cs cs' ps pcs user annee,
         get_jours_hors_periode_principale (mk_db cs ps pcs) user annee
         = get_jours_hors_periode_principale (mk_db cs' ps pcs) user annee)
  /\ (let samedi := mk_date 2024 11 9 in
      let db := mk_db [mk_cycle 1 2024 (mk_dec 35 0) (mk_dec 10 (-1))
                                "ouvrables"]
                      []
                      [mk_periode 1 samedi "matin" samedi "apres_midi"
                                  "annuel" 2024] in
      PeriodeCongeForm_jours_type db 1 2024 = Ok "ouvrables"
      /\ fst (compter_jours_periode samedi samedi "ouvrables" true
                                    (Some 2024) "matin" "apres_midi" ∅)
         = Ok (of_int 1)
      /\ fst (get_jours_hors_periode_principale db 1 2024 ∅) = Ok 0).
Proof.
  split; [| split].
  - intros db user annee Hy Hpa.
    assert (Hjt : jours_type_service db user annee = Ok "ouvres").
    { unfold jours_type_service. rewrite Hpa. reflexivity. }
    destruct (somme_periodes_retourne
                (PeriodeConge_filter db user annee "annuel") "ouvres" annee
                (mk_dec 0 (-1))) as (v & Hv & _).
    exists v. split; [exact Hv |].
    exact (get_jours_hors_periode_principale_retourne db user annee
             "ouvres" v Hy Hjt Hv).
  - reflexivity.
  - cbv zeta. repeat split; vm_compute; reflexivity.
Qed.

Lemma get_jours_hors_periode_principale_sans_parametres_witness :
  exists total,
    retourne (get_jours_hors_periode_principale
                (mk_db [mk_cycle 1 2024 (mk_dec 35 0) (mk_dec 10 (-1))
                                 "ouvrables"] [] []) 1 2024)
             (Ok (Decimal.to_int total)).
Proof.
  destruct (proj1 get_jours_hors_periode_principale_sans_parametres
              (mk_db [mk_cycle 1 2024 (mk_dec 35 0) (mk_dec 10 (-1))
                               "ouvrables"] [] []) 1 2024
              ltac:(unfold ANNEE_MIN, ANNEE_MAX; lia) eq_refl)
    as (total & _ & H).
  exists total. exact H.
Defined.

(** C5 (amended). For every year from 1 to 9999, the years that [date]
    accepts, [calculer_paques] returns the date of that year whose month
    and day are those of the Gauss congruences; Easter falls on 31 March in
    2024 and on 20 April in 2025. *)
Theorem calculer_paques_gauss_date (annee : Z) :
  (1 <= annee <= 9999 ->
   calculer_paques annee
   = Ok (mk_date annee (gauss_month annee) (gauss_day annee)))
  /\ calculer_paques 2024 = Ok (mk_date 2024 3 31)
  /\ calculer_paques 2025 = Ok (mk_date 2025 4 20).
Proof.
  split; [intros Hy; apply calculer_paques_ok; exact Hy |].
  split; reflexivity.
Qed.

Lemma calculer_paques_gauss_date_witness :
  1 <= 2038 <= 9999
  /\ calculer_paques 2038
     = Ok (mk_date 2038 (gauss_month 2038) (gauss_day 2038)).
Proof.
  split; [lia |].
  apply (proj1 (calculer_paques_gauss_date 2038)). lia.
Defined.

(** C5 as stated fails for the years that [date] refuses: for the year 0
    and for the year 10001 the congruences give 9 April and 8 April, and
    [calculer_paques] raises instead of returning that date. *)
Lemma calculer_paques_hors_calendrier :
  (gauss_month 0 = 4 /\ gauss_day 0 = 9
   /\ calculer_paques 0 = Raise ValueError
   /\ calculer_paques 0 <> Ok (mk_date 0 4 9))
  /\ (gauss_month 10001 = 4 /\ gauss_day 10001 = 8
      /\ calculer_paques 10001 = Raise ValueError
      /\ calculer_paques 10001 <> Ok (mk_date 10001 4 8)).
Proof. repeat split; try reflexivity; discriminate. Qed.

(** C6 (amended). For every year from 1 to 9999, [get_jours_feries] returns
    a sorted list of exactly 12 entries, all within the year: the 8 fixed
    dates and Easter Sunday, Easter Monday (+1 day), Ascension (+39 days)
    and Whit Monday (+50 days); 1 January is among them.  The entries are
    pairwise distinct unless Easter falls on 23 March (Ascension is then
    1 May) or on 30 March (Ascension is then 8 May). *)
Theorem get_jours_feries_douze annee :
  1 <= annee <= 9999 ->
  exists l paques lundi ascension pentecote,
    retourne (get_jours_feries annee) (Ok l)
    /\ calculer_paques annee = Ok paques
    /\ date_add paques 1 = Ok lundi
    /\ date_add paques 39 = Ok ascension
    /\ date_add paques 50 = Ok pentecote
    /\ Permutation l (jours_feries_fixes annee
                      ++ [paques; lundi; ascension; pentecote])
    /\ StronglySorted date_le l
    /\ length l = 12%nat
    /\ Forall (fun d => year d = annee) l
    /\ In (mk_date annee 1 1) l
    /\ (List.NoDup l <-> paques <> mk_date annee 3 23
                         /\ paques <> mk_date annee 3 30).
Proof.
  intros Hy.
  destruct (calcul_jours_feries_ok annee Hy)
    as (lundi & asc & pent & Hp & E1 & E39 & E50 & Hv & O1 & O39 & O50 & Hl).
  set (paques := mk_date annee (gauss_month annee) (gauss_day annee)) in *.
  set (L := jours_feries_fixes annee ++ [paques; lundi; asc; pent]) in *.
  assert (HP : Permutation (sorted L) L) by apply sorted_perm.
  apply List.Forall_cons_iff in Hv as [Vp Hv].
  apply List.Forall_cons_iff in Hv as [V1 Hv].
  apply List.Forall_cons_iff in Hv as [V39 Hv].
  apply List.Forall_cons_iff in Hv as [V50 _].
  pose proof (paques_jour_annee annee) as Hk. cbv zeta in Hk.
  assert (Op : toordinal paques
               = days_before_year annee
                 + (days_before_month annee (gauss_month annee)
                    + gauss_day annee)).
  { unfold paques. rewrite toordinal_in_year. lia. }
  remember (days_before_month annee (gauss_month annee) + gauss_day annee)
    as k eqn:Ek.
  assert (HY : Forall (fun d => year d = annee) L).
  { apply annee_jours_feries; try assumption.
    repeat constructor; assumption. }
  exists (sorted L), paques, lundi, asc, pent.
  repeat match goal with |- _ /\ _ => split end; try assumption.
  - rewrite <- Hl. apply retourne_get_jours_feries.
  - apply sorted_sorted.
  - rewrite (Permutation_length HP). reflexivity.
  - eapply Permutation_Forall; [symmetry; exact HP | exact HY].
  - eapply Permutation_in; [symmetry; exact HP |]. left. reflexivity.
  - rewrite HP. split.
    + intros Hnd. pose proof (NoDup_app_disjoint _ _ Hnd) as Hdis.
      split; intros Heq.
      * apply (Hdis (mk_date annee 5 1)); [cbn; tauto |].
        right. right. left.
        apply toordinal_inj; [assumption | apply valid_fixe; lia |].
        rewrite O39, Heq, !toordinal_in_year. unfold days_before_month.
        generalize (is_leap annee); intros [|]; cbn; lia.
      * apply (Hdis (mk_date annee 5 8)); [cbn; tauto |].
        right. right. left.
        apply toordinal_inj; [assumption | apply valid_fixe; lia |].
        rewrite O39, Heq, !toordinal_in_year. unfold days_before_month.
        generalize (is_leap annee); intros [|]; cbn; lia.
    + intros [H23 H30].
      assert (K23 : k <> 82 + (if is_leap annee then 1 else 0)).
      { intros Hk23. apply H23.
        apply toordinal_inj; [assumption | apply valid_fixe; lia |].
        rewrite Op, Hk23, toordinal_in_year. unfold days_before_month.
        generalize (is_leap annee); intros [|]; cbn; lia. }
      assert (K30 : k <> 89 + (if is_leap annee then 1 else 0)).
      { intros Hk30. apply H30.
        apply toordinal_inj; [assumption | apply valid_fixe; lia |].
        rewrite Op, Hk30, toordinal_in_year. unfold days_before_month.
        generalize (is_leap annee); intros [|]; cbn; lia. }
      apply NoDup_of_ordinals. unfold L, jours_feries_fixes.
      cbn [List.map app]. rewrite O1, O39, O50, Op, !toordinal_in_year.
      unfold days_before_month. clear -Hk K23 K30.
      generalize dependent (days_before_year annee). intros o.
      generalize dependent (is_leap annee).
      intros [|] Hk K23 K30; cbn;
        repeat (apply List.NoDup_cons; [cbn [In]; lia |]);
        apply List.NoDup_nil.
Qed.

Lemma get_jours_feries_douze_witness :
  1 <= 2024 <= 9999
  /\ exists l,
      retourne (get_jours_feries 2024) (Ok l) /\ length l = 12%nat
      /\ In (mk_date 2024 1 1) l.
Proof.
  split; [lia |].
  destruct (get_jours_feries_douze 2024 ltac:(lia))
    as (l & p & l1 & a & pe & Hr & _ & _ & _ & _ & _ & _ & Hl & _ & Hi & _).
  exists l. auto.
Defined.

(** C6 as stated fails in 2008 and in 2059: Ascension falls on 1 May 2008
    and on 8 May 2059, the list holds that date twice and only 11 distinct
    dates. *)
Lemma get_jours_feries_2008_2059 :
  (exists l, fst (get_jours_feries 2008 ∅) = Ok l
             /\ In (mk_date 2008 5 1) (jours_feries_fixes 2008)
             /\ date_add (mk_date 2008 3 23) 39 = Ok (mk_date 2008 5 1)
             /\ ~ List.NoDup l
             /\ length (dates_distinctes l) = 11%nat)
  /\ (exists l, fst (get_jours_feries 2059 ∅) = Ok l
                /\ In (mk_date 2059 5 8) (jours_feries_fixes 2059)
                /\ date_add (mk_date 2059 3 30) 39 = Ok (mk_date 2059 5 8)
                /\ ~ List.NoDup l
                /\ length (dates_distinctes l) = 11%nat).
Proof.
  split; eexists; (split; [vm_compute; reflexivity |]);
    (split; [cbn; tauto |]); (split; [reflexivity |]);
    (split; [| reflexivity]); intros H.
  - do 3 (apply List.NoDup_cons_iff in H as [_ H]).
    apply List.NoDup_cons_iff in H as [H _]. apply H. left. reflexivity.
  - do 4 (apply List.NoDup_cons_iff in H as [_ H]).
    apply List.NoDup_cons_iff in H as [H _]. apply H. left. reflexivity.
Qed.

(** C7. [get_jours_hors_periode_principale] raises [ValueError] exactly
    when the year is below 2020 or above 2100, and
    [calculer_fractionnement_complet] raises whatever it raises. *)
Theorem annee_invalide db user annee (c : cache) :
  (fst (get_jours_hors_periode_principale db user annee c) = Raise ValueError
   <-> annee < 2020 \/ 2100 < annee)
  /\ (forall e,
         fst (get_jours_hors_periode_principale db user annee c) = Raise e ->
         fst (calculer_fractionnement_complet db user annee c) = Raise e)
  /\ (fst (calculer_fractionnement_complet db user annee c)
      = Raise ValueError
      <-> annee < 2020 \/ 2100 < annee).
Proof.
  assert (H1 : fst (get_jours_hors_periode_principale db user annee c)
               = Raise ValueError <-> annee < 2020 \/ 2100 < annee).
  { split.
    - intros H.
      destruct (get_jours_hors_periode_principale_raises _ _ _ _ _ H)
        as [[_ Hy] | [He _]]; [exact Hy | discriminate].
    - intros H.
      rewrite get_jours_hors_periode_principale_annee_invalide
        by exact H.
      reflexivity. }
  split; [exact H1 |]. split.
  - intros e. apply calculer_fractionnement_complet_propage.
  - rewrite <- H1. split.
    + intros H.
      destruct (fst (get_jours_hors_periode_principale db user annee c))
        as [n | e] eqn:E.
      * rewrite (calculer_fractionnement_complet_retourne _ _ _ _ _ E) in H.
        discriminate.
      * rewrite (calculer_fractionnement_complet_propage _ _ _ _ _ E) in H.
        injection H as ->. reflexivity.
    + apply calculer_fractionnement_complet_propage.
Qed.

(** C8. With [exclure_feries=True] and an explicit year, the two counters
    leave out the public holidays of that year and no other date: over a
    range from [a] to [b >= a] they return the number of days of the range
    that pass the weekday test and are not in the list of that year (or
    raise what the list raises, or [OverflowError] when [b] is the last
    day of the calendar).  A date of another year is never in the list;
    from 20 December of [annee] to 5 January of the next year, 1 January
    is counted whenever it passes the weekday test. *)
Theorem compter_jours_feries_d_une_seule_annee :
  (forall a b annee,
      valid_date a -> valid_date b -> date_leb a b = true ->
      let valeur est_compte :=
        match calcul_jours_feries annee with
        | Ok jf =>
            if date_eqb b date_max then Raise OverflowError
            else Ok (nombre_jours est_compte jf (jours_de_la_plage a b))
        | Raise e => Raise e
        end in
      retourne (compter_jours_ouvres a b true (Some annee))
               (valeur est_jour_ouvre)
      /\ retourne (compter_jours_ouvrables a b true (Some annee))
                  (valeur est_jour_ouvrable))
  /\ (forall annee jf d,
         calcul_jours_feries annee = Ok jf -> year d <> annee ->
         date_in d jf = false)
  /\ (forall annee,
         1 <= annee <= 9998 ->
         exists jf,
           calcul_jours_feries annee = Ok jf
           /\ date_in (mk_date (annee + 1) 1 1) jf = false
           /\ let valeur est_compte :=
                Ok (nombre_jours est_compte jf
                      (jours_de_la_plage (mk_date annee 12 20)
                                         (mk_date annee 12 31))
                    + (if est_compte (mk_date (annee + 1) 1 1)
                       then 1 else 0)
                    + nombre_jours est_compte []
                        (jours_de_la_plage (mk_date (annee + 1) 1 2)
                                           (mk_date (annee + 1) 1 5))) in
              retourne (compter_jours_ouvres
                          (mk_date annee 12 20) (mk_date (annee + 1) 1 5)
                          true (Some annee))
                       (valeur est_jour_ouvre)
              /\ retourne (compter_jours_ouvrables
                             (mk_date annee 12 20) (mk_date (annee + 1) 1 5)
                             true (Some annee))
                          (valeur est_jour_ouvrable)).
Proof.
  split; [| split].
  - intros a b annee Ha Hb Hab valeur.
    assert (E : forall P, valeur_compteur P a b true (Some annee)
                          = valeur P).
    { intros P. unfold valeur_compteur, valeur. cbn [annee_feries].
      destruct (calcul_jours_feries annee); cbn [rbind]; [| reflexivity].
      rewrite Hab. reflexivity. }
    split; rewrite <- E.
    + apply compter_jours_ouvres_retourne; assumption.
    + apply compter_jours_ouvrables_retourne; assumption.
  - intros annee jf d Hjf Hd.
    apply (date_in_autre_annee annee); [| exact Hd].
    apply calcul_jours_feries_annee; exact Hjf.
  - intros annee Hy.
    destruct (calcul_jours_feries_ok annee ltac:(lia))
      as (l1 & a & p & _ & _ & _ & _ & _ & _ & _ & _ & Hjf).
    eexists. split; [exact Hjf |]. split.
    + apply (date_in_autre_annee annee);
        [apply calcul_jours_feries_annee; exact Hjf | cbn; lia].
    + intros valeur.
      assert (Va : valid_date (mk_date annee 12 20))
        by (apply valid_fixe; lia).
      assert (Vb : valid_date (mk_date (annee + 1) 1 5))
        by (apply valid_fixe; lia).
      split; unfold valeur;
        rewrite <- (valeur_compteur_fin_d_annee _ annee _ Hy Hjf).
      * apply compter_jours_ouvres_retourne; assumption.
      * apply compter_jours_ouvrables_retourne; assumption.
Qed.

Lemma compter_jours_feries_d_une_seule_annee_witness :
  exists jf,
    calcul_jours_feries 2024 = Ok jf
    /\ date_in (mk_date 2025 1 1) jf = false
    /\ retourne (compter_jours_ouvres (mk_date 2024 12 20)
                                      (mk_date 2025 1 5) true (Some 2024))
                (Ok 10).
Proof.
  destruct (proj2 (proj2 compter_jours_feries_d_une_seule_annee) 2024
              ltac:(lia)) as (jf & Hjf & Hin & H & _).
  exists jf. split; [exact Hjf |]. split; [exact Hin |].
  assert (E : jf = match calcul_jours_feries 2024 with
                   | Ok l => l
                   | Raise _ => []
                   end) by (rewrite Hjf; reflexivity).
  vm_compute in E. subst jf. exact H.
Defined.

(** C9 (amended). [calculer_rtt_annuels] returns 0 for every number of
    weekly hours up to 35.  Above 35 hours, for hours and a quota written
    with at most two decimals and at most six digits, the hours beyond 1607
    are positive, so that the second [return 0] is never reached, and the
    result is an integer nearest to the exact value of
    [(52 h - 1607) / h * q]: it is within one half of it.  It gives 11 for 39 hours at full quota, and
    above 35 hours no less at quota 1.0 than at quota 0.5. *)
Theorem calculer_rtt_annuels_formule :
  (forall h q,
      (valeur h <= 35)%Q -> calculer_rtt_annuels h q = Ok 0)
  /\ (forall h q,
         deux_decimales h -> deux_decimales q -> (35 < valeur h)%Q ->
         Decimal.leb (heures_supplementaires h) (of_int 0) = false
         /\ exists r,
              calculer_rtt_annuels h q = Ok r
              /\ entier_le_plus_proche r (rtt_exact h q))
  /\ calculer_rtt_annuels (of_int 39) (mk_dec 10 (-1)) = Ok 11
  /\ (forall h,
         deux_decimales h -> (35 < valeur h)%Q ->
         exists r1 r05,
           calculer_rtt_annuels h (mk_dec 10 (-1)) = Ok r1
           /\ calculer_rtt_annuels h (mk_dec 5 (-1)) = Ok r05
           /\ r05 <= r1).
Proof.
  split; [| split; [| split]].
  - intros h q H. rewrite <- valeur_35 in H. apply leb_valeur in H.
    unfold calculer_rtt_annuels. rewrite H. reflexivity.
  - exact rtt_le_plus_proche.
  - reflexivity.
  - intros h _ H. rewrite <- valeur_35 in H. apply leb_valeur_false in H.
    apply calculer_rtt_annuels_quotite. exact H.
Qed.

Lemma calculer_rtt_annuels_formule_witness :
  exists r,
    calculer_rtt_annuels (mk_dec 375 (-1)) (mk_dec 80 (-2)) = Ok r
    /\ entier_le_plus_proche r (rtt_exact (mk_dec 375 (-1)) (mk_dec 80 (-2))).
Proof.
  apply (proj1 (proj2 calculer_rtt_annuels_formule)
           (mk_dec 375 (-1)) (mk_dec 80 (-2))).
  - split; cbn; lia.
  - split; cbn; lia.
  - reflexivity.
Defined.

(** C9 as stated fails for a quota of 28 digits: the quotient and the
    product are each rounded to 28 significant digits before [round], and
    for 39 hours and the quota 0.5095011876484560570071258908 the function
    returns 5 whereas the exact value is above 5.5, nearest to 6. *)
Lemma calculer_rtt_annuels_double_arrondi :
  let h := of_int 39 in
  let q := mk_dec 5095011876484560570071258908 (-28) in
  calculer_rtt_annuels h q = Ok 5
  /\ (11 # 2 < rtt_exact h q)%Q
  /\ ~ entier_le_plus_proche 5 (rtt_exact h q)
  /\ entier_le_plus_proche 6 (rtt_exact h q).
Proof.
  cbv zeta. split; [vm_compute; reflexivity |].
  split; [vm_compute; reflexivity |]. split.
  - intros H. vm_compute in H. apply H. reflexivity.
  - vm_compute. discriminate.
Qed.

(** C10 (amended). For every integer year the Gauss month is 3 or 4 and the
    day is a day of that month, from 22 to 31 in March and from 1 to 25 in
    April; the construction of the date at the end of [calculer_paques]
    succeeds exactly for the years from 1 to 9999: for every other year it
    raises and no date is returned. *)
Theorem calculer_paques_total (annee : Z) :
  ((gauss_month annee = 3 /\ 22 <= gauss_day annee <= 31)
   \/ (gauss_month annee = 4 /\ 1 <= gauss_day annee <= 25))
  /\ 1 <= gauss_day annee <= days_in_month annee (gauss_month annee)
  /\ (1 <= annee <= 9999 ->
      calculer_paques annee
      = Ok (mk_date annee (gauss_month annee) (gauss_day annee)))
  /\ (~ (1 <= annee <= 9999) -> exists e, calculer_paques annee = Raise e).
Proof.
  split; [apply gauss_month_day |]. split; [| split].
  - destruct (gauss_month_day annee) as [[-> Hd] | [-> Hd]];
      [change (days_in_month annee 3) with 31
      | change (days_in_month annee 4) with 30]; lia.
  - intros Hy. apply calculer_paques_ok; exact Hy.
  - intros Hy. rewrite calculer_paques_gauss. eexists.
    apply new_date_year_out; [exact Hy | |];
      unfold c_int, INT_MIN, INT_MAX;
      destruct (gauss_month_day annee) as [[Hm Hd] | [Hm Hd]]; lia.
Qed.

Lemma calculer_paques_total_witness :
  1 <= 2024 <= 9999 /\ calculer_paques 2024 = Ok (mk_date 2024 3 31).
Proof.
  split; [lia |].
  apply (proj1 (proj2 (proj2 (calculer_paques_total 2024)))). lia.
Defined.

(** C10 as stated fails from the year 10000 on: the month and the day are
    those of 16 April, and [date] refuses the year. *)
Lemma calculer_paques_10000 :
  0 < 10000
  /\ gauss_month 10000 = 4 /\ gauss_day 10000 = 16
  /\ calculer_paques 10000 = Raise ValueError.
Proof. repeat split; reflexivity. Qed.

(** * Further results *)

(** X1. [est_dans_periode_principale] holds of a date exactly from 1 May to
    31 October of its year, that is when its month is from 5 to 10, and
    [est_hors_periode_principale] exactly in the other months, January to
    April and November to December. *)
Theorem est_dans_periode_principale_mai_octobre d :
  valid_date d ->
  est_dans_periode_principale d
  = date_leb (mk_date (year d) 5 1) d && date_leb d (mk_date (year d) 10 31)
  /\ (est_dans_periode_principale d = true <-> 5 <= month d <= 10)
  /\ (est_hors_periode_principale d = true
      <-> month d <= 4 \/ 11 <= month d).
Proof.
  intros Hd. apply valid_date_iff in Hd.
  pose proof (days_in_month_bounds (year d) (month d)).
  unfold est_hors_periode_principale, est_dans_periode_principale,
    date_leb, date_ltb, date_eqb.
  cbn [year month day].
  destruct ((month d =? 5) && (1 <=? day d)) eqn:E1;
    [| destruct ((6 <=? month d) && (month d <=? 9)) eqn:E2;
       [| destruct ((month d =? 10) && (day d <=? 31)) eqn:E3]];
    cbn [negb]; lia.
Qed.

Lemma est_dans_periode_principale_mai_octobre_witness :
  est_dans_periode_principale (mk_date 2024 10 31) = true
  /\ est_hors_periode_principale (mk_date 2024 11 1) = true.
Proof.
  split.
  - apply (est_dans_periode_principale_mai_octobre (mk_date 2024 10 31));
      [reflexivity | cbn; lia].
  - apply (est_dans_periode_principale_mai_octobre (mk_date 2024 11 1));
      [reflexivity | cbn; lia].
Defined.

(** X2. For every year from 1 to 9999, the date that [calculer_paques]
    returns is a Sunday, from 22 March to 25 April of that year; neither
    [est_jour_ouvre] nor [est_jour_ouvrable] holds of it. *)
Theorem calculer_paques_dimanche annee :
  1 <= annee <= 9999 ->
  exists paques,
    calculer_paques annee = Ok paques
    /\ weekday paques = 6
    /\ est_jour_ouvre paques = false
    /\ est_jour_ouvrable paques = false
    /\ date_leb (mk_date annee 3 22) paques = true
    /\ date_leb paques (mk_date annee 4 25) = true.
Proof.
  intros Hy. exists (dimanche_de_paques annee).
  destruct (calculer_paques_ok annee Hy) as [E _].
  pose proof (paques_un_dimanche annee Hy) as Hw.
  destruct (paques_mars_avril annee Hy) as [H1 H2].
  unfold est_jour_ouvre, est_jour_ouvrable. rewrite Hw.
  repeat split; auto.
Qed.

Lemma calculer_paques_dimanche_witness :
  exists paques,
    calculer_paques 2024 = Ok paques /\ weekday paques = 6.
Proof.
  destruct (calculer_paques_dimanche 2024 ltac:(lia))
    as (p & E & Hw & _).
  exists p. split; assumption.
Defined.

(** X3. For every year from 1 to 9999, [get_jours_feries_variables] returns
    five dates of that year: Good Friday two days before Easter Sunday,
    Easter Sunday, and the days 1, 39 and 50 days after it, which fall on a
    Friday, a Sunday, a Monday, a Thursday and a Monday.  Good Friday is
    never in the list that [get_jours_feries] returns for the year; the four
    other dates always are. *)
Theorem get_jours_feries_variables_annee annee :
  1 <= annee <= 9999 ->
  exists vendredi paques lundi ascension pentecote jf,
    get_jours_feries_variables annee
    = Ok [vendredi; paques; lundi; ascension; pentecote]
    /\ retourne (get_jours_feries annee) (Ok jf)
    /\ Forall (fun d => valid_date d /\ year d = annee)
              [vendredi; paques; lundi; ascension; pentecote]
    /\ toordinal vendredi = toordinal paques - 2
    /\ toordinal lundi = toordinal paques + 1
    /\ toordinal ascension = toordinal paques + 39
    /\ toordinal pentecote = toordinal paques + 50
    /\ weekday vendredi = 4 /\ weekday paques = 6 /\ weekday lundi = 0
    /\ weekday ascension = 3 /\ weekday pentecote = 0
    /\ date_in vendredi jf = false
    /\ Forall (fun d => date_in d jf = true)
              [paques; lundi; ascension; pentecote].
Proof.
  intros Hy.
  destruct (calcul_jours_feries_ok annee Hy)
    as (l & a & p & Ep & El & Ea & Epe & Hv & Hol & Hoa & Hop & Ejf).
  fold (dimanche_de_paques annee) in *.
  destruct (vendredi_saint_ok annee Hy) as (v & Ev & Hvv & Hyv & Hov).
  pose proof (paques_un_dimanche annee Hy) as Hw.
  pose proof (annee_jours_feries annee l a p Hy Hv Hol Hoa Hop) as Han.
  fold (dimanche_de_paques annee) in Han.
  apply Forall_app in Han as [_ Han].
  exists v, (dimanche_de_paques annee), l, a, p,
    (sorted (jours_feries_fixes annee
             ++ [dimanche_de_paques annee; l; a; p])).
  split.
  { unfold get_jours_feries_variables. rewrite Ep. cbn [rbind].
    rewrite Ev. cbn [rbind]. rewrite El. cbn [rbind]. rewrite Ea.
    cbn [rbind]. rewrite Epe. reflexivity. }
  split.
  { rewrite <- Ejf. apply retourne_get_jours_feries. }
  split.
  { constructor; [split; assumption |].
    apply List.Forall_forall. intros d Hd. split.
    - rewrite List.Forall_forall in Hv. apply Hv, Hd.
    - rewrite List.Forall_forall in Han. apply Han, Hd. }
  do 4 (split; [assumption |]).
  split.
  { rewrite (weekday_of_ordinal (dimanche_de_paques annee) v (-2))
      by lia. rewrite Hw. reflexivity. }
  split; [exact Hw |].
  split.
  { rewrite (weekday_of_ordinal _ l 1 Hol). rewrite Hw. reflexivity. }
  split.
  { rewrite (weekday_of_ordinal _ a 39 Hoa). rewrite Hw. reflexivity. }
  split.
  { rewrite (weekday_of_ordinal _ p 50 Hop). rewrite Hw. reflexivity. }
  split.
  - apply date_in_false. intros Hin.
    apply (Permutation_in _ (sorted_perm _)) in Hin.
    pose proof (paques_jour_annee annee) as Hj. cbv zeta in Hj.
    pose proof (toordinal_in_year annee (gauss_month annee)
                                  (gauss_day annee)) as Ho.
    fold (dimanche_de_paques annee) in Ho.
    apply in_app_or in Hin as [Hin | Hin].
    + unfold jours_feries_fixes in Hin. cbn [In] in Hin.
      repeat (destruct Hin as [Hin | Hin];
              [subst v; rewrite toordinal_in_year in Hov;
               unfold days_before_month in Hov;
               destruct (is_leap annee); cbn in Hov; lia |]).
      exact Hin.
    + cbn [In] in Hin.
      repeat (destruct Hin as [Hin | Hin]; [subst v; lia |]).
      exact Hin.
  - apply List.Forall_forall. intros d Hd. apply date_in_In.
    apply (Permutation_in _ (Permutation_sym (sorted_perm _))).
    apply in_or_app. right. exact Hd.
Qed.

Lemma get_jours_feries_variables_annee_witness :
  exists l, get_jours_feries_variables 2024 = Ok l /\ length l = 5%nat.
Proof.
  destruct (get_jours_feries_variables_annee 2024 ltac:(lia))
    as (v & p & l & a & pe & jf & E & _).
  eexists. split; [exact E | reflexivity].
Defined.

(** X5. Over any range, whether the holidays are left out or not, when
    [compter_jours_ouvres] returns [n], [compter_jours_ouvrables] returns
    some [m] with [0 <= n <= m]; [m] is at most the number of days of the
    range, and [m - n] is the number of Saturdays of the range that are not
    left out as holidays. *)
Theorem compter_jours_ouvres_ouvrables a b ex annee n :
  valid_date a -> valid_date b ->
  retourne (compter_jours_ouvres a b ex annee) (Ok n) ->
  exists m jf,
    retourne (compter_jours_ouvrables a b ex annee) (Ok m)
    /\ (if ex then calcul_jours_feries (annee_feries annee a) else Ok [])
       = Ok jf
    /\ 0 <= n <= m
    /\ m <= Z.max 0 (toordinal b - toordinal a + 1)
    /\ m - n = nombre_jours (fun d => weekday d =? 5) jf
                            (jours_de_la_plage a b).
Proof.
  intros Ha Hb Hn.
  pose proof (retourne_fun _ _ _ Hn
                (compter_jours_ouvres_retourne a b ex annee Ha Hb)) as E.
  symmetry in E.
  destruct (valeur_compteur_Ok _ _ _ _ _ _ Ha Hb E) as (jf & Ejf & -> & Hm).
  exists (nombre_jours est_jour_ouvrable jf (jours_de_la_plage a b)), jf.
  split.
  { rewrite <- (valeur_compteur_of est_jour_ouvrable a b ex annee jf)
      by assumption.
    apply compter_jours_ouvrables_retourne; assumption. }
  split; [exact Ejf |].
  pose proof (nombre_jours_partition est_jour_ouvre est_jour_ouvrable
                (fun d => weekday d =? 5) jf (jours_de_la_plage a b)
                ouvrable_ouvre_samedi ouvre_pas_samedi) as Hp.
  pose proof (nombre_jours_bounds est_jour_ouvre jf (jours_de_la_plage a b)).
  pose proof (nombre_jours_bounds est_jour_ouvrable jf
                (jours_de_la_plage a b)).
  pose proof (nombre_jours_bounds (fun d => weekday d =? 5) jf
                (jours_de_la_plage a b)).
  pose proof (jours_de_la_plage_length a b).
  lia.
Qed.

Lemma compter_jours_ouvres_ouvrables_witness :
  exists m,
    retourne (compter_jours_ouvrables (mk_date 2024 11 4) (mk_date 2024 11 10)
                                      false None) (Ok m)
    /\ 0 <= 5 <= m.
Proof.
  destruct (compter_jours_ouvres_ouvrables
              (mk_date 2024 11 4) (mk_date 2024 11 10) false None 5)
    as (m & jf & Hm & _ & Hle & _).
  - reflexivity.
  - reflexivity.
  - exact (compter_jours_ouvres_retourne
             (mk_date 2024 11 4) (mk_date 2024 11 10) false None
             eq_refl eq_refl).
  - exists m. split; assumption.
Defined.

(** X6. Leaving out the public holidays of a year never raises a count and
    lowers it by at most 12: when a counter returns [n] with
    [exclure_feries=True], it returns with [exclure_feries=False] some [n0]
    from [n] to [n + 12]. *)
Theorem exclure_feries_au_plus_douze a b annee :
  valid_date a -> valid_date b ->
  (forall n,
      retourne (compter_jours_ouvres a b true (Some annee)) (Ok n) ->
      exists n0,
        retourne (compter_jours_ouvres a b false (Some annee)) (Ok n0)
        /\ n <= n0 <= n + 12)
  /\ (forall n,
         retourne (compter_jours_ouvrables a b true (Some annee)) (Ok n) ->
         exists n0,
           retourne (compter_jours_ouvrables a b false (Some annee)) (Ok n0)
           /\ n <= n0 <= n + 12).
Proof.
  intros Ha Hb. split; intros n Hn.
  - pose proof (retourne_fun _ _ _ Hn
                  (compter_jours_ouvres_retourne a b true (Some annee) Ha Hb))
      as E. symmetry in E.
    destruct (compteur_sans_feries _ _ _ _ _ Ha Hb E) as (n0 & E0 & Hle).
    exists n0. split; [| exact Hle]. rewrite <- E0.
    apply compter_jours_ouvres_retourne; assumption.
  - pose proof (retourne_fun _ _ _ Hn
                  (compter_jours_ouvrables_retourne a b true (Some annee)
                                                    Ha Hb))
      as E. symmetry in E.
    destruct (compteur_sans_feries _ _ _ _ _ Ha Hb E) as (n0 & E0 & Hle).
    exists n0. split; [| exact Hle]. rewrite <- E0.
    apply compter_jours_ouvrables_retourne; assumption.
Qed.

Lemma exclure_feries_au_plus_douze_witness :
  exists n0,
    retourne (compter_jours_ouvres (mk_date 2024 1 1) (mk_date 2024 12 31)
                                   false (Some 2024)) (Ok n0)
    /\ 252 <= n0 <= 252 + 12.
Proof.
  apply (exclure_feries_au_plus_douze (mk_date 2024 1 1) (mk_date 2024 12 31)
           2024 eq_refl eq_refl).
  exact (compter_jours_ouvres_retourne
           (mk_date 2024 1 1) (mk_date 2024 12 31) true (Some 2024)
           eq_refl eq_refl).
Defined.

(** X7. The counts add up over adjacent ranges: for [a <= b] and [c] not
    before the day after [b], the count from [a] to [c] is the count from
    [a] to [b] plus the count from the day after [b] to [c], the holidays
    being those of one year throughout. *)
Theorem compter_jours_additif a b b' c ex annee :
  valid_date a -> valid_date b -> valid_date c ->
  date_leb a b = true -> tomorrow b = Ok b' -> date_leb b' c = true ->
  (forall n1 n2,
      retourne (compter_jours_ouvres a b ex (Some annee)) (Ok n1) ->
      retourne (compter_jours_ouvres b' c ex (Some annee)) (Ok n2) ->
      retourne (compter_jours_ouvres a c ex (Some annee)) (Ok (n1 + n2)))
  /\ (forall n1 n2,
         retourne (compter_jours_ouvrables a b ex (Some annee)) (Ok n1) ->
         retourne (compter_jours_ouvrables b' c ex (Some annee)) (Ok n2) ->
         retourne (compter_jours_ouvrables a c ex (Some annee))
                  (Ok (n1 + n2))).
Proof.
  intros Ha Hb Hc Hab Ht Hbc.
  pose proof (tomorrow_valid _ _ Hb Ht) as Hb'.
  split; intros n1 n2 H1 H2.
  - pose proof (retourne_fun _ _ _ H1
                  (compter_jours_ouvres_retourne a b ex (Some annee) Ha Hb))
      as E1.
    pose proof (retourne_fun _ _ _ H2
                  (compter_jours_ouvres_retourne b' c ex (Some annee) Hb' Hc))
      as E2.
    symmetry in E1. symmetry in E2.
    rewrite <- (compteur_additif est_jour_ouvre a b b' c ex annee n1 n2
                  Ha Hb Hc Hab Ht Hbc E1 E2).
    apply compter_jours_ouvres_retourne; assumption.
  - pose proof (retourne_fun _ _ _ H1
                  (compter_jours_ouvrables_retourne a b ex (Some annee)
                                                    Ha Hb)) as E1.
    pose proof (retourne_fun _ _ _ H2
                  (compter_jours_ouvrables_retourne b' c ex (Some annee)
                                                    Hb' Hc)) as E2.
    symmetry in E1. symmetry in E2.
    rewrite <- (compteur_additif est_jour_ouvrable a b b' c ex annee n1 n2
                  Ha Hb Hc Hab Ht Hbc E1 E2).
    apply compter_jours_ouvrables_retourne; assumption.
Qed.

Lemma compter_jours_additif_witness :
  retourne (compter_jours_ouvres (mk_date 2024 4 22) (mk_date 2024 5 10)
                                 true (Some 2024)) (Ok (7 + 5)).
Proof.
  apply (compter_jours_additif (mk_date 2024 4 22) (mk_date 2024 4 30)
           (mk_date 2024 5 1) (mk_date 2024 5 10) true 2024
           eq_refl eq_refl eq_refl eq_refl eq_refl eq_refl).
  - exact (compter_jours_ouvres_retourne
             (mk_date 2024 4 22) (mk_date 2024 4 30) true (Some 2024)
             eq_refl eq_refl).
  - exact (compter_jours_ouvres_retourne
             (mk_date 2024 5 1) (mk_date 2024 5 10) true (Some 2024)
             eq_refl eq_refl).
Defined.

(** X8. Over any seven consecutive days, the holidays not being left out,
    [compter_jours_ouvres] returns 5 and [compter_jours_ouvrables]
    returns 6. *)
Theorem semaine_de_sept_jours a b annee :
  valid_date a -> date_add a 6 = Ok b -> b <> date_max ->
  retourne (compter_jours_ouvres a b false annee) (Ok 5)
  /\ retourne (compter_jours_ouvrables a b false annee) (Ok 6).
Proof.
  intros Ha Hadd Hm.
  assert (Hb : valid_date b /\ toordinal b = toordinal a + 6).
  { unfold date_add in Hadd. change (Z.to_nat 6) with 6%nat in Hadd.
    destruct (add_days_6 a b Hadd) as (a1 & a2 & a3 & a4 & a5 & T1 & T2 & T3
                                       & T4 & T5 & T6).
    pose proof (tomorrow_valid _ _ Ha T1) as V1.
    pose proof (tomorrow_valid _ _ V1 T2) as V2.
    pose proof (tomorrow_valid _ _ V2 T3) as V3.
    pose proof (tomorrow_valid _ _ V3 T4) as V4.
    pose proof (tomorrow_valid _ _ V4 T5) as V5.
    pose proof (toordinal_tomorrow _ _ Ha T1).
    pose proof (toordinal_tomorrow _ _ V1 T2).
    pose proof (toordinal_tomorrow _ _ V2 T3).
    pose proof (toordinal_tomorrow _ _ V3 T4).
    pose proof (toordinal_tomorrow _ _ V4 T5).
    pose proof (toordinal_tomorrow _ _ V5 T6).
    split; [exact (tomorrow_valid _ _ V5 T6) | lia]. }
  destruct Hb as [Hb Hob].
  split.
  - destruct (semaine (fun w => w <? 5) a b Ha Hadd) as (w & Hw & E).
    replace (Ok 5) with (valeur_compteur est_jour_ouvre a b false annee).
    { apply compter_jours_ouvres_retourne; assumption. }
    rewrite (valeur_compteur_of est_jour_ouvre a b false annee [])
      by auto.
    unfold est_jour_ouvre. rewrite E. f_equal.
    assert (Hc : w = 0 \/ w = 1 \/ w = 2 \/ w = 3 \/ w = 4 \/ w = 5 \/ w = 6)
      by lia.
    repeat (destruct Hc as [Hc | Hc]; [subst w; reflexivity |]).
    subst w; reflexivity.
  - destruct (semaine (fun w => w <? 6) a b Ha Hadd) as (w & Hw & E).
    replace (Ok 6) with (valeur_compteur est_jour_ouvrable a b false annee).
    { apply compter_jours_ouvrables_retourne; assumption. }
    rewrite (valeur_compteur_of est_jour_ouvrable a b false annee [])
      by auto.
    unfold est_jour_ouvrable. rewrite E. f_equal.
    assert (Hc : w = 0 \/ w = 1 \/ w = 2 \/ w = 3 \/ w = 4 \/ w = 5 \/ w = 6)
      by lia.
    repeat (destruct Hc as [Hc | Hc]; [subst w; reflexivity |]).
    subst w; reflexivity.
Qed.

Lemma semaine_de_sept_jours_witness :
  retourne (compter_jours_ouvres (mk_date 2024 7 3) (mk_date 2024 7 9)
                                 false None) (Ok 5).
Proof.
  apply (semaine_de_sept_jours (mk_date 2024 7 3) (mk_date 2024 7 9) None).
  - reflexivity.
  - reflexivity.
  - discriminate.
Defined.

(** X9. [compter_jours_periode] raises what the full-day scan raises;
    otherwise it returns a decimal with at most one decimal which, in
    tenths, is ten times the full-day count [n], less 5 when the first day
    was counted and the period starts in the afternoon, less 5 when the last
    day was counted and the period ends in the morning, and 0 if that is
    negative: a value from 0 to [n], at most one day below [n]. *)
Theorem compter_jours_periode_dixiemes a b mode ex annee dt ft :
  valid_date a -> valid_date b ->
  match valeur_compteur (est_compte_mode mode) a b ex
                        (Some (annee_feries annee a)) with
  | Ok n =>
      exists t jf,
        (if ex then calcul_jours_feries (annee_feries annee a) else Ok [])
        = Ok jf
        /\ retourne (compter_jours_periode a b mode ex annee dt ft) (Ok t)
        /\ dixiemes t
           = Z.max 0 (10 * n
                      - demi_journee (borne_comptee mode jf a) dt "apres_midi"
                      - demi_journee (borne_comptee mode jf b) ft "matin")
        /\ -1 <= expo t <= 0
        /\ 0 <= dixiemes t <= 10 * n
        /\ 10 * n - 10 <= dixiemes t
  | Raise e => retourne (compter_jours_periode a b mode ex annee dt ft)
                        (Raise e)
  end.
Proof.
  intros Ha Hb.
  destruct (valeur_compteur _ a b ex _) as [n | e] eqn:E.
  - destruct (valeur_compteur_Ok _ _ _ _ _ _ Ha Hb E) as (jf & Ejf & -> & Hm).
    cbn [annee_feries] in Ejf.
    destruct (compter_jours_periode_valeur a b mode ex annee dt ft jf
                Ha Hb Ejf Hm) as (t & Ht & Hd & He & Hc).
    exists t, jf. split; [exact Ejf |]. split; [exact Ht |].
    split; [exact Hd |]. split; [exact He |].
    pose proof (demi_journee_bounds (borne_comptee mode jf a) dt "apres_midi").
    pose proof (demi_journee_bounds (borne_comptee mode jf b) ft "matin").
    pose proof (nombre_jours_bounds (est_compte_mode mode) jf
                  (jours_de_la_plage a b)).
    lia.
  - intros c Hcoh.
    rewrite compter_jours_periode_jour_compte. cbv zeta. unfold m_bind.
    destruct (compteur_du_mode_retourne mode a b ex
                (Some (annee_feries annee a)) Ha Hb c Hcoh)
      as (c1 & -> & Hc1).
    rewrite E. exists c1. split; [reflexivity | exact Hc1].
Qed.

Lemma compter_jours_periode_dixiemes_witness :
  exists t,
    retourne (compter_jours_periode (mk_date 2024 11 4) (mk_date 2024 11 8)
                                    "ouvres" true None "apres_midi" "matin")
             (Ok t)
    /\ dixiemes t = 40.
Proof.
  pose proof (compter_jours_periode_dixiemes
                (mk_date 2024 11 4) (mk_date 2024 11 8) "ouvres" true None
                "apres_midi" "matin" eq_refl eq_refl) as H.
  assert (E : valeur_compteur (est_compte_mode "ouvres") (mk_date 2024 11 4)
                (mk_date 2024 11 8) true
                (Some (annee_feries None (mk_date 2024 11 4))) = Ok 5)
    by (vm_compute; reflexivity).
  rewrite E in H. destruct H as (t & jf & Ejf & Ht & Hd & _).
  exists t. split; [exact Ht |]. rewrite Hd.
  vm_compute in Ejf. injection Ejf as <-. vm_compute. reflexivity.
Defined.

(** X10. When every annual period of the user for the year starts in May or
    later and ends in a month up to October (the periods that run from
    November or December to a month up to April apart), whatever the years
    of its two dates, [get_jours_hors_periode_principale] returns 0 without
    reading or writing the cache, and [calculer_fractionnement_complet]
    returns 0 days and an award of 0. *)
Theorem get_jours_hors_periode_principale_nul db user annee (c : cache) :
  ANNEE_MIN <= annee <= ANNEE_MAX ->
  ParametresAnnee_get db user annee <> Raise MultipleObjectsReturned ->
  Forall mai_a_octobre (PeriodeConge_filter db user annee "annuel") ->
  get_jours_hors_periode_principale db user annee c = (Ok 0, c)
  /\ calculer_fractionnement_complet db user annee c
     = (Ok (mk_resultat 0 0 annee), c).
Proof.
  intros Hy Hp Hl.
  assert (E : get_jours_hors_periode_principale db user annee c = (Ok 0, c)).
  { unfold get_jours_hors_periode_principale.
    replace ((annee <? ANNEE_MIN) || (ANNEE_MAX <? annee)) with false by lia.
    destruct (jours_type_service_ok db user annee Hp) as [jt Ejt].
    unfold jours_type_service in Ejt. unfold m_bind, m_lift. rewrite Ejt.
    rewrite (somme_periodes_nulle _ jt annee Hl). reflexivity. }
  split; [exact E |].
  unfold calculer_fractionnement_complet. rewrite E. reflexivity.
Qed.

Lemma get_jours_hors_periode_principale_nul_witness :
  get_jours_hors_periode_principale
    (mk_db [] []
           [mk_periode 1 (mk_date 2024 10 21) "matin" (mk_date 2025 3 14)
                       "apres_midi" "annuel" 2024]) 1 2024 ∅
  = (Ok 0, ∅).
Proof.
  apply (get_jours_hors_periode_principale_nul
           (mk_db [] []
                  [mk_periode 1 (mk_date 2024 10 21) "matin"
                              (mk_date 2025 3 14) "apres_midi" "annuel"
                              2024]) 1 2024 ∅).
  - unfold ANNEE_MIN, ANNEE_MAX. lia.
  - discriminate.
  - repeat constructor; cbn; lia.
Defined.

(** X11. For a period whose two days are days of the year [annee], the first
    not after the last, the body of the loop of
    [get_jours_hors_periode_principale] returns a decimal with at most one
    decimal which, in tenths, is ten times the number of counted days of the
    range that [est_hors_periode_principale] puts outside the main period,
    less 5 for a counted first day outside the main period when the period
    starts in the afternoon, and less 5 for a counted last day outside it
    when the period ends in the morning; it is never negative. *)
Theorem jours_hors_de_periode_meme_annee p jt annee :
  valid_date (date_debut p) -> valid_date (date_fin p) ->
  date_leb (date_debut p) (date_fin p) = true ->
  year (date_debut p) = annee -> year (date_fin p) = annee ->
  date_fin p <> date_max ->
  exists v jf,
    calcul_jours_feries annee = Ok jf
    /\ retourne (jours_hors_de_periode p jt annee) (Ok v)
    /\ dixiemes v
       = 10 * nombre_jours (est_compte_mode jt) jf
                (List.filter est_hors_periode_principale
                             (jours_de_la_plage (date_debut p) (date_fin p)))
         - demi_journee (est_hors_periode_principale (date_debut p)
                         && borne_comptee jt jf (date_debut p))
                        (debut_type p) "apres_midi"
         - demi_journee (est_hors_periode_principale (date_fin p)
                         && borne_comptee jt jf (date_fin p))
                        (fin_type p) "matin"
    /\ -1 <= expo v <= 0
    /\ 0 <= dixiemes v.
Proof.
  intros Ha Hb Hab Ya Yb Hm.
  destruct (jours_hors_de_periode_dixiemes p jt annee Ha Hb Hab Ya Yb Hm)
    as (v & jf & Ejf & Hr & Hd & He).
  exists v, jf. split; [exact Ejf |]. split; [exact Hr |].
  split; [exact Hd |]. split; [exact He |]. rewrite Hd.
  apply (dixiemes_hors_bornes _ _ jt jf (debut_type p) (fin_type p)
           Ha Hb Hab).
Qed.

Lemma jours_hors_de_periode_meme_annee_witness :
  exists v,
    retourne (jours_hors_de_periode
                (mk_periode 1 (mk_date 2024 4 22) "apres_midi"
                            (mk_date 2024 5 10) "matin" "annuel" 2024)
                "ouvres" 2024) (Ok v)
    /\ dixiemes v = 65.
Proof.
  destruct (jours_hors_de_periode_meme_annee
              (mk_periode 1 (mk_date 2024 4 22) "apres_midi"
                          (mk_date 2024 5 10) "matin" "annuel" 2024)
              "ouvres" 2024 eq_refl eq_refl eq_refl eq_refl eq_refl
              ltac:(discriminate))
    as (v & jf & Ejf & Hr & Hd & _).
  exists v. split; [exact Hr |]. rewrite Hd.
  vm_compute in Ejf. injection Ejf as <-. vm_compute. reflexivity.
Defined.

(** X12. Whatever [calculer_fractionnement_complet] returns, from any cache:
    the year is within 2020..2100 and is the one returned, the days outside
    the main period are those that [get_jours_hors_periode_principale]
    returns and are not negative, and the award is the one that
    [calculer_jours_fractionnement] gives for them, from 0 to 2, and 0
    exactly up to 4 days. *)
Theorem calculer_fractionnement_complet_resultat db user annee (c : cache) r :
  fst (calculer_fractionnement_complet db user annee c) = Ok r ->
  fst (get_jours_hors_periode_principale db user annee c)
  = Ok (jours_hors_periode r)
  /\ ANNEE_MIN <= annee <= ANNEE_MAX
  /\ 0 <= jours_hors_periode r
  /\ jours_fractionnement r
     = calculer_jours_fractionnement (jours_hors_periode r)
  /\ 0 <= jours_fractionnement r <= 2
  /\ (jours_fractionnement r = 0 <-> jours_hors_periode r <= 4)
  /\ annee_resultat r = annee.
Proof.
  unfold calculer_fractionnement_complet.
  destruct (get_jours_hors_periode_principale db user annee c)
    as [[n | e] c1] eqn:E; cbn [fst].
  - intros [= <-]. cbn [jours_hors_periode jours_fractionnement
                                           annee_resultat].
    pose proof (get_jours_hors_periode_principale_positif db user annee
                  c n c1 E) as Hn. cbv beta in Hn.
    split; [reflexivity |]. split.
    + destruct (Z_lt_dec annee ANNEE_MIN) as [H | H];
        [| destruct (Z_lt_dec ANNEE_MAX annee) as [H' | H']; [| lia]].
      * rewrite get_jours_hors_periode_principale_annee_invalide in E
          by (left; exact H). discriminate.
      * rewrite get_jours_hors_periode_principale_annee_invalide in E
          by (right; exact H'). discriminate.
    + unfold calculer_jours_fractionnement.
      repeat split; try lia;
        destruct (n <? 5) eqn:E5;
        destruct ((5 <=? n) && (n <=? 7)) eqn:E7; lia.
  - destruct e; discriminate.
Qed.

Lemma calculer_fractionnement_complet_resultat_witness :
  0 <= jours_hors_periode (mk_resultat 4 0 2024)
  /\ annee_resultat (mk_resultat 4 0 2024) = 2024.
Proof.
  assert (E : fst (calculer_fractionnement_complet
                     (mk_db [] []
                            [mk_periode 1 (mk_date 2024 11 4) "matin"
                                        (mk_date 2024 11 8) "matin" "annuel"
                                        2024])
                     1 2024 ∅) = Ok (mk_resultat 4 0 2024))
    by (vm_compute; reflexivity).
  destruct (calculer_fractionnement_complet_resultat _ _ _ _ _ E)
    as (_ & _ & H1 & _ & _ & _ & H2).
  split; [exact H1 | exact H2].
Defined.

(** X13. [calculer_conges_annuels] of a quota with at most two decimals is
    exactly 25 times the quota, written with two decimals: nothing is
    rounded and nothing is raised.  For a cycle that
    [CycleHebdomadaire.clean] accepts it is from 12.50 to 25.00. *)
Theorem calculer_conges_annuels_prorata :
  (forall k e jt,
      -2 <= e <= 0 -> Z.abs k < 100000000000000000000 ->
      calculer_conges_annuels (mk_dec k e) jt
      = inl (mk_dec (25 * k * 10 ^ (e + 2)) (-2)))
  /\ (forall self jt,
         -2 <= expo (quotite_travail self) <= 0 ->
         -2 <= expo (heures_semaine self) <= 0 ->
         CycleHebdomadaire_clean self = None ->
         exists ca,
           calculer_conges_annuels (quotite_travail self) jt = inl ca
           /\ expo ca = -2 /\ 1250 <= coef ca <= 2500).
Proof.
  split; [exact calculer_conges_annuels_exact |].
  intros self jt Eq Eh Hc.
  destruct (clean_bornes self Hc Eh Eq) as [_ Hq].
  destruct (quotite_travail self) as [k e]. cbn [coef expo] in *.
  assert (Hk : Z.abs k < 100000000000000000000).
  { assert (C : e = 0 \/ e = -1 \/ e = -2) by lia.
    destruct C as [-> | [-> | ->]]; calcule_puissances; lia. }
  eexists. split; [apply calculer_conges_annuels_exact; assumption |].
  cbn [coef expo]. split; [reflexivity | lia].
Qed.

Lemma calculer_conges_annuels_prorata_witness :
  calculer_conges_annuels (mk_dec 8 (-1)) "ouvres" = inl (mk_dec 2000 (-2)).
Proof.
  apply (proj1 calculer_conges_annuels_prorata 8 (-1) "ouvres"); lia.
Defined.

(** X14. For weekly hours and two quotas written with at most two decimals
    and at most six digits, the quotas of the same exponent, the first not
    negative and not above the second, [calculer_rtt_annuels] returns for
    both, without raising, and gives the first no more days than the
    second, and never a negative number.  For a cycle that [CycleHebdomadaire.clean] accepts,
    with at most two decimals in its hours and in its quota, it returns
    from 0 to 11 days. *)
Theorem calculer_rtt_annuels_bornes :
  (forall h q1 q2,
      deux_decimales h -> deux_decimales q1 -> deux_decimales q2 ->
      expo q1 = expo q2 -> 0 <= coef q1 <= coef q2 ->
      exists r1 r2,
        calculer_rtt_annuels h q1 = Ok r1
        /\ calculer_rtt_annuels h q2 = Ok r2
        /\ 0 <= r1 <= r2)
  /\ (forall self,
         -2 <= expo (heures_semaine self) <= 0 ->
         -2 <= expo (quotite_travail self) <= 0 ->
         CycleHebdomadaire_clean self = None ->
         exists r,
           calculer_rtt_annuels (heures_semaine self) (quotite_travail self)
           = Ok r
           /\ 0 <= r <= 11).
Proof.
  split; [intros h q1 q2 _ _ _; apply calculer_rtt_annuels_croissant |].
  intros self Eh Eq Hc.
  destruct (clean_bornes self Hc Eh Eq) as [Hh Hq].
  destruct (heures_semaine self) as [kh eh], (quotite_travail self)
    as [kq eq]. cbn [coef expo] in *.
  destruct (rtt_entre_spec _ _ _ _ (rtt_plein_temps eh eq kh Eh Eq Hh))
    as (r11 & E11 & H11).
  assert (Hkq : 0 <= kq <= 10 ^ (- eq)).
  { assert (C : eq = 0 \/ eq = -1 \/ eq = -2) by lia.
    destruct C as [-> | [-> | ->]]; calcule_puissances; lia. }
  destruct (calculer_rtt_annuels_croissant (mk_dec kh eh) (mk_dec kq eq)
              (mk_dec (10 ^ (- eq)) eq) eq_refl Hkq)
    as (r1 & r2 & E1 & E2 & Hr).
  exists r1. split; [exact E1 |].
  assert (r2 = r11) by congruence. lia.
Qed.

Lemma calculer_rtt_annuels_bornes_witness :
  exists r,
    calculer_rtt_annuels (mk_dec 375 (-1)) (mk_dec 80 (-2)) = Ok r
    /\ 0 <= r <= 11.
Proof.
  apply (proj2 calculer_rtt_annuels_bornes
           (mk_cycle 1 2024 (mk_dec 375 (-1)) (mk_dec 80 (-2)) "ouvres")).
  - cbn; lia.
  - cbn; lia.
  - vm_compute. reflexivity.
Defined.

(** X15. For every year from 1 to 9999, [get_jours_feries_list] returns 12
    entries of type 'ferie', none of them named 'Lundi de Pentecôte'.
    Easter Sunday is named 'Pâques' and Easter Monday 'Lundi de Pâques'; the
    fixed dates are named after their day of the month alone: 1 January,
    1 May and 1 November 'Jour de l'an', 8 May 'Victoire en Europe', 14 July
    'Fête nationale', 15 August 'Assomption', 11 November 'Toussaint' and
    25 December 'Noël'. *)
Theorem get_jours_feries_list_noms annee :
  1 <= annee <= 9999 ->
  exists l paques lundi,
    retourne (get_jours_feries_list annee) (Ok l)
    /\ length l = 12%nat
    /\ Forall (fun e => jf_type e = "ferie"
                        /\ jf_nom e <> "Lundi de Pentecôte") l
    /\ calculer_paques annee = Ok paques
    /\ date_add paques 1 = Ok lundi
    /\ In (mk_jour_ferie (isoformat paques) "Pâques" "ferie") l
    /\ In (mk_jour_ferie (isoformat lundi) "Lundi de Pâques" "ferie") l
    /\ Forall (fun e => In e l)
         (List.map (fun '(d, nom) => mk_jour_ferie (isoformat d) nom "ferie")
            [(mk_date annee 1 1, "Jour de l'an");
             (mk_date annee 5 1, "Jour de l'an");
             (mk_date annee 5 8, "Victoire en Europe");
             (mk_date annee 7 14, "Fête nationale");
             (mk_date annee 8 15, "Assomption");
             (mk_date annee 11 1, "Jour de l'an");
             (mk_date annee 11 11, "Toussaint");
             (mk_date annee 12 25, "Noël")]).
Proof.
  intros Hy.
  destruct (calcul_jours_feries_ok annee Hy)
    as (lundi & asc & pent & Ep & El & Ea & Epe & Hv & Hol & Hoa & Hop & Ejf).
  fold (dimanche_de_paques annee) in *.
  set (L := jours_feries_fixes annee
            ++ [dimanche_de_paques annee; lundi; asc; pent]) in *.
  assert (Hin : forall d, In d L -> In (entree_ferie d)
                                       (List.map entree_ferie (sorted L))).
  { intros d Hd. apply List.in_map.
    apply (Permutation_in _ (Permutation_sym (sorted_perm L))). exact Hd. }
  exists (List.map entree_ferie (sorted L)), (dimanche_de_paques annee), lundi.
  split.
  { rewrite get_jours_feries_list_entrees.
    apply (retourne_bind_Ok _ _ (sorted L)).
    - rewrite <- Ejf. apply retourne_get_jours_feries.
    - apply retourne_ret. }
  split.
  { rewrite List.length_map, (Permutation_length (sorted_perm L)).
    reflexivity. }
  split.
  { apply List.Forall_forall. intros e He.
    apply List.in_map_iff in He as (d & <- & _).
    split; [reflexivity | apply nom_ferie_jamais_pentecote]. }
  split; [exact Ep |]. split; [exact El |].
  split.
  { rewrite <- (nom_du_dimanche_de_paques annee Hy).
    apply Hin. apply in_or_app. right. left. reflexivity. }
  split.
  { rewrite <- (nom_du_lundi_de_paques annee lundi Hy El Hol).
    apply Hin. apply in_or_app. right. right. left. reflexivity. }
  assert (Hf : forall d, In d (jours_feries_fixes annee) ->
                         In (entree_ferie d)
                            (List.map entree_ferie (sorted L))).
  { intros d Hd. apply Hin. apply in_or_app. left. exact Hd. }
  cbn [List.map].
  repeat (constructor;
          [match goal with
           | |- In (mk_jour_ferie (isoformat ?d) ?n _) _ =>
               change (mk_jour_ferie (isoformat d) n "ferie")
                 with (entree_ferie d);
               apply Hf; unfold jours_feries_fixes; cbn [In]; tauto
           end |]).
  constructor.
Qed.

Lemma get_jours_feries_list_noms_witness :
  exists l,
    retourne (get_jours_feries_list 2024) (Ok l)
    /\ In (mk_jour_ferie "2024-05-01" "Jour de l'an" "ferie") l.
Proof.
  destruct (get_jours_feries_list_noms 2024 ltac:(lia))
    as (l & p & lu & Hr & _ & _ & _ & _ & _ & _ & Hf).
  exists l. split; [exact Hr |].
  apply List.Forall_forall with (x := mk_jour_ferie "2024-05-01"
                                        "Jour de l'an" "ferie") in Hf;
    [exact Hf |].
  right. left. reflexivity.
Defined.

(** X16. For a period of one year that does not end before it starts and
    whose last day is not [date.max], and a convention on which
    [PeriodeCongeForm.clean] and the service agree:
    [clean_date_fin] and [PeriodeConge.clean] accept the period, the form
    computes the year of the first day and a number of days [nb_jours], and
    what the service counts for the period outside the main period is from
    0 to [nb_jours]; it is [nb_jours] when the period ends by April or
    starts in November or later, and 0 when it lies from May to October. *)
Theorem nb_jours_et_jours_hors db user p jt :
  let annee := annee_civile p in
  periode_de_l_annee annee p -> date_fin p <> date_max ->
  PeriodeCongeForm_jours_type db user annee = Ok jt ->
  jours_type_service db user annee = Ok jt ->
  exists nb_jours jours_hors,
    PeriodeCongeForm_clean_date_fin (date_debut p) (date_fin p)
    = Some (date_fin p)
    /\ PeriodeConge_clean p = None
    /\ retourne (PeriodeCongeForm_clean db user (date_debut p) (debut_type p)
                                        (date_fin p) (fin_type p))
                (Ok (annee, nb_jours))
    /\ retourne (jours_hors_de_periode p jt annee) (Ok jours_hors)
    /\ 0 <= dixiemes jours_hors <= dixiemes nb_jours
    /\ (month (date_fin p) <= 4 \/ 11 <= month (date_debut p) ->
        dixiemes jours_hors = dixiemes nb_jours)
    /\ (5 <= month (date_debut p) -> month (date_fin p) <= 10 ->
        dixiemes jours_hors = 0).
Proof.
  cbv zeta. intros (Ha & Hb & Hab & Ya & Yb) Hm Ejt _.
  assert (Hlt : date_ltb (date_fin p) (date_debut p) = false).
  { revert Hab. unfold date_leb, date_ltb, date_eqb. lia. }
  destruct (jours_hors_de_periode_dixiemes p jt (annee_civile p)
              Ha Hb Hab Ya Yb Hm) as (v & jf & Ejf & Hr & Hd & He).
  destruct (compter_jours_periode_plage (date_debut p) (date_fin p) jt
              (annee_civile p) (debut_type p) (fin_type p) jf
              Ha Hb Hab Hm Ejf) as (t & Ht & Hdt & Het).
  exists t, v. split.
  { unfold PeriodeCongeForm_clean_date_fin. rewrite Hlt. reflexivity. }
  split.
  { unfold PeriodeConge_clean. rewrite Hlt. reflexivity. }
  split.
  { unfold PeriodeCongeForm_clean. cbv zeta. rewrite Ya, Ejt.
    apply (retourne_bind_Ok _ _ jt); [apply retourne_lift |].
    apply (retourne_bind_Ok _ _ t); [exact Ht | apply retourne_ret]. }
  split; [exact Hr |].
  pose proof (dixiemes_hors_bornes _ _ jt jf (debut_type p) (fin_type p)
                Ha Hb Hab) as Hb0.
  pose proof (dixiemes_hors_le _ _ jt jf (debut_type p) (fin_type p)
                Ha Hb Hab) as Hle.
  split; [lia |]. split.
  - intros Hmo. rewrite Hd, Hdt.
    rewrite (plage_hors _ _ Ha Hb ltac:(congruence) Hmo).
    pose proof (date_leb_year_month _ _ Hab) as [_ Hmm].
    specialize (Hmm ltac:(congruence)).
    rewrite (est_hors_mois _ Ha), (est_hors_mois _ Hb).
    replace ((month (date_debut p) <=? 4) || (11 <=? month (date_debut p)))
      with true by lia.
    replace ((month (date_fin p) <=? 4) || (11 <=? month (date_fin p)))
      with true by lia.
    reflexivity.
  - intros H5 H10. rewrite Hd.
    rewrite (plage_dans _ _ Ha Hb ltac:(congruence) H5 H10).
    rewrite (est_hors_mois _ Ha), (est_hors_mois _ Hb).
    pose proof (date_leb_year_month _ _ Hab) as [_ Hmm].
    specialize (Hmm ltac:(congruence)).
    replace ((month (date_debut p) <=? 4) || (11 <=? month (date_debut p)))
      with false by lia.
    replace ((month (date_fin p) <=? 4) || (11 <=? month (date_fin p)))
      with false by lia.
    reflexivity.
Qed.

Lemma nb_jours_et_jours_hors_witness :
  exists nb_jours jours_hors,
    retourne (PeriodeCongeForm_clean
                (mk_db [] [mk_parametres 1 2024 "ouvrables"] [])
                1 (mk_date 2024 10 28) "matin" (mk_date 2024 11 5) "matin")
             (Ok (2024, nb_jours))
    /\ retourne (jours_hors_de_periode
                   (mk_periode 1 (mk_date 2024 10 28) "matin"
                               (mk_date 2024 11 5) "matin" "annuel" 2024)
                   "ouvrables" 2024) (Ok jours_hors)
    /\ 0 <= dixiemes jours_hors <= dixiemes nb_jours.
Proof.
  destruct (nb_jours_et_jours_hors
              (mk_db [] [mk_parametres 1 2024 "ouvrables"] []) 1
              (mk_periode 1 (mk_date 2024 10 28) "matin"
                          (mk_date 2024 11 5) "matin" "annuel" 2024)
              "ouvrables")
    as (nb & jh & _ & _ & H1 & H2 & H3 & _).
  - repeat split; reflexivity.
  - discriminate.
  - reflexivity.
  - reflexivity.
  - exists nb, jh. repeat split; try assumption; apply H3.
Defined.

(** X17. When every annual period of the user for the year is a period of that
    year, [get_jours_hors_periode_principale] returns the integer part of
    the sum, over these periods, of their days outside the main period
    (counted days outside May to October, less the half days at counted
    ends outside it), and [calculer_fractionnement_complet] returns that
    number with its award.  The sum must fit the 28 digits of the decimal
    context, which a bound on the number of periods ensures. *)
Theorem get_jours_hors_periode_principale_somme db user annee jt :
  ANNEE_MIN <= annee <= ANNEE_MAX ->
  jours_type_service db user annee = Ok jt ->
  Forall (periode_de_l_annee annee)
         (PeriodeConge_filter db user annee "annuel") ->
  Z.of_nat (length (PeriodeConge_filter db user annee "annuel"))
  <= 1000000000000000000 ->
  exists jf,
    calcul_jours_feries annee = Ok jf
    /\ let total :=
         somme_dixiemes jt jf (PeriodeConge_filter db user annee "annuel") in
       0 <= total
       /\ retourne (get_jours_hors_periode_principale db user annee)
                   (Ok (total / 10))
       /\ retourne (calculer_fractionnement_complet db user annee)
                   (Ok (mk_resultat (total / 10)
                          (calculer_jours_fractionnement (total / 10))
                          annee)).
Proof.
  intros Hy Ejt Hl Hlen.
  destruct (get_jours_hors_periode_principale_valeur db user annee jt
              Hy Ejt Hl Hlen) as (jf & Ejf & H0 & Hg).
  exists jf. split; [exact Ejf |]. cbv zeta.
  split; [exact H0 |]. split; [exact Hg |].
  apply calculer_fractionnement_complet_ok. exact Hg.
Qed.

Lemma get_jours_hors_periode_principale_somme_witness :
  retourne (get_jours_hors_periode_principale
              (mk_db [] []
                     [mk_periode 1 (mk_date 2024 4 22) "apres_midi"
                                 (mk_date 2024 5 10) "matin" "annuel" 2024;
                      mk_periode 1 (mk_date 2024 10 28) "matin"
                                 (mk_date 2024 11 5) "matin" "annuel" 2024])
              1 2024)
           (Ok 8).
Proof.
  destruct (get_jours_hors_periode_principale_somme
              (mk_db [] []
                     [mk_periode 1 (mk_date 2024 4 22) "apres_midi"
                                 (mk_date 2024 5 10) "matin" "annuel" 2024;
                      mk_periode 1 (mk_date 2024 10 28) "matin"
                                 (mk_date 2024 11 5) "matin" "annuel" 2024])
              1 2024 "ouvres")
    as (jf & Ejf & _ & H & _).
  - unfold ANNEE_MIN, ANNEE_MAX. lia.
  - reflexivity.
  - repeat constructor.
  - cbn. lia.
  - vm_compute in Ejf. injection Ejf as <-.
    assert (E : somme_dixiemes "ouvres"
                  [mk_date 2024 1 1; mk_date 2024 3 31; mk_date 2024 4 1;
                   mk_date 2024 5 1; mk_date 2024 5 8; mk_date 2024 5 9;
                   mk_date 2024 5 20; mk_date 2024 7 14; mk_date 2024 8 15;
                   mk_date 2024 11 1; mk_date 2024 11 11; mk_date 2024 12 25]
                  (PeriodeConge_filter
                     (mk_db [] []
                        [mk_periode 1 (mk_date 2024 4 22) "apres_midi"
                                    (mk_date 2024 5 10) "matin" "annuel" 2024;
                         mk_periode 1 (mk_date 2024 10 28) "matin"
                                    (mk_date 2024 11 5) "matin" "annuel"
                                    2024])
                     1 2024 "annuel") / 10 = 8)
      by (vm_compute; reflexivity).
    rewrite E in H. exact H.
Defined.

(** X18. When [ParametresAnneeForm.clean_annee] accepts a year for a new row,
    in a table with at most one row for each user and year, the year is
    within 2020..2100 and the user had no row for it; after [save], the
    table still has at most one row for each user and year, the service and
    [PeriodeCongeForm.clean] both resolve the convention of the new row, and
    [get_jours_hors_periode_principale] returns for that user and year
    without raising. *)
Theorem ParametresAnneeForm_unicite db user annee jt :
  parametres_uniques db ->
  ParametresAnneeForm_clean_annee db (Some user) annee = Some annee ->
  let db' := ParametresAnneeForm_save db user annee jt in
  ANNEE_MIN <= annee <= ANNEE_MAX
  /\ ParametresAnnee_get db user annee = Raise DoesNotExist
  /\ ParametresAnnee_get db' user annee = Ok (mk_parametres user annee jt)
  /\ parametres_uniques db'
  /\ jours_type_service db' user annee = Ok jt
  /\ PeriodeCongeForm_jours_type db' user annee = Ok jt
  /\ exists n, retourne (get_jours_hors_periode_principale db' user annee)
                        (Ok n).
Proof.
  intros Hu Hc. cbv zeta. unfold ParametresAnneeForm_clean_annee in Hc.
  destruct ((annee <? ANNEE_MIN) || (ANNEE_MAX <? annee)) eqn:Ey;
    [discriminate |].
  destruct (List.filter _ (parametres db)) as [| x r] eqn:Ef;
    [| discriminate].
  assert (Hy : ANNEE_MIN <= annee <= ANNEE_MAX) by lia.
  assert (Hg : ParametresAnnee_get db user annee = Raise DoesNotExist).
  { unfold ParametresAnnee_get. rewrite Ef. reflexivity. }
  assert (Hg' : ParametresAnnee_get (ParametresAnneeForm_save db user annee jt)
                                    user annee
                = Ok (mk_parametres user annee jt)).
  { rewrite ParametresAnnee_get_save, Ef.
    replace ((user =? user) && (annee =? annee)) with true by lia.
    reflexivity. }
  assert (Hu' : parametres_uniques (ParametresAnneeForm_save db user annee jt)).
  { intros u a. rewrite ParametresAnnee_get_save.
    destruct ((user =? u) && (a =? a) && (annee =? a)) eqn:E.
    - assert (u = user /\ a = annee) as [-> ->] by lia.
      rewrite Ef.
      replace ((user =? user) && (annee =? annee)) with true by lia.
      discriminate.
    - replace ((user =? u) && (annee =? a)) with false by lia.
      rewrite app_nil_r. apply Hu. }
  split; [exact Hy |]. split; [exact Hg |]. split; [exact Hg' |].
  split; [exact Hu' |].
  assert (Hjt : jours_type_service (ParametresAnneeForm_save db user annee jt)
                                   user annee = Ok jt).
  { unfold jours_type_service. rewrite Hg'. reflexivity. }
  split; [exact Hjt |]. split.
  { unfold PeriodeCongeForm_jours_type. rewrite Hg'. reflexivity. }
  destruct (somme_periodes_retourne
              (PeriodeConge_filter (ParametresAnneeForm_save db user annee jt)
                                   user annee "annuel")
              jt annee (mk_dec 0 (-1))) as (v & Hv & _).
  exists (Decimal.to_int v).
  exact (get_jours_hors_periode_principale_retourne _ user annee jt v
           Hy Hjt Hv).
Qed.

Lemma ParametresAnneeForm_unicite_witness :
  parametres_uniques
    (ParametresAnneeForm_save (mk_db [] [mk_parametres 1 2023 "ouvres"] [])
                              1 2024 "ouvrables").
Proof.
  apply (ParametresAnneeForm_unicite
           (mk_db [] [mk_parametres 1 2023 "ouvres"] []) 1 2024 "ouvrables").
  - intros u a. unfold ParametresAnnee_get. cbn [parametres List.filter
                                                  pa_user pa_annee].
    destruct ((1 =? u) && (2023 =? a)); discriminate.
  - reflexivity.
Defined.

(** X19. From a cache that only [get_jours_feries] has written to,
    [get_jours_hors_periode_principale] and
    [calculer_fractionnement_complet] return or raise exactly what they do
    from an empty cache, and they leave such a cache. *)
Theorem cache_sans_effet db user annee (c : cache) :
  cache_coherent c ->
  fst (get_jours_hors_periode_principale db user annee c)
  = fst (get_jours_hors_periode_principale db user annee ∅)
  /\ fst (calculer_fractionnement_complet db user annee c)
     = fst (calculer_fractionnement_complet db user annee ∅)
  /\ cache_coherent (snd (calculer_fractionnement_complet db user annee c)).
Proof.
  intros Hc.
  destruct (independant_get_jours_hors_periode_principale db user annee c Hc)
    as (c1 & E & Hc1).
  assert (E1 : fst (get_jours_hors_periode_principale db user annee c)
               = fst (get_jours_hors_periode_principale db user annee ∅))
    by (rewrite E; reflexivity).
  split; [exact E1 |].
  assert (Hs : snd (calculer_fractionnement_complet db user annee c) = c1).
  { unfold calculer_fractionnement_complet. rewrite E.
    destruct (fst _) as [n | e]; [reflexivity | destruct e; reflexivity]. }
  split; [| rewrite Hs; exact Hc1].
  destruct (fst (get_jours_hors_periode_principale db user annee ∅))
    as [n | e] eqn:E0.
  - rewrite (calculer_fractionnement_complet_retourne _ _ _ _ _ E1),
      (calculer_fractionnement_complet_retourne _ _ _ _ _ E0). reflexivity.
  - rewrite (calculer_fractionnement_complet_propage _ _ _ _ _ E1),
      (calculer_fractionnement_complet_propage _ _ _ _ _ E0). reflexivity.
Qed.

Lemma cache_sans_effet_witness :
  cache_coherent
    (snd (calculer_fractionnement_complet
            (mk_db [] []
                   [mk_periode 1 (mk_date 2024 11 4) "matin"
                               (mk_date 2024 11 8) "matin" "annuel" 2024])
            1 2024 ∅)).
Proof.
  apply (cache_sans_effet
           (mk_db [] []
                  [mk_periode 1 (mk_date 2024 11 4) "matin"
                              (mk_date 2024 11 8) "matin" "annuel" 2024])
           1 2024 ∅ cache_coherent_empty).
Defined.

(** X20. Adding a period through [PeriodeCongeForm.save] never lowers the
    result: when the annual periods of the user for the year and the new
    period are periods of that year, the days outside the main period and
    the award after the addition are at least what they were, and they are
    unchanged when the new period is not of type 'annuel'. *)
Theorem PeriodeCongeForm_save_croissant db user annee a dt b ft type n :
  ANNEE_MIN <= annee <= ANNEE_MAX ->
  ParametresAnnee_get db user annee <> Raise MultipleObjectsReturned ->
  Forall (periode_de_l_annee annee)
         (PeriodeConge_filter db user annee "annuel") ->
  Z.of_nat (length (PeriodeConge_filter db user annee "annuel"))
  < 1000000000000000000 ->
  valid_date a -> valid_date b -> date_leb a b = true ->
  year a = annee -> year b = annee ->
  retourne (get_jours_hors_periode_principale db user annee) (Ok n) ->
  let db' := PeriodeCongeForm_save db user a dt b ft type in
  exists n',
    retourne (get_jours_hors_periode_principale db' user annee) (Ok n')
    /\ n <= n'
    /\ calculer_jours_fractionnement n <= calculer_jours_fractionnement n'
    /\ (type <> "annuel" -> n' = n).
Proof.
  intros Hy Hu Hl Hlen Ha Hb Hab Ya Yb Hn. cbv zeta.
  destruct (jours_type_service_ok db user annee Hu) as [jt Ejt].
  assert (Ejt' : jours_type_service
                   (PeriodeCongeForm_save db user a dt b ft type) user annee
                 = Ok jt) by exact Ejt.
  destruct (get_jours_hors_periode_principale_valeur db user annee jt
              Hy Ejt Hl ltac:(lia)) as (jf & Ejf & H0 & H1).
  pose proof (retourne_fun _ _ _ Hn H1) as E. injection E as ->.
  pose proof (PeriodeConge_filter_save db user a dt b ft type user annee
                                       "annuel") as Ef.
  replace ((user =? user) && (year a =? annee)) with true in Ef by lia.
  cbn [andb] in Ef.
  destruct (String.eqb type "annuel") eqn:Et.
  - set (p := mk_periode user a dt b ft type (year a)) in Ef.
    assert (Hp : periode_de_l_annee annee p).
    { unfold periode_de_l_annee, p. cbn [date_debut date_fin]. auto. }
    assert (Hl' : Forall (periode_de_l_annee annee)
                         (PeriodeConge_filter
                            (PeriodeCongeForm_save db user a dt b ft type)
                            user annee "annuel")).
    { rewrite Ef. apply Forall_app. split; [exact Hl |].
      constructor; [exact Hp | constructor]. }
    destruct (get_jours_hors_periode_principale_valeur _ user annee jt
                Hy Ejt' Hl') as (jf' & Ejf' & H0' & H2).
    { rewrite Ef, List.length_app. cbn [length]. lia. }
    assert (jf' = jf) by congruence. subst jf'.
    rewrite Ef, somme_dixiemes_app in H2. cbn [somme_dixiemes] in H2.
    assert (Hd : 0 <= dixiemes_hors jt jf p <= 36520590)
      by exact (dixiemes_hors_bornes a b jt jf dt ft Ha Hb Hab).
    eexists. split; [exact H2 |].
    assert (Hle : somme_dixiemes jt jf
                    (PeriodeConge_filter db user annee "annuel") / 10
                  <= (somme_dixiemes jt jf
                        (PeriodeConge_filter db user annee "annuel")
                      + (dixiemes_hors jt jf p + 0)) / 10)
      by (apply Z.div_le_mono; lia).
    split; [exact Hle |]. split.
    + apply calculer_jours_fractionnement_croissant. exact Hle.
    + intros Hne. apply String.eqb_eq in Et. contradiction.
  - rewrite app_nil_r in Ef.
    assert (Hg : get_jours_hors_periode_principale
                   (PeriodeCongeForm_save db user a dt b ft type) user annee
                 = get_jours_hors_periode_principale db user annee).
    { unfold get_jours_hors_periode_principale. rewrite Ef. reflexivity. }
    eexists. split; [rewrite Hg; exact H1 |].
    split; [apply Z.le_refl |]. split; [apply Z.le_refl | reflexivity].
Qed.

Lemma PeriodeCongeForm_save_croissant_witness :
  exists n',
    retourne (get_jours_hors_periode_principale
                (PeriodeCongeForm_save
                   (mk_db [] []
                          [mk_periode 1 (mk_date 2024 11 4) "matin"
                                      (mk_date 2024 11 8) "matin" "annuel"
                                      2024])
                   1 (mk_date 2024 12 23) "matin" (mk_date 2024 12 24)
                   "apres_midi" "annuel")
                1 2024) (Ok n')
    /\ 4 <= n'.
Proof.
  destruct (PeriodeCongeForm_save_croissant
              (mk_db [] []
                     [mk_periode 1 (mk_date 2024 11 4) "matin"
                                 (mk_date 2024 11 8) "matin" "annuel" 2024])
              1 2024 (mk_date 2024 12 23) "matin" (mk_date 2024 12 24)
              "apres_midi" "annuel" 4)
    as (n' & H1 & H2 & _).
  - unfold ANNEE_MIN, ANNEE_MAX. lia.
  - discriminate.
  - repeat constructor.
  - cbn. lia.
  - reflexivity.
  - reflexivity.
  - reflexivity.
  - reflexivity.
  - reflexivity.
  - apply (scenario_une_periode
             (mk_db [] []
                    [mk_periode 1 (mk_date 2024 11 4) "matin"
                                (mk_date 2024 11 8) "matin" "annuel" 2024])
             1 (mk_periode 1 (mk_date 2024 11 4) "matin"
                           (mk_date 2024 11 8) "matin" "annuel" 2024)).
    + discriminate.
    + repeat split.
    + reflexivity.
  - exists n'. split; assumption.
Defined.

(** X21. The result does not depend on the order of the rows: when the annual
    periods of the user for the year are periods of that year, and a second
    database holds the same rows with its periods in another order,
    [get_jours_hors_periode_principale] and
    [calculer_fractionnement_complet] return from it what they return from
    the first. *)
Theorem get_jours_hors_periode_principale_ordre db db' user annee n :
  ANNEE_MIN <= annee <= ANNEE_MAX ->
  cycles db' = cycles db -> parametres db' = parametres db ->
  Permutation (periodes db) (periodes db') ->
  ParametresAnnee_get db user annee <> Raise MultipleObjectsReturned ->
  Forall (periode_de_l_annee annee)
         (PeriodeConge_filter db user annee "annuel") ->
  Z.of_nat (length (PeriodeConge_filter db user annee "annuel"))
  <= 1000000000000000000 ->
  retourne (get_jours_hors_periode_principale db user annee) (Ok n) ->
  retourne (get_jours_hors_periode_principale db' user annee) (Ok n)
  /\ retourne (calculer_fractionnement_complet db' user annee)
              (Ok (mk_resultat n (calculer_jours_fractionnement n) annee)).
Proof.
  intros Hy Hc Hp Hperm Hu Hl Hlen Hn.
  destruct (jours_type_service_ok db user annee Hu) as [jt Ejt].
  assert (Ejt' : jours_type_service db' user annee = Ok jt).
  { unfold jours_type_service, ParametresAnnee_get in *. rewrite Hp.
    exact Ejt. }
  pose proof (PeriodeConge_filter_perm db db' user annee "annuel" Hperm)
    as Hpf.
  assert (Hl' : Forall (periode_de_l_annee annee)
                       (PeriodeConge_filter db' user annee "annuel")).
  { apply List.Forall_forall. intros p Hin.
    rewrite List.Forall_forall in Hl. apply Hl.
    apply (Permutation_in _ (Permutation_sym Hpf)). exact Hin. }
  assert (Hlen' : Z.of_nat (length (PeriodeConge_filter db' user annee
                                                        "annuel"))
                  <= 1000000000000000000).
  { rewrite <- (Permutation_length Hpf). exact Hlen. }
  destruct (get_jours_hors_periode_principale_valeur db user annee jt
              Hy Ejt Hl Hlen) as (jf & Ejf & _ & H1).
  destruct (get_jours_hors_periode_principale_valeur db' user annee jt
              Hy Ejt' Hl' Hlen') as (jf' & Ejf' & _ & H2).
  assert (jf' = jf) by congruence. subst jf'.
  rewrite <- (somme_dixiemes_perm jt jf _ _ Hpf) in H2.
  pose proof (retourne_fun _ _ _ Hn H1) as E. injection E as ->.
  split; [exact H2 |].
  apply calculer_fractionnement_complet_ok. exact H2.
Qed.

Lemma get_jours_hors_periode_principale_ordre_witness :
  retourne (get_jours_hors_periode_principale
              (mk_db [] []
                     [mk_periode 1 (mk_date 2024 11 8) "apres_midi"
                                 (mk_date 2024 11 8) "apres_midi" "annuel"
                                 2024;
                      mk_periode 1 (mk_date 2024 11 4) "matin"
                                 (mk_date 2024 11 8) "matin" "annuel" 2024])
              1 2024) (Ok 5).
Proof.
  apply (get_jours_hors_periode_principale_ordre
           (mk_db [] []
                  [mk_periode 1 (mk_date 2024 11 4) "matin"
                              (mk_date 2024 11 8) "matin" "annuel" 2024;
                   mk_periode 1 (mk_date 2024 11 8) "apres_midi"
                              (mk_date 2024 11 8) "apres_midi" "annuel"
                              2024])
           _ 1 2024 5).
  - unfold ANNEE_MIN, ANNEE_MAX. lia.
  - reflexivity.
  - reflexivity.
  - apply perm_swap.
  - discriminate.
  - repeat constructor.
  - cbn. lia.
  - apply (scenario_deux_periodes _ 1
             (mk_periode 1 (mk_date 2024 11 4) "matin"
                         (mk_date 2024 11 8) "matin" "annuel" 2024)
             (mk_periode 1 (mk_date 2024 11 8) "apres_midi"
                         (mk_date 2024 11 8) "apres_midi" "annuel" 2024)).
    + discriminate.
    + repeat split.
    + repeat split.
    + apply Permutation_refl.
Defined.

(** X22. From any cache and any database, [get_jours_hors_periode_principale]
    either returns a number that is not negative, the year being within
    2020..2100 and [ParametresAnnee] holding at most one row for the user
    and the year, or raises [ValueError], the year being outside 2020..2100,
    or raises [MultipleObjectsReturned], the year being within 2020..2100
    and [ParametresAnnee] holding two rows or more for the user and the
    year: nothing that is raised while a period is counted gets out of the
    loop. *)
Theorem get_jours_hors_periode_principale_exceptions db user annee
        (c : cache) :
  let lignes :=
    List.filter (fun p => (pa_user p =? user) && (pa_annee p =? annee))
                (parametres db) in
  match fst (get_jours_hors_periode_principale db user annee c) with
  | Ok n =>
      ANNEE_MIN <= annee <= ANNEE_MAX /\ (length lignes <= 1)%nat /\ 0 <= n
  | Raise e =>
      (e = ValueError /\ (annee < ANNEE_MIN \/ ANNEE_MAX < annee))
      \/ (e = MultipleObjectsReturned /\ ANNEE_MIN <= annee <= ANNEE_MAX
          /\ (2 <= length lignes)%nat)
  end.
Proof.
  cbv zeta.
  destruct (fst (get_jours_hors_periode_principale db user annee c))
    as [n | e] eqn:E.
  - assert (Hy : ANNEE_MIN <= annee <= ANNEE_MAX).
    { destruct (Z_lt_dec annee ANNEE_MIN) as [H | H];
        [| destruct (Z_lt_dec ANNEE_MAX annee) as [H' | H']; [| lia]].
      - rewrite get_jours_hors_periode_principale_annee_invalide in E
          by (left; exact H). discriminate.
      - rewrite get_jours_hors_periode_principale_annee_invalide in E
          by (right; exact H'). discriminate. }
    split; [exact Hy |]. split.
    + destruct (le_lt_dec (length (List.filter
                                     (fun p => (pa_user p =? user)
                                               && (pa_annee p =? annee))
                                     (parametres db))) 1) as [H | H];
        [exact H |].
      exfalso. apply objects_get_multiple in H.
      unfold get_jours_hors_periode_principale in E.
      replace ((annee <? ANNEE_MIN) || (ANNEE_MAX <? annee)) with false in E
        by lia.
      unfold m_bind, m_lift, ParametresAnnee_get in E. rewrite H in E.
      discriminate.
    + destruct (get_jours_hors_periode_principale db user annee c)
        as [r c1] eqn:Eg. cbn [fst] in E. subst r.
      exact (get_jours_hors_periode_principale_positif db user annee c n c1
               Eg).
  - destruct (get_jours_hors_periode_principale_raises db user annee c e E)
      as [H | (-> & Hy & H)]; [left; exact H | right].
    split; [reflexivity |]. split; [exact Hy |].
    apply objects_get_multiple. exact H.
Qed.
